(** * sway-monitor-daemon: the matcher, the reconciliation cycle and the
      profile store of [sway_monitor_daemon.py]

    The daemon is embedded shallowly, one definition per method of
    [MonitorProfile] and [MonitorDaemon].

    - Python dictionaries that the code uses as structs (a sway output, an
      output configuration) are records whose fields are optional, so that
      [d['k']] on an absent key raises [KeyError] and [d.get('k', v)] falls
      back to [v].  A field that is present has the type that sway's
      [get_outputs] reply and the profile file format give it.
    - Dictionaries used as maps are maps: [profile.configs] is a [gmap]
      (the code only looks keys up and assigns to them), [self.profiles] is
      an insertion ordered association list, because [find_best_config]
      iterates over [self.profiles.values()].  [self.current_monitors] is
      a [gset].
    - Exceptions are values of [result].  Code that changes the daemon or
      the profile directory, or runs [swaymsg], lives in the state and
      exception monad [M] over [World]; the world carries the list of the
      [swaymsg output ...] commands run so far.
    - The [json] library and the processes are the environment: a file or
      a process output is given by what the decoder makes of it, and the
      exit status of each command comes from [Runtime].
    - A [str] is kept as its UTF-8 encoding, a sequence of bytes.  The
      text of the marker file is kept as it was written; decoding it and
      the translation of line ends in text mode are not modelled, and the
      statements that depend on reading a text back ask for plain text
      ([plain_text]), for which [f.read()] returns the text as it is.
    - The profile directory is the map of its [*.json] files by stem.  A
      name stands for the file of that stem when it is a single component
      of a path ([is_stem]); the statements that depend on finding a
      written file again ask for that.
    - Logging, the udev observer and the main loop of [run] are not
      modelled. *)

From Stdlib Require Import ZArith String Ascii List DecimalString.
From Stdlib Require Import Floats.SpecFloat.
From stdpp Require Import base option gmap strings list.

Open Scope string_scope.

(** ** Python values and exceptions *)

Inductive exn : Type :=
| KeyError (key : string)
| ValueError
| JSONDecodeError
| OSError.

Inductive result (A : Type) : Type :=
| Ok (a : A)
| Raise (e : exn).
Arguments Ok {A} a.
Arguments Raise {A} e.

(** A JSON number as [json.loads] returns it: an [int] or a [float]. *)
Inductive number : Type :=
| NInt (z : Z)
| NFloat (f : spec_float).

(** The float [1.0] (binary64: mantissa [2^52], exponent [-52]). *)
Definition float_one : spec_float := S754_finite false 4503599627370496 (-52).

(** [str(z)] for an [int]. *)
Definition str_int (z : Z) : string := NilZero.string_of_int (Z.to_int z).

(** Truth value of a [str]: the empty string is false. *)
Definition str_truthy (s : string) : bool :=
  match s with EmptyString => false | String _ _ => true end.

(** ** Insertion-ordered dictionaries ([dict] used as a map and iterated) *)

Abbreviation pydict V := (list (string * V)).

Fixpoint dict_get {V} (d : pydict V) (k : string) : option V :=
  match d with
  | [] => None
  | (k', v) :: d' => if String.eqb k' k then Some v else dict_get d' k
  end.

(** [d[k] = v]: an existing key keeps its place, a new key goes last. *)
Fixpoint dict_set {V} (d : pydict V) (k : string) (v : V) : pydict V :=
  match d with
  | [] => [(k, v)]
  | (k', v') :: d' =>
      if String.eqb k' k then (k', v) :: d' else (k', v') :: dict_set d' k v
  end.

Definition dict_values {V} (d : pydict V) : list V := map snd d.
Definition dict_keys {V} (d : pydict V) : list string := map fst d.

(** A Python dictionary holds every key once. *)
Definition dict_wf {V} (d : pydict V) : Prop := NoDup (dict_keys d).

(** ** Data model *)

(** [monitor['rect']] and [monitor['current_mode']] of a sway output. *)
Record Rect := { rect_x : option Z; rect_y : option Z }.
Record Mode := { mode_width : option Z; mode_height : option Z }.

(** One element of the [get_outputs] reply; [None] is an absent key. *)
Record Monitor := {
  mon_name : option string;
  mon_model : option string;
  mon_serial : option string;
  mon_rect : option Rect;
  mon_current_mode : option Mode;
  mon_scale : option number;
  mon_transform : option string;
  mon_disabled : option bool
}.

(** One value of a profile file: the dictionary with the keys ['model'],
    ['position'], ['resolution'], ['scale'], ['transform'], ['enabled'],
    each of which a file may omit. *)
Record Config := {
  cfg_model : option string;
  cfg_position : option string;
  cfg_resolution : option string;
  cfg_scale : option number;
  cfg_transform : option string;
  cfg_enabled : option bool
}.

(** [if config:] a dictionary is true when it has a key. *)
Definition has_key {A} (o : option A) : bool :=
  match o with Some _ => true | None => false end.

Definition config_truthy (c : Config) : bool :=
  has_key (cfg_model c) || has_key (cfg_position c)
  || has_key (cfg_resolution c) || has_key (cfg_scale c)
  || has_key (cfg_transform c) || has_key (cfg_enabled c).

Definition DEFAULT_PROFILE : string := "default".

(** [class MonitorProfile]; [file_path] is [PROFILES_PATH / f"{name}.json"],
    a function of [name], and files are addressed by that name below. *)
Record MonitorProfile := {
  prof_name : string;
  prof_configs : gmap string Config
}.

(** [configs or {}] in [MonitorProfile.__init__]. *)
Definition MonitorProfile_init (name : string) (configs : option (gmap string Config))
  : MonitorProfile :=
  {| prof_name := name;
     prof_configs := match configs with
                     | Some c => if decide (c = ∅) then ∅ else c
                     | None => ∅
                     end |}.

(** The fields of [class MonitorDaemon] the claims are about (the pyudev
    handles are left out). *)
Record Daemon := {
  profiles : pydict MonitorProfile;
  active_profile_name : string;
  current_monitors : gset string
}.

(** ** [MonitorDaemon.find_best_config] *)

(** [monitor.get(k, '')] *)
Definition get_str (o : option string) : string := default "" o.

(** [[f"{model}_{serial}", model, name]] *)
Definition identifiers (monitor : Monitor) : list string :=
  let model := get_str (mon_model monitor) in
  let name := get_str (mon_name monitor) in
  let serial := get_str (mon_serial monitor) in
  [model ++ "_" ++ serial; model; name].

(** [for identifier in ids: if identifier in configs: return configs[identifier]] *)
Fixpoint first_hit (configs : gmap string Config) (ids : list string) : option Config :=
  match ids with
  | [] => None
  | identifier :: ids' =>
      match configs !! identifier with
      | Some c => Some c
      | None => first_hit configs ids'
      end
  end.

(** [for profile in ps: for identifier in ids: ...] *)
Fixpoint search_profiles (ps : list MonitorProfile) (ids : list string) : option Config :=
  match ps with
  | [] => None
  | profile :: ps' =>
      match first_hit (prof_configs profile) ids with
      | Some c => Some c
      | None => search_profiles ps' ids
      end
  end.

Definition find_best_config (self : Daemon) (monitor : Monitor) : result (option Config) :=
  let ids := identifiers monitor in
  match dict_get (profiles self) (active_profile_name self) with
  | None => Raise (KeyError (active_profile_name self))
  | Some active_profile =>
      match first_hit (prof_configs active_profile) ids with
      | Some c => Ok (Some c)
      | None => Ok (search_profiles (dict_values (profiles self)) ids)
      end
  end.

(** The profiles other than the active one, in dictionary order. *)
Definition other_profiles (self : Daemon) : list MonitorProfile :=
  map snd (filter (fun kv => fst kv <> active_profile_name self) (profiles self)).

(** The matcher as the specification words it, with every lookup written
    out.  One profile is tried under ["{model}_{serial}"], then under
    [model], then under [name]. *)
Definition try_profile (model serial name : string) (profile : MonitorProfile)
  : option Config :=
  match prof_configs profile !! (model ++ "_" ++ serial) with
  | Some c => Some c
  | None =>
      match prof_configs profile !! model with
      | Some c => Some c
      | None => prof_configs profile !! name
      end
  end.

(** The active profile is tried first; the others are consulted, in their
    order, only when it has no entry, and the first of them with an entry
    gives the result. *)
Definition find_best_config_spec (active_profile : MonitorProfile)
    (others : list MonitorProfile) (model serial name : string) : option Config :=
  match try_profile model serial name active_profile with
  | Some c => Some c
  | None => head (omap (try_profile model serial name) others)
  end.

(** ** The environment: the profile directory and [swaymsg] *)

(** What a [*.json] file of the profile directory holds, up to the [json]
    library: a document, given by the dictionary [json.load] returns for
    it (so [json.load] after [json.dump] returns what was dumped), an empty
    file, or other text that [json.load] rejects. *)
Inductive file : Type :=
| FDoc (configs : gmap string Config)
| FEmpty
| FCorrupt.

(** The profile directory: its [*.json] files by stem, in the order
    [PROFILES_PATH.glob('*.json')] yields them, and the text of the
    [active_profile] marker, as it was written, when that file exists.
    A key [k] stands for the file [PROFILES_PATH / f"{k}.json"]. *)
Record FS := {
  profile_files : pydict file;
  active_file : option string
}.

(** How a [swaymsg] process ends: it exits with a status, or it could not
    be started ([subprocess] raises [OSError]). *)
Inductive process : Type :=
| Exited (code : Z)
| NotStarted.

(** Standard output of [swaymsg -t get_outputs], up to [json.loads]. *)
Inductive stdout : Type :=
| Malformed
| Outputs (monitors : list Monitor).

(** One run of [swaymsg -t get_outputs]. *)
Inductive query : Type :=
| QExited (code : Z) (out : stdout)
| QNotStarted.

(** What the model takes from the Python runtime and from the compositor:
    [str(f)] for a [float], and how the [swaymsg output ...] command [cmd]
    ends after the commands [history] were run. *)
Record Runtime := {
  float_str : spec_float -> string;
  swaymsg : forall (history : list (list string)) (cmd : list string), process
}.

Record World := {
  daemon : Daemon;
  fs : FS;
  calls : list (list string)
}.

Definition set_daemon (d : Daemon) (w : World) : World :=
  {| daemon := d; fs := fs w; calls := calls w |}.
Definition set_fs (f : FS) (w : World) : World :=
  {| daemon := daemon w; fs := f; calls := calls w |}.
Definition add_calls (cmds : list (list string)) (w : World) : World :=
  {| daemon := daemon w; fs := fs w; calls := (calls w ++ cmds)%list |}.

Definition set_profiles (ps : pydict MonitorProfile) (d : Daemon) : Daemon :=
  {| profiles := ps; active_profile_name := active_profile_name d;
     current_monitors := current_monitors d |}.
Definition set_active_profile_name (n : string) (d : Daemon) : Daemon :=
  {| profiles := profiles d; active_profile_name := n;
     current_monitors := current_monitors d |}.
Definition set_current_monitors (s : gset string) (d : Daemon) : Daemon :=
  {| profiles := profiles d; active_profile_name := active_profile_name d;
     current_monitors := s |}.

(** ** The monads *)

#[global] Instance result_ret : MRet result := fun _ a => Ok a.
#[global] Instance result_bind : MBind result := fun _ _ f r =>
  match r with Ok a => f a | Raise e => Raise e end.

(** A computation on the world that returns or raises; the world it
    leaves is kept in both cases. *)
Definition M (A : Type) : Type := World -> result A * World.

#[global] Instance M_ret : MRet M := fun _ a w => (Ok a, w).
#[global] Instance M_bind : MBind M := fun _ _ f m w =>
  match m w with
  | (Ok a, w') => f a w'
  | (Raise e, w') => (Raise e, w')
  end.

Definition lift {A} (r : result A) : M A := fun w => (r, w).
Definition get_world : M World := fun w => (Ok w, w).
Definition modify (f : World -> World) : M unit := fun w => (Ok tt, f w).

(** [for x in l: body(x)] *)
Fixpoint for_each {A} (l : list A) (body : A -> M unit) : M unit :=
  match l with
  | [] => mret tt
  | a :: l' => body a ≫= fun _ => for_each l' body
  end.

(** [d[key]] on a struct field *)
Definition getitem {A} (key : string) (o : option A) : result A :=
  match o with Some a => Ok a | None => Raise (KeyError key) end.

(** ** Strings *)

(** [s.split(sep)] for a one-character separator. *)
Fixpoint str_split (sep : ascii) (s : string) : list string :=
  match s with
  | EmptyString => [""]
  | String c s' =>
      if Ascii.eqb c sep then "" :: str_split sep s'
      else match str_split sep s' with
           | piece :: pieces => String c piece :: pieces
           | [] => [String c ""]
           end
  end.

(** [a, b = l] *)
Definition unpack2 (l : list string) : result (string * string) :=
  match l with
  | [a; b] => Ok (a, b)
  | _ => Raise ValueError
  end.

(** Python's white space, the characters for which [str.isspace] holds.
    A [str] is kept as its UTF-8 encoding, so that a white-space character
    is one byte (U+0009 to U+000D, U+001C to U+0020), two bytes (U+0085,
    U+00A0) or three (U+1680, U+2000 to U+200A, U+2028, U+2029, U+202F,
    U+205F, U+3000). *)
Definition is_space (c : ascii) : bool :=
  let n := nat_of_ascii c in
  ((9 <=? n)%nat && (n <=? 13)%nat) || ((28 <=? n)%nat && (n <=? 32)%nat).

Definition is_space2 (c1 c2 : ascii) : bool :=
  let n1 := nat_of_ascii c1 in
  let n2 := nat_of_ascii c2 in
  (n1 =? 194)%nat && ((n2 =? 133)%nat || (n2 =? 160)%nat).

Definition is_space3 (c1 c2 c3 : ascii) : bool :=
  let n1 := nat_of_ascii c1 in
  let n2 := nat_of_ascii c2 in
  let n3 := nat_of_ascii c3 in
  ((n1 =? 225)%nat && (n2 =? 154)%nat && (n3 =? 128)%nat)
  || ((n1 =? 226)%nat && (n2 =? 128)%nat
      && (((128 <=? n3)%nat && (n3 <=? 138)%nat)
          || (n3 =? 168)%nat || (n3 =? 169)%nat || (n3 =? 175)%nat))
  || ((n1 =? 226)%nat && (n2 =? 129)%nat && (n3 =? 159)%nat)
  || ((n1 =? 227)%nat && (n2 =? 128)%nat && (n3 =? 128)%nat).

Fixpoint lstrip (s : string) : string :=
  match s with
  | EmptyString => ""
  | String c1 s1 =>
      if is_space c1 then lstrip s1
      else
        match s1 with
        | EmptyString => s
        | String c2 s2 =>
            if is_space2 c1 c2 then lstrip s2
            else
              match s2 with
              | EmptyString => s
              | String c3 s3 => if is_space3 c1 c2 c3 then lstrip s3 else s
              end
        end
  end.

(** The text is white space throughout. *)
Definition all_space (s : string) : bool :=
  match lstrip s with EmptyString => true | _ => false end.

(** The longest suffix that is white space is dropped. *)
Fixpoint rstrip (s : string) : string :=
  match s with
  | EmptyString => ""
  | String c s' => if all_space s then "" else String c (rstrip s')
  end.

(** [s.strip()] *)
Definition strip (s : string) : string := rstrip (lstrip s).

Definition str_number (rt : Runtime) (n : number) : string :=
  match n with
  | NInt z => str_int z
  | NFloat f => float_str rt f
  end.

(** ** [MonitorProfile.save] and [MonitorProfile.load] *)

(** [open(self.file_path, 'w')]: the file exists and is empty. *)
Definition open_w (name : string) (f : FS) : FS :=
  {| profile_files := dict_set (profile_files f) name FEmpty;
     active_file := active_file f |}.

(** [json.dump(self.configs, f, indent=2)] and the close of the file. *)
Definition json_dump (name : string) (configs : gmap string Config) (f : FS) : FS :=
  {| profile_files := dict_set (profile_files f) name (FDoc configs);
     active_file := active_file f |}.

(** The states of the profile directory that another process can see
    while [save] runs: before the [open], between the [open] and the
    write, and after the file is closed. *)
Definition save_states (p : MonitorProfile) (f : FS) : list FS :=
  [f; open_w (prof_name p) f;
   json_dump (prof_name p) (prof_configs p) (open_w (prof_name p) f)].

Definition MonitorProfile_save (p : MonitorProfile) : M unit :=
  modify (fun w =>
    set_fs (json_dump (prof_name p) (prof_configs p) (open_w (prof_name p) (fs w))) w).

(** [json.load(f)] *)
Definition json_load (c : file) : result (gmap string Config) :=
  match c with
  | FDoc configs => Ok configs
  | FEmpty | FCorrupt => Raise JSONDecodeError
  end.

Definition MonitorProfile_load (name : string) : M MonitorProfile :=
  w ← get_world;
  match dict_get (profile_files (fs w)) name with
  | Some c =>
      configs ← lift (json_load c);
      mret (MonitorProfile_init name (Some configs))
  | None => mret (MonitorProfile_init name None)
  end.

(** ** [MonitorDaemon] *)

(** [self.profiles[name] = profile] *)
Definition store_profile (name : string) (p : MonitorProfile) : M unit :=
  modify (fun w => set_daemon (set_profiles (dict_set (profiles (daemon w)) name p) (daemon w)) w).

Definition load_profiles : M unit :=
  w ← get_world;
  for_each (dict_keys (profile_files (fs w))) (fun profile_name =>
    p ← MonitorProfile_load profile_name;
    store_profile profile_name p);;
  w ← get_world;
  match dict_get (profiles (daemon w)) DEFAULT_PROFILE with
  | Some _ => mret tt
  | None => store_profile DEFAULT_PROFILE (MonitorProfile_init DEFAULT_PROFILE None)
  end;;
  w ← get_world;
  match active_file (fs w) with
  | Some text =>
      modify (fun w => set_daemon (set_active_profile_name (strip text) (daemon w)) w)
  | None => mret tt
  end.

Definition save_active_profile : M unit :=
  modify (fun w =>
    set_fs {| profile_files := profile_files (fs w);
              active_file := Some (active_profile_name (daemon w)) |} w).

(** [subprocess.check_output] raises [CalledProcessError] on a status
    other than 0, which is the one exception caught. *)
Definition get_current_monitors (q : query) : result (list Monitor) :=
  match q with
  | QNotStarted => Raise OSError
  | QExited code out =>
      if (code =? 0)%Z then
        match out with
        | Outputs monitors => Ok monitors
        | Malformed => Raise JSONDecodeError
        end
      else Ok []
  end.

(** The command line [apply_monitor_config] builds before running it. *)
Definition output_command (rt : Runtime) (monitor : Monitor) (config : Config)
  : result (list string) :=
  name ← getitem "name" (mon_name monitor);
  let cmd := ["swaymsg"; "output"; name] in
  if default true (cfg_enabled config) then
    resolution ← getitem "resolution" (cfg_resolution config);
    '(width, height) ← unpack2 (str_split "x" resolution);
    position ← getitem "position" (cfg_position config);
    '(x, y) ← unpack2 (str_split "," position);
    scale ← getitem "scale" (cfg_scale config);
    transform ← getitem "transform" (cfg_transform config);
    mret (cmd ++ ["pos"; x; y] ++ ["res"; width; height]
              ++ ["scale"; str_number rt scale] ++ ["transform"; transform])%list
  else mret (cmd ++ ["disable"])%list.

(** The [try] statement of [apply_monitor_config]: [subprocess.run(cmd,
    check=True)] raises [CalledProcessError] on a status other than 0,
    which the handler turns into [False]. *)
Definition run_checked (rt : Runtime) (cmd : list string) : M bool :=
  fun w =>
    match swaymsg rt (calls w) cmd with
    | Exited code => (Ok (code =? 0)%Z, add_calls [cmd] w)
    | NotStarted => (Raise OSError, add_calls [cmd] w)
    end.

Definition apply_monitor_config (rt : Runtime) (monitor : Monitor) (config : Config)
  : M bool :=
  cmd ← lift (output_command rt monitor config);
  run_checked rt cmd.

(** [{m['name'] for m in monitors}] *)
Fixpoint monitor_names (monitors : list Monitor) : result (gset string) :=
  match monitors with
  | [] => Ok ∅
  | m :: monitors' =>
      name ← getitem "name" (mon_name m);
      names ← monitor_names monitors';
      mret ({[name]} ∪ names)
  end.

(** [logging.warning(f"No configuration found for monitor {monitor['name']}")]:
    the message is formatted before it is logged. *)
Definition warn_no_configuration (monitor : Monitor) : M unit :=
  lift (getitem "name" (mon_name monitor)) ≫= fun _ => mret tt.

(** The body of the loop of [update_monitor_configs]. *)
Definition configure (rt : Runtime) (monitor : Monitor) : M unit :=
  w ← get_world;
  config ← lift (find_best_config (daemon w) monitor);
  match config with
  | Some c =>
      if config_truthy c then apply_monitor_config rt monitor c ≫= fun _ => mret tt
      else warn_no_configuration monitor
  | None => warn_no_configuration monitor
  end.

Definition update_monitor_configs (rt : Runtime) (q : query) : M unit :=
  monitors ← lift (get_current_monitors q);
  new_monitor_set ← lift (monitor_names monitors);
  w ← get_world;
  if decide (new_monitor_set ≠ current_monitors (daemon w)) then
    for_each monitors (configure rt);;
    modify (fun w => set_daemon (set_current_monitors new_monitor_set (daemon w)) w)
  else mret tt.

(** The dictionary literal [config] of [save_current_setup]. *)
Definition capture (model : string) (monitor : Monitor) : result Config :=
  rect ← getitem "rect" (mon_rect monitor);
  x ← getitem "x" (rect_x rect);
  y ← getitem "y" (rect_y rect);
  mode ← getitem "current_mode" (mon_current_mode monitor);
  width ← getitem "width" (mode_width mode);
  height ← getitem "height" (mode_height mode);
  mret {| cfg_model := Some model;
          cfg_position := Some (str_int x ++ "," ++ str_int y);
          cfg_resolution := Some (str_int width ++ "x" ++ str_int height);
          cfg_scale := Some (default (NFloat float_one) (mon_scale monitor));
          cfg_transform := Some (default "normal" (mon_transform monitor));
          cfg_enabled := Some (negb (default false (mon_disabled monitor))) |}.

(** [profile.configs[key] = config], on the profile object that
    [self.profiles] holds under [name]. *)
Definition set_config (name key : string) (config : Config) : M unit :=
  modify (fun w =>
    match dict_get (profiles (daemon w)) name with
    | Some p =>
        let p' := {| prof_name := prof_name p;
                     prof_configs := <[key := config]> (prof_configs p) |} in
        set_daemon (set_profiles (dict_set (profiles (daemon w)) name p') (daemon w)) w
    | None => w
    end).

(** The body of the loop of [save_current_setup]; [name] is the key of
    [profile] in [self.profiles]. *)
Definition snapshot (name : string) (monitor : Monitor) : M unit :=
  let model := get_str (mon_model monitor) in
  if str_truthy model then
    config ← lift (capture model monitor);
    set_config name model config;;
    match mon_serial monitor with
    | Some serial =>
        if str_truthy serial then set_config name (model ++ "_" ++ serial) config
        else mret tt
    | None => mret tt
    end
  else mret tt.

Definition save_current_setup (q : query) (profile_name : option string) : M unit :=
  match profile_name with
  | Some n =>
      if str_truthy n
      then modify (fun w => set_daemon (set_active_profile_name n (daemon w)) w)
      else mret tt
  | None => mret tt
  end;;
  monitors ← lift (get_current_monitors q);
  w ← get_world;
  let name := active_profile_name (daemon w) in
  match dict_get (profiles (daemon w)) name with
  | Some _ => mret tt
  | None => store_profile name (MonitorProfile_init name None)
  end;;
  for_each monitors (snapshot name);;
  w ← get_world;
  match dict_get (profiles (daemon w)) name with
  | Some profile => MonitorProfile_save profile
  | None => mret tt
  end;;
  save_active_profile.

(** ** Notions the statements use *)

(** The set of output names one query yields. *)
Definition query_names (q : query) : result (gset string) :=
  monitors ← get_current_monitors q;
  monitor_names monitors.

(** The command of an output that has a matching configuration. *)
Definition command_for (rt : Runtime) (self : Daemon) (monitor : Monitor)
  : option (list string) :=
  match find_best_config self monitor with
  | Ok (Some c) =>
      match output_command rt monitor c with
      | Ok cmd => Some cmd
      | Raise _ => None
      end
  | _ => None
  end.

(** Every profile is stored under its own name, as [load_profiles] and
    [save_current_setup] store them. *)
Definition profiles_named (ps : pydict MonitorProfile) : Prop :=
  forall k p, dict_get ps k = Some p -> prof_name p = k.

(** Every [swaymsg output ...] command can be started. *)
Definition starts (rt : Runtime) : Prop :=
  forall history cmd, swaymsg rt history cmd <> NotStarted.

(** The matcher returns for the output, and a configuration it returns
    has what [apply_monitor_config] reads to build the command. *)
Definition appliable (rt : Runtime) (self : Daemon) (monitor : Monitor) : Prop :=
  exists r, find_best_config self monitor = Ok r
            /\ forall c, r = Some c -> exists cmd, output_command rt monitor c = Ok cmd.

(** The profile [load_profiles] stores for the file with stem [k]. *)
Definition loaded_profile (f : FS) (k : string) : option MonitorProfile :=
  match dict_get (profile_files f) k with
  | Some (FDoc c) => Some (MonitorProfile_init k (Some c))
  | _ => None
  end.

(** [self.profiles] after the loop of [load_profiles] over the stems [ks]
    when each file parses. *)
Definition load_all (f : FS) (ks : list string) (ps : pydict MonitorProfile)
  : pydict MonitorProfile :=
  fold_left (fun ps k => match loaded_profile f k with
                         | Some p => dict_set ps k p
                         | None => ps
                         end) ks ps.

(** Every file of the profile directory holds a document. *)
Definition all_parse (f : FS) : Prop :=
  forall k c, dict_get (profile_files f) k = Some c -> exists configs, c = FDoc configs.

(** The keys [save_current_setup] writes for one output: the model, and
    the model with the serial when there is a serial. *)
Definition keys_written (monitor : Monitor) : list string :=
  let model := get_str (mon_model monitor) in
  if str_truthy model then
    model :: match mon_serial monitor with
             | Some serial => if str_truthy serial then [model ++ "_" ++ serial] else []
             | None => []
             end
  else [].

(** [profile.configs] after the loop body of [save_current_setup] for one
    output that it can capture, and after the loop. *)
Definition record (monitor : Monitor) (configs : gmap string Config)
  : gmap string Config :=
  match capture (get_str (mon_model monitor)) monitor with
  | Ok config => fold_left (fun cs k => <[k := config]> cs) (keys_written monitor) configs
  | Raise _ => configs
  end.

Definition record_all (monitors : list Monitor) (configs : gmap string Config)
  : gmap string Config :=
  fold_left (fun cs m => record m cs) monitors configs.

(** [save_current_setup] can capture the output: it has no model, or it
    has ['rect'] and ['current_mode'] with their coordinates. *)
Definition capturable (monitor : Monitor) : Prop :=
  str_truthy (get_str (mon_model monitor)) = true ->
  exists config, capture (get_str (mon_model monitor)) monitor = Ok config.

(** The profile name [save_current_setup] saves under, and the profile
    object it fills. *)
Definition target_name (profile_name : option string) (self : Daemon) : string :=
  match profile_name with
  | Some n => if str_truthy n then n else active_profile_name self
  | None => active_profile_name self
  end.

Definition target_profile (profile_name : option string) (self : Daemon) : MonitorProfile :=
  let name := target_name profile_name self in
  default (MonitorProfile_init name None) (dict_get (profiles self) name).

(** The world in which [self.profiles[name]] is the profile [p]. *)
Definition with_profile (name : string) (p : MonitorProfile) (w : World) : World :=
  set_daemon (set_profiles (dict_set (profiles (daemon w)) name p) (daemon w)) w.

(** The profile [p] with the outputs [monitors] recorded in it. *)
Definition recorded (monitors : list Monitor) (p : MonitorProfile) : MonitorProfile :=
  {| prof_name := prof_name p; prof_configs := record_all monitors (prof_configs p) |}.

(** ** Example data *)

Definition cfg_1080p : Config :=
  {| cfg_model := Some "DELL"; cfg_position := Some "0,0";
     cfg_resolution := Some "1920x1080"; cfg_scale := Some (NFloat float_one);
     cfg_transform := Some "normal"; cfg_enabled := Some true |}.

Definition cfg_1440p : Config :=
  {| cfg_model := Some "DELL"; cfg_position := Some "1920,0";
     cfg_resolution := Some "2560x1440"; cfg_scale := Some (NFloat float_one);
     cfg_transform := Some "normal"; cfg_enabled := Some true |}.

Definition cfg_lg : Config :=
  {| cfg_model := Some "LG"; cfg_position := Some "1920,0";
     cfg_resolution := Some "2560x1440"; cfg_scale := Some (NFloat float_one);
     cfg_transform := Some "normal"; cfg_enabled := Some true |}.

Definition dell_monitor : Monitor :=
  {| mon_name := Some "DP-1"; mon_model := Some "DELL"; mon_serial := Some "ABC123";
     mon_rect := Some {| rect_x := Some 0%Z; rect_y := Some 0%Z |};
     mon_current_mode := Some {| mode_width := Some 1920%Z; mode_height := Some 1080%Z |};
     mon_scale := Some (NFloat float_one); mon_transform := Some "normal";
     mon_disabled := Some false |}.

(** The active profile knows the output by model and serial, another
    profile by its model. *)
Definition two_profiles : Daemon :=
  {| profiles :=
       [("default", {| prof_name := "default";
                       prof_configs := {["DELL_ABC123" := cfg_1080p]} |});
        ("office", {| prof_name := "office";
                      prof_configs := <["LG_XYZ" := cfg_lg]> {["DELL" := cfg_1440p]} |})];
     active_profile_name := "default";
     current_monitors := ∅ |}.

(** The active profile knows one output both by its model and by its
    name. *)
Definition model_and_name : Daemon :=
  {| profiles :=
       [("default", {| prof_name := "default";
                       prof_configs := <["DP-2" := cfg_1080p]> {["LG" := cfg_lg]} |})];
     active_profile_name := "default";
     current_monitors := ∅ |}.

Definition lg_monitor : Monitor :=
  {| mon_name := Some "DP-2"; mon_model := Some "LG"; mon_serial := Some "XYZ";
     mon_rect := Some {| rect_x := Some 1920%Z; rect_y := Some 0%Z |};
     mon_current_mode := Some {| mode_width := Some 2560%Z; mode_height := Some 1440%Z |};
     mon_scale := Some (NFloat float_one); mon_transform := Some "normal";
     mon_disabled := None |}.

(** An output no profile knows, without a serial. *)
Definition acme_monitor : Monitor :=
  {| mon_name := Some "HDMI-A-1"; mon_model := Some "ACME"; mon_serial := Some "";
     mon_rect := Some {| rect_x := Some 0%Z; rect_y := Some 0%Z |};
     mon_current_mode := Some {| mode_width := Some 1280%Z; mode_height := Some 720%Z |};
     mon_scale := None; mon_transform := None; mon_disabled := None |}.

(** A compositor that rejects every command for DP-2; the examples hold
    no float other than [1.0]. *)
Definition rt_dp2_fails : Runtime :=
  {| float_str := fun _ => "1.0";
     swaymsg := fun _ cmd =>
       match cmd with
       | _ :: _ :: "DP-2" :: _ => Exited 1
       | _ => Exited 0
       end |}.

Definition empty_fs : FS := {| profile_files := []; active_file := None |}.

Definition desk : World := {| daemon := two_profiles; fs := empty_fs; calls := [] |}.

Definition three_outputs : query :=
  QExited 0 (Outputs [lg_monitor; dell_monitor; acme_monitor]).

Definition three_names : gset string := list_to_set ["DP-2"; "DP-1"; "HDMI-A-1"].

(** The world after one cycle on [three_outputs] from [desk]. *)
Definition desk_reconciled : World :=
  snd (update_monitor_configs rt_dp2_fails three_outputs desk).

(** A directory whose first file is corrupt; the daemon has just been
    constructed. *)
Definition broken_dir : World :=
  {| daemon := {| profiles := []; active_profile_name := DEFAULT_PROFILE;
                  current_monitors := ∅ |};
     fs := {| profile_files := [("work", FCorrupt);
                                ("office", FDoc {["LG_XYZ" := cfg_lg]})];
              active_file := None |};
     calls := [] |}.

(** A directory with one profile, and a marker that names a profile with
    no file. *)
Definition stale_marker : World :=
  {| daemon := {| profiles := []; active_profile_name := DEFAULT_PROFILE;
                  current_monitors := ∅ |};
     fs := {| profile_files := [("office", FDoc {["LG_XYZ" := cfg_lg]})];
              active_file := Some "work
" |};
     calls := [] |}.

(** What [save_current_setup] captures of [acme_monitor]. *)
Definition cfg_acme : Config :=
  {| cfg_model := Some "ACME"; cfg_position := Some "0,0";
     cfg_resolution := Some "1280x720"; cfg_scale := Some (NFloat float_one);
     cfg_transform := Some "normal"; cfg_enabled := Some true |}.

Definition only_acme : query := QExited 0 (Outputs [acme_monitor]).

(** A second output of the same model, to the right of the first. *)
Definition dell_monitor_2 : Monitor :=
  {| mon_name := Some "DP-3"; mon_model := Some "DELL"; mon_serial := Some "DEF456";
     mon_rect := Some {| rect_x := Some 1920%Z; rect_y := Some 0%Z |};
     mon_current_mode := Some {| mode_width := Some 1920%Z; mode_height := Some 1080%Z |};
     mon_scale := Some (NFloat float_one); mon_transform := Some "normal";
     mon_disabled := Some false |}.

Definition cfg_1080p_right : Config :=
  {| cfg_model := Some "DELL"; cfg_position := Some "1920,0";
     cfg_resolution := Some "1920x1080"; cfg_scale := Some (NFloat float_one);
     cfg_transform := Some "normal"; cfg_enabled := Some true |}.

Definition two_dells : query := QExited 0 (Outputs [dell_monitor; dell_monitor_2]).

(** The profile ["home"] with an older file on disk. *)
Definition home_profile : MonitorProfile :=
  {| prof_name := "home"; prof_configs := {["DELL" := cfg_1080p]} |}.

Definition home_fs : FS :=
  {| profile_files := [("home", FDoc {["DELL" := cfg_1440p]})];
     active_file := Some "home" |}.

(** The scenario of the specification: ["default"] is active and empty,
    ["office"] knows the output by model and serial. *)
Definition cfg_office : Config :=
  {| cfg_model := None; cfg_position := Some "0,0";
     cfg_resolution := Some "2560x1440"; cfg_scale := Some (NFloat float_one);
     cfg_transform := Some "normal"; cfg_enabled := Some true |}.

Definition scenario : World :=
  {| daemon :=
       {| profiles :=
            [("default", {| prof_name := "default"; prof_configs := ∅ |});
             ("office", {| prof_name := "office";
                           prof_configs := {["LG_XYZ" := cfg_office]} |})];
          active_profile_name := "default";
          current_monitors := ∅ |};
     fs := empty_fs; calls := [] |}.

Definition scenario_query : query :=
  QExited 0 (Outputs [{| mon_name := Some "DP-1"; mon_model := Some "LG";
                         mon_serial := Some "XYZ"; mon_rect := None;
                         mon_current_mode := None; mon_scale := None;
                         mon_transform := None; mon_disabled := None |}]).

(** ** The rest of [MonitorDaemon] *)

(** The fields [MonitorDaemon.__init__] sets. *)
Definition MonitorDaemon_init : Daemon :=
  {| profiles := []; active_profile_name := DEFAULT_PROFILE; current_monitors := ∅ |}.

(** [handle_udev_event(action, device)]; [q] is the query that its cycle
    makes.  The two seconds of sleep are not modelled. *)
Definition handle_udev_event (rt : Runtime) (q : query) (action : string) : M unit :=
  if bool_decide (action ∈ ["add"; "remove"]) then update_monitor_configs rt q
  else mret tt.

(** The observer calls the handler once for each event, in order; an
    exception ends its thread, so that later events are not handled. *)
Definition handle_udev_events (rt : Runtime) (events : list (string * query)) : M unit :=
  for_each events (fun e => handle_udev_event rt (snd e) (fst e)).

(** [run] up to its idle loop: the profiles are loaded and the first
    cycle is made; [q] is the query of that cycle. *)
Definition run (rt : Runtime) (q : query) : M unit :=
  load_profiles;;
  update_monitor_configs rt q.

(** ** The profile store of the front-end, [SwayMonitorManager] *)

Definition CURRENT_PROFILE : string := "(Current)".

(** [self.profiles] of the front-end: the mapping of each profile, by name. *)
Record Manager := { mgr_profiles : pydict (gmap string Config) }.

(** [del d[k]] on the bindings. *)
Fixpoint dict_del {V} (d : pydict V) (k : string) : pydict V :=
  match d with
  | [] => []
  | (k', v) :: d' => if String.eqb k' k then d' else (k', v) :: dict_del d' k
  end.

(** [profile_path.unlink()] *)
Definition unlink (name : string) (f : FS) : FS :=
  {| profile_files := dict_del (profile_files f) name; active_file := active_file f |}.

(** The loop of [SwayMonitorManager.load_profiles] over the stems [ks]. *)
Fixpoint SwayMonitorManager_load_files (f : FS) (ks : list string) (m : Manager)
  : result unit * Manager :=
  match ks with
  | [] => (Ok tt, m)
  | profile_name :: ks' =>
      match dict_get (profile_files f) profile_name with
      | Some c =>
          match json_load c with
          | Ok configs =>
              SwayMonitorManager_load_files f ks'
                {| mgr_profiles := dict_set (mgr_profiles m) profile_name configs |}
          | Raise e => (Raise e, m)
          end
      | None => (Raise OSError, m)
      end
  end.

Definition SwayMonitorManager_load_profiles (f : FS) (m : Manager)
  : result unit * Manager :=
  SwayMonitorManager_load_files f (dict_keys (profile_files f)) m.

(** [save_profile(name, config)]: every profile but ["(Current)"] goes to
    its file. *)
Definition SwayMonitorManager_save_profile (name : string)
    (config : gmap string Config) (m : Manager) (f : FS) : Manager * FS :=
  ({| mgr_profiles := dict_set (mgr_profiles m) name config |},
   if decide (name <> CURRENT_PROFILE) then json_dump name config (open_w name f) else f).

Definition SwayMonitorManager_update_profile (name : string)
    (config : gmap string Config) (m : Manager) (f : FS) : bool * (Manager * FS) :=
  match dict_get (mgr_profiles m) name with
  | Some _ => (true, SwayMonitorManager_save_profile name config m f)
  | None => (false, (m, f))
  end.

Definition SwayMonitorManager_remove_profile (name : string) (m : Manager) (f : FS)
  : result bool * (Manager * FS) :=
  if decide (name = CURRENT_PROFILE) then (Ok false, (m, f))
  else
    match dict_get (profile_files f) name with
    | Some _ =>
        match dict_get (mgr_profiles m) name with
        | Some _ =>
            (Ok true, ({| mgr_profiles := dict_del (mgr_profiles m) name |}, unlink name f))
        | None => (Raise (KeyError name), (m, unlink name f))
        end
    | None => (Ok false, (m, f))
    end.

(** ** More notions the statements use *)

(** The computation keeps the property [I] of the world, whether it
    returns or raises. *)
Definition preserves {A} (I : World -> Prop) (m : M A) : Prop :=
  forall w, I w -> I (snd (m w)).

(** The computation returns only values with the property [P]. *)
Definition returns {A} (P : A -> Prop) (m : M A) : Prop :=
  forall w a w', m w = (Ok a, w') -> P a.

(** [self.profiles] is a dictionary of profiles stored under their names. *)
Definition profiles_wf (w : World) : Prop :=
  dict_wf (profiles (daemon w)) /\ profiles_named (profiles (daemon w)).

(** The name that [load_profiles] makes the active one. *)
Definition marked_name (w : World) : string :=
  match active_file (fs w) with
  | Some text => strip text
  | None => active_profile_name (daemon w)
  end.

(** Text that [f.read()] returns as the file holds it, in every locale:
    ASCII characters, none of them a carriage return (a file opened in
    text mode gives a carriage return back as a line feed). *)
Fixpoint plain_text (s : string) : bool :=
  match s with
  | EmptyString => true
  | String c s' =>
      (nat_of_ascii c <? 128)%nat && negb (nat_of_ascii c =? 13)%nat && plain_text s'
  end.

(** The text holds neither ['/'] nor a NUL. *)
Fixpoint one_component (s : string) : bool :=
  match s with
  | EmptyString => true
  | String c s' =>
      negb (nat_of_ascii c =? 47)%nat && negb (nat_of_ascii c =? 0)%nat && one_component s'
  end.

(** A name that is the stem of a file of the profile directory: it is not
    empty and is a single component of a path.  For such a name
    [PROFILES_PATH / f"{name}.json"] is a file of the directory itself,
    and [glob('*.json')] yields that file with [name] as its stem. *)
Definition is_stem (name : string) : bool :=
  negb (String.eqb name "") && one_component name.

(** The files of the profile directory are kept under their stems. *)
Definition flat_dir (f : FS) : Prop :=
  forall k, k ∈ dict_keys (profile_files f) -> is_stem k = true.

(** The text of the marker, when there is one, is plain. *)
Definition plain_marker (f : FS) : Prop :=
  forall text, active_file f = Some text -> plain_text text = true.

(** The commands run and the stored set of names are [cmds] and [s]. *)
Definition quiet (cmds : list (list string)) (s : gset string) (w : World) : Prop :=
  calls w = cmds /\ current_monitors (daemon w) = s.

(** A new daemon process on the profile directory that [w] left. *)
Definition restarted (w : World) : World :=
  {| daemon := MonitorDaemon_init; fs := fs w; calls := [] |}.

(** The command configures one of the outputs [names]. *)
Definition targets (names : gset string) (cmd : list string) : Prop :=
  exists name args, cmd = "swaymsg" :: "output" :: name :: args /\ name ∈ names.

(** The profile that [self.active_profile_name] names is loaded. *)
Definition active_loaded (self : Daemon) : Prop :=
  is_Some (dict_get (profiles self) (active_profile_name self)).

(** How often the character occurs in the string. *)
Fixpoint count_char (c : ascii) (s : string) : nat :=
  match s with
  | EmptyString => 0
  | String c' s' => (if Ascii.eqb c' c then 1 else 0) + count_char c s'
  end.

(** ** More example data *)

(** A resolution written with a star: [split('x')] gives one piece. *)
Definition cfg_star : Config :=
  {| cfg_model := Some "ACME"; cfg_position := Some "0,0";
     cfg_resolution := Some "1280*720"; cfg_scale := Some (NFloat float_one);
     cfg_transform := Some "normal"; cfg_enabled := Some true |}.

(** [desk] with the malformed entry for ACME in the active profile. *)
Definition desk_star : World :=
  {| daemon :=
       {| profiles :=
            [("default", {| prof_name := "default";
                            prof_configs := <["ACME" := cfg_star]>
                                              {["DELL_ABC123" := cfg_1080p]} |});
             ("office", {| prof_name := "office";
                           prof_configs := {["LG_XYZ" := cfg_lg]} |})];
          active_profile_name := "default";
          current_monitors := ∅ |};
     fs := empty_fs; calls := [] |}.

Definition dell_acme_lg : query :=
  QExited 0 (Outputs [dell_monitor; acme_monitor; lg_monitor]).

(** Another display on the connector DP-1, and the outputs in another
    order. *)
Definition benq_monitor : Monitor :=
  {| mon_name := Some "DP-1"; mon_model := Some "BENQ"; mon_serial := Some "Q1";
     mon_rect := Some {| rect_x := Some 0%Z; rect_y := Some 0%Z |};
     mon_current_mode := Some {| mode_width := Some 3840%Z; mode_height := Some 2160%Z |};
     mon_scale := Some (NFloat float_one); mon_transform := Some "normal";
     mon_disabled := None |}.

Definition swapped_outputs : query :=
  QExited 0 (Outputs [acme_monitor; benq_monitor; lg_monitor]).

(** The active profile is empty; ["byname"] knows the output by its
    connector, the later ["byserial"] by model and serial. *)
Definition layered_profiles : Daemon :=
  {| profiles :=
       [("default", {| prof_name := "default"; prof_configs := ∅ |});
        ("byname", {| prof_name := "byname";
                      prof_configs := {["DP-1" := cfg_1440p]} |});
        ("byserial", {| prof_name := "byserial";
                        prof_configs := {["DELL_ABC123" := cfg_1080p]} |})];
     active_profile_name := "default";
     current_monitors := ∅ |}.

(** An output that reports neither model nor serial, and a profile with
    an entry under the underscore alone. *)
Definition anonymous_monitor : Monitor :=
  {| mon_name := Some "eDP-1"; mon_model := None; mon_serial := Some "";
     mon_rect := None; mon_current_mode := None; mon_scale := None;
     mon_transform := None; mon_disabled := None |}.

Definition underscore_profiles : Daemon :=
  {| profiles :=
       [("default", {| prof_name := "default";
                       prof_configs := <["eDP-1" := cfg_1440p]> {["_" := cfg_1080p]} |})];
     active_profile_name := "default";
     current_monitors := ∅ |}.

(** A directory with two profiles and a marker that names one of them;
    the daemon has just been constructed. *)
Definition office_marker : World :=
  {| daemon := MonitorDaemon_init;
     fs := {| profile_files := [("office", FDoc {["LG_XYZ" := cfg_lg]});
                                ("home", FDoc {["DELL" := cfg_1080p]})];
              active_file := Some "office" |};
     calls := [] |}.

(** An output that reports a model but neither ['rect'] nor
    ['current_mode']. *)
Definition headless_monitor : Monitor :=
  {| mon_name := Some "HDMI-A-2"; mon_model := Some "SONY"; mon_serial := Some "S1";
     mon_rect := None; mon_current_mode := None; mon_scale := None;
     mon_transform := None; mon_disabled := Some true |}.

Definition lg_headless_dell : query :=
  QExited 0 (Outputs [lg_monitor; headless_monitor; dell_monitor]).

(** The scenario of the specification on disk, before the daemon starts. *)
Definition scenario_start : World :=
  {| daemon := MonitorDaemon_init;
     fs := {| profile_files := [("default", FDoc ∅);
                                ("office", FDoc {["LG_XYZ" := cfg_office]})];
              active_file := None |};
     calls := [] |}.

(** Events that arrive once the outputs have settled. *)
Definition settled_events : list (string * query) :=
  [("change", QExited 0 Malformed); ("add", three_outputs); ("remove", swapped_outputs)].

(** The front-end after it has loaded the directory of [office_marker]. *)
Definition manager_loaded : Manager :=
  {| mgr_profiles := [("office", {["LG_XYZ" := cfg_lg]});
                      ("home", {["DELL" := cfg_1080p]})] |}.

(** A front-end that was started before [home.json] was written. *)
Definition manager_early : Manager :=
  {| mgr_profiles := [("office", {["LG_XYZ" := cfg_lg]})] |}.

(** * Properties *)

(** ** The model on examples *)

Example str_split_resolution : str_split "x" "1920x1080" = ["1920"; "1080"].
Proof. reflexivity. Qed.

Example str_split_no_separator : unpack2 (str_split "," "0") = Raise ValueError.
Proof. reflexivity. Qed.

Example strip_marker : strip (" home" ++ String "010" "") = "home".
Proof. reflexivity. Qed.

Example str_int_negative : str_int (-1920) = "-1920".
Proof. reflexivity. Qed.

(** The matcher falls through to ["office"] and the command carries the
    position, the resolution, the scale and the transform. *)
Example scenario_applies_office :
  update_monitor_configs rt_dp2_fails scenario_query scenario
  = (Ok tt,
     {| daemon := set_current_monitors {["DP-1"]} (daemon scenario);
        fs := empty_fs;
        calls := [["swaymsg"; "output"; "DP-1"; "pos"; "0"; "0";
                   "res"; "2560"; "1440"; "scale"; "1.0"; "transform"; "normal"]] |}).
Proof. vm_compute. reflexivity. Qed.

(** A disabled configuration turns the output off. *)
Example disable_command :
  output_command rt_dp2_fails dell_monitor
    {| cfg_model := None; cfg_position := None; cfg_resolution := None;
       cfg_scale := None; cfg_transform := None; cfg_enabled := Some false |}
  = Ok ["swaymsg"; "output"; "DP-1"; "disable"].
Proof. reflexivity. Qed.

(** ** Dictionaries *)

Lemma dict_get_elem {V} (d : pydict V) k v :
  dict_get d k = Some v -> (k, v) ∈ d.
Proof.
  induction d as [|[k' v'] d IH]; simpl; [done|].
  destruct (String.eqb_spec k' k) as [->|Hne]; intros H.
  - injection H as ->. left.
  - right. auto.
Qed.

Lemma dict_get_unique {V} (d : pydict V) k v v' :
  dict_wf d -> dict_get d k = Some v -> (k, v') ∈ d -> v' = v.
Proof.
  unfold dict_wf, dict_keys.
  induction d as [|[k0 v0] d IH]; simpl; [done|].
  intros Hnd Hget Hin. apply NoDup_cons in Hnd as [Hfresh Hnd].
  destruct (String.eqb_spec k0 k) as [->|Hne].
  - injection Hget as ->.
    apply elem_of_cons in Hin as [Heq|Hin]; [congruence|].
    exfalso. apply Hfresh. apply list_elem_of_fmap. by exists (k, v').
  - apply elem_of_cons in Hin as [Heq|Hin]; [congruence|]. eauto.
Qed.

Lemma dict_get_set_eq {V} (d : pydict V) k v : dict_get (dict_set d k v) k = Some v.
Proof.
  induction d as [|[k' v'] d IH]; simpl.
  - by rewrite String.eqb_refl.
  - destruct (String.eqb_spec k' k) as [->|Hne]; simpl.
    + by rewrite String.eqb_refl.
    + by destruct (String.eqb_spec k' k).
Qed.

Lemma dict_get_set_ne {V} (d : pydict V) k k' v :
  k <> k' -> dict_get (dict_set d k v) k' = dict_get d k'.
Proof.
  intros Hne. induction d as [|[k0 v0] d IH]; simpl.
  - by destruct (String.eqb_spec k k').
  - destruct (String.eqb_spec k0 k) as [->|Hne0]; simpl.
    + by destruct (String.eqb_spec k k').
    + by rewrite IH.
Qed.

(** ** The matcher *)

(** Profiles with no entry for the identifiers do not change the search. *)
Lemma search_profiles_skip (active : string) (ps : pydict MonitorProfile) ids :
  (forall p, (active, p) ∈ ps -> first_hit (prof_configs p) ids = None) ->
  search_profiles (dict_values ps) ids
  = search_profiles (dict_values (filter (fun kv => fst kv <> active) ps)) ids.
Proof.
  induction ps as [|[k p] ps IH]; intros Hact; [done|].
  rewrite filter_cons. simpl.
  assert (Hrest : forall p', (active, p') ∈ ps -> first_hit (prof_configs p') ids = None)
    by (intros p' Hp'; apply Hact; by right).
  destruct (decide (k <> active)) as [Hne|Heq]; simpl.
  - destruct (first_hit (prof_configs p) ids); [done|]. by apply IH.
  - assert (k = active) as -> by (by destruct (decide (k = active))).
    rewrite (Hact p) by left. by apply IH.
Qed.

Lemma first_hit_try_profile (profile : MonitorProfile) (monitor : Monitor) :
  first_hit (prof_configs profile) (identifiers monitor)
  = try_profile (default "" (mon_model monitor)) (default "" (mon_serial monitor))
      (default "" (mon_name monitor)) profile.
Proof.
  unfold identifiers, try_profile, get_str. cbn [first_hit].
  destruct (prof_configs profile !! _); [done|].
  destruct (prof_configs profile !! _); [done|].
  by destruct (prof_configs profile !! _).
Qed.

Lemma search_profiles_head (ps : list MonitorProfile) (monitor : Monitor) :
  search_profiles ps (identifiers monitor)
  = head (omap (try_profile (default "" (mon_model monitor))
                  (default "" (mon_serial monitor))
                  (default "" (mon_name monitor))) ps).
Proof.
  induction ps as [|p ps IH]; [done|].
  cbn [search_profiles omap list_omap]. rewrite first_hit_try_profile.
  by destruct (try_profile _ _ _ p).
Qed.

(** C1. When the active profile is loaded, [find_best_config] returns the
    first configuration found under ["{model}_{serial}"], [model], [name]
    in the active profile, and consults the other profiles (each with the
    same identifiers in that order) only when the active one has none.  In
    particular an output with model DELL and serial ABC123 gets the active
    profile's entry for ["DELL_ABC123"], whatever the other profiles hold. *)
Theorem find_best_config_precedence (self : Daemon) (monitor : Monitor)
    (active_profile : MonitorProfile) :
  dict_wf (profiles self) ->
  dict_get (profiles self) (active_profile_name self) = Some active_profile ->
  find_best_config self monitor
  = Ok (find_best_config_spec active_profile (other_profiles self)
          (default "" (mon_model monitor)) (default "" (mon_serial monitor))
          (default "" (mon_name monitor)))
  /\ (forall c,
        mon_model monitor = Some "DELL" -> mon_serial monitor = Some "ABC123" ->
        prof_configs active_profile !! "DELL_ABC123" = Some c ->
        find_best_config self monitor = Ok (Some c)).
Proof.
  intros Hwf Hact. unfold find_best_config, find_best_config_spec. rewrite Hact.
  split.
  - rewrite first_hit_try_profile.
    destruct (try_profile _ _ _ active_profile) eqn:Hhit; [done|].
    f_equal. rewrite <- search_profiles_head. unfold other_profiles.
    apply (search_profiles_skip (active_profile_name self)).
    intros p Hp. rewrite (dict_get_unique _ _ _ _ Hwf Hact Hp).
    by rewrite first_hit_try_profile.
  - intros c Hmodel Hserial Hc. unfold identifiers, get_str.
    rewrite Hmodel, Hserial. cbn.
    change ("DELL" ++ "_" ++ "ABC123") with "DELL_ABC123". by rewrite Hc.
Qed.

(** The scenario of the claim; two outputs that the active profile does
    not know and that another profile knows, one by model and serial, one
    by its model; and an output that the active profile knows by its model
    and by its name. *)
Lemma find_best_config_precedence_witness :
  dict_wf (profiles two_profiles)
  /\ dict_get (profiles two_profiles) (active_profile_name two_profiles)
     = Some {| prof_name := "default"; prof_configs := {["DELL_ABC123" := cfg_1080p]} |}
  /\ find_best_config two_profiles dell_monitor = Ok (Some cfg_1080p)
  /\ find_best_config two_profiles lg_monitor = Ok (Some cfg_lg)
  /\ find_best_config two_profiles dell_monitor_2 = Ok (Some cfg_1440p)
  /\ find_best_config model_and_name lg_monitor = Ok (Some cfg_lg).
Proof.
  assert (Hwf : dict_wf (profiles two_profiles)).
  { unfold dict_wf. simpl. compute_done. }
  assert (Hwf' : dict_wf (profiles model_and_name)).
  { unfold dict_wf. simpl. compute_done. }
  split; [exact Hwf|]. split; [reflexivity|]. split; [|split; [|split]].
  - refine (proj2 (find_best_config_precedence two_profiles dell_monitor _ Hwf eq_refl)
              cfg_1080p eq_refl eq_refl _).
    reflexivity.
  - exact (proj1 (find_best_config_precedence two_profiles lg_monitor _ Hwf eq_refl)).
  - exact (proj1 (find_best_config_precedence two_profiles dell_monitor_2 _ Hwf eq_refl)).
  - exact (proj1 (find_best_config_precedence model_and_name lg_monitor _ Hwf' eq_refl)).
Defined.

(** ** The monad *)

(** Run the first bind of a computation that starts by reading the world. *)
Ltac mstep := unfold mbind at 1, M_bind at 1, get_world.

Lemma bind_Ok {A B} (m : M A) (f : A -> M B) w a w' :
  m w = (Ok a, w') -> (m ≫= f) w = f a w'.
Proof. intros H. unfold mbind, M_bind. by rewrite H. Qed.

Lemma bind_Raise {A B} (m : M A) (f : A -> M B) w e w' :
  m w = (Raise e, w') -> (m ≫= f) w = (Raise e, w').
Proof. intros H. unfold mbind, M_bind. by rewrite H. Qed.

Lemma bind_lift_Ok {A B} (r : result A) (f : A -> M B) w a :
  r = Ok a -> (lift r ≫= f) w = f a w.
Proof. by intros ->. Qed.

Lemma bind_lift_Raise {A B} (r : result A) (f : A -> M B) w e :
  r = Raise e -> (lift r ≫= f) w = (Raise e, w).
Proof. by intros ->. Qed.

Lemma add_calls_nil w : add_calls [] w = w.
Proof. destruct w. unfold add_calls. simpl. by rewrite app_nil_r. Qed.

Lemma add_calls_app cs cs' w : add_calls cs' (add_calls cs w) = add_calls (cs ++ cs') w.
Proof. unfold add_calls. simpl. by rewrite app_assoc. Qed.

(** ** The reconciliation cycle *)

Lemma query_names_inv q s :
  query_names q = Ok s ->
  exists monitors, get_current_monitors q = Ok monitors /\ monitor_names monitors = Ok s.
Proof.
  unfold query_names, mbind, result_bind.
  destruct (get_current_monitors q) as [ms|]; [|done]. eauto.
Qed.

Lemma monitor_names_named monitors s m :
  monitor_names monitors = Ok s -> m ∈ monitors -> is_Some (mon_name m).
Proof.
  revert s. induction monitors as [|m0 ms IH]; intros s Hs Hin.
  - by apply elem_of_nil in Hin.
  - simpl in Hs. unfold mbind, result_bind in Hs.
    destruct (mon_name m0) as [n|] eqn:Hn; [|done]. simpl in Hs.
    destruct (monitor_names ms) as [s'|] eqn:Hs'; [|done].
    apply elem_of_cons in Hin as [->|Hin]; [by rewrite Hn | eauto].
Qed.

Section Cycle.
Context (rt : Runtime).

(** An unchanged name set: nothing is run and nothing is stored. *)
Lemma update_unchanged q w s :
  query_names q = Ok s -> s = current_monitors (daemon w) ->
  update_monitor_configs rt q w = (Ok tt, w).
Proof.
  intros Hq ->. apply query_names_inv in Hq as (ms & Hms & Hs).
  unfold update_monitor_configs.
  rewrite (bind_lift_Ok _ _ _ _ Hms), (bind_lift_Ok _ _ _ _ Hs).
  unfold mbind at 1, M_bind, get_world.
  by destruct (decide (current_monitors (daemon w) ≠ current_monitors (daemon w))).
Qed.

(** A changed name set: the loop runs, and the set is stored when the loop
    returns. *)
Lemma update_changed q w monitors s :
  get_current_monitors q = Ok monitors -> monitor_names monitors = Ok s ->
  s ≠ current_monitors (daemon w) ->
  update_monitor_configs rt q w
  = match for_each monitors (configure rt) w with
    | (Ok _, w') => (Ok tt, set_daemon (set_current_monitors s (daemon w')) w')
    | (Raise e, w') => (Raise e, w')
    end.
Proof.
  intros Hms Hs Hne. unfold update_monitor_configs.
  rewrite (bind_lift_Ok _ _ _ _ Hms), (bind_lift_Ok _ _ _ _ Hs).
  mstep.
  destruct (decide (s ≠ current_monitors (daemon w))); [|done].
  unfold mbind, M_bind, modify.
  by destruct (for_each monitors (configure rt) w) as [[[]|e] w'].
Qed.

(** After a cycle that returned, the stored set is the set of the query. *)
Lemma update_stores_names q w w' s :
  query_names q = Ok s -> update_monitor_configs rt q w = (Ok tt, w') ->
  current_monitors (daemon w') = s.
Proof.
  intros Hq Hup. destruct (decide (s = current_monitors (daemon w))) as [Heq|Hne].
  - rewrite (update_unchanged _ _ _ Hq Heq) in Hup. by injection Hup as <-.
  - pose proof Hq as Hq'. apply query_names_inv in Hq' as (ms & Hms & Hs).
    rewrite (update_changed _ _ _ _ Hms Hs Hne) in Hup.
    destruct (for_each ms (configure rt) w) as [[[]|e] w2]; [|done].
    by injection Hup as <-.
Qed.

End Cycle.

(** C2. When the names the query returns are the stored set, the cycle
    returns with the world as it was: no command is run ([calls] is
    unchanged) and the stored set is unchanged.  A second cycle after one
    that returned, on a query with the same names, is such a cycle. *)
Theorem update_monitor_configs_idempotent (rt : Runtime) (q : query) (w : World)
    (s : gset string) :
  query_names q = Ok s ->
  (s = current_monitors (daemon w) -> update_monitor_configs rt q w = (Ok tt, w))
  /\ (forall q' w',
        update_monitor_configs rt q w = (Ok tt, w') -> query_names q' = Ok s ->
        update_monitor_configs rt q' w' = (Ok tt, w')).
Proof.
  intros Hq. split.
  - intros Heq. by apply (update_unchanged rt q w s).
  - intros q' w' Hup Hq'. apply (update_unchanged rt q' w' s Hq').
    symmetry. by apply (update_stores_names rt q w w' s).
Qed.

Lemma update_monitor_configs_idempotent_witness :
  query_names three_outputs = Ok three_names
  /\ update_monitor_configs rt_dp2_fails three_outputs desk = (Ok tt, desk_reconciled)
  /\ three_names = current_monitors (daemon desk_reconciled)
  /\ update_monitor_configs rt_dp2_fails three_outputs desk_reconciled
     = (Ok tt, desk_reconciled).
Proof.
  assert (Hq : query_names three_outputs = Ok three_names) by (vm_compute; reflexivity).
  assert (Hup : update_monitor_configs rt_dp2_fails three_outputs desk
                = (Ok tt, desk_reconciled)) by (vm_compute; reflexivity).
  assert (Hs : three_names = current_monitors (daemon desk_reconciled))
    by (vm_compute; reflexivity).
  split; [exact Hq|]. split; [exact Hup|]. split; [exact Hs|].
  exact (proj2 (update_monitor_configs_idempotent rt_dp2_fails three_outputs
                  desk three_names Hq) three_outputs desk_reconciled Hup Hq).
Defined.

(** C10. A cycle on a changed name set that returns has stored the new
    set, whatever the commands it ran exited with and whether or not every
    output had a configuration; a later cycle on the same names then runs
    nothing. *)
Theorem update_monitor_configs_replaces_set (rt : Runtime) (q : query) (w w' : World)
    (s : gset string) :
  query_names q = Ok s ->
  s ≠ current_monitors (daemon w) ->
  update_monitor_configs rt q w = (Ok tt, w') ->
  current_monitors (daemon w') = s
  /\ (forall rt' q', query_names q' = Ok s ->
        update_monitor_configs rt' q' w' = (Ok tt, w')).
Proof.
  intros Hq Hne Hup.
  pose proof (update_stores_names rt q w w' s Hq Hup) as Hcur.
  split; [done|].
  intros rt' q' Hq'. by apply (update_unchanged rt' q' w' s).
Qed.

(** The cycle of the example runs a command that fails (DP-2) and meets an
    output without configuration (HDMI-A-1). *)
Lemma update_monitor_configs_replaces_set_witness :
  query_names three_outputs = Ok three_names
  /\ three_names ≠ current_monitors (daemon desk)
  /\ update_monitor_configs rt_dp2_fails three_outputs desk = (Ok tt, desk_reconciled)
  /\ current_monitors (daemon desk_reconciled) = three_names
  /\ update_monitor_configs rt_dp2_fails three_outputs desk_reconciled
     = (Ok tt, desk_reconciled).
Proof.
  assert (Hq : query_names three_outputs = Ok three_names) by (vm_compute; reflexivity).
  assert (Hne : three_names ≠ current_monitors (daemon desk)) by (by vm_compute).
  assert (Hup : update_monitor_configs rt_dp2_fails three_outputs desk
                = (Ok tt, desk_reconciled)) by (vm_compute; reflexivity).
  destruct (update_monitor_configs_replaces_set rt_dp2_fails three_outputs desk
              desk_reconciled three_names Hq Hne Hup) as [Hcur Hlater].
  split; [exact Hq|]. split; [exact Hne|]. split; [exact Hup|]. split; [exact Hcur|].
  exact (Hlater rt_dp2_fails three_outputs Hq).
Defined.

(** ** Applying configurations *)

(** A configuration for which the command can be built is a non-empty
    dictionary, and the output has a name. *)
Section Applying.
Context (rt : Runtime) (Hstarts : starts rt).

Lemma output_command_truthy monitor c cmd :
  output_command rt monitor c = Ok cmd -> config_truthy c = true.
Proof.
  unfold output_command, config_truthy, mbind, result_bind.
  destruct (mon_name monitor); simpl; [|done].
  destruct (cfg_enabled c) as [[]|]; simpl; intros H.
  - by rewrite !orb_true_r.
  - by rewrite !orb_true_r.
  - destruct (cfg_resolution c); simpl in *; [|done]. by rewrite !orb_true_r.
Qed.

Lemma run_checked_exited cmd w code :
  swaymsg rt (calls w) cmd = Exited code ->
  run_checked rt cmd w = (Ok (code =? 0)%Z, add_calls [cmd] w).
Proof. intros H. unfold run_checked. by rewrite H. Qed.

Lemma apply_monitor_config_exited monitor c cmd w code :
  output_command rt monitor c = Ok cmd ->
  swaymsg rt (calls w) cmd = Exited code ->
  apply_monitor_config rt monitor c w = (Ok (code =? 0)%Z, add_calls [cmd] w).
Proof.
  intros Hcmd Hrun. unfold apply_monitor_config.
  rewrite (bind_lift_Ok _ _ _ _ Hcmd). by apply run_checked_exited.
Qed.

Lemma configure_appliable monitor w :
  is_Some (mon_name monitor) -> appliable rt (daemon w) monitor ->
  configure rt monitor w
  = (Ok tt, add_calls (option_list (command_for rt (daemon w) monitor)) w).
Proof.
  intros [n Hn] (r & Hfind & Hcmd).
  unfold configure, command_for.
  mstep.
  rewrite (bind_lift_Ok _ _ _ _ Hfind), Hfind.
  destruct r as [c|].
  - destruct (Hcmd c eq_refl) as [cmd Hc]. rewrite Hc.
    rewrite (output_command_truthy _ _ _ Hc).
    destruct (swaymsg rt (calls w) cmd) as [code|] eqn:Hrun; [|by apply Hstarts in Hrun].
    by rewrite (bind_Ok _ _ _ _ _ (apply_monitor_config_exited _ _ _ _ _ Hc Hrun)).
  - unfold warn_no_configuration. rewrite Hn. simpl. by rewrite add_calls_nil.
Qed.

Lemma for_each_configure monitors w :
  (forall m, m ∈ monitors -> is_Some (mon_name m) /\ appliable rt (daemon w) m) ->
  for_each monitors (configure rt) w
  = (Ok tt, add_calls (omap (command_for rt (daemon w)) monitors) w).
Proof.
  revert w. induction monitors as [|m ms IH]; intros w Hall.
  - simpl. by rewrite add_calls_nil.
  - destruct (Hall m) as [Hn Happ]; [left|].
    simpl for_each. rewrite (bind_Ok _ _ _ _ _ (configure_appliable _ _ Hn Happ)).
    rewrite IH; [|intros m' Hm'; apply Hall; by right].
    rewrite add_calls_app. simpl daemon. simpl omap.
    by destruct (command_for rt (daemon w) m).
Qed.

End Applying.

(** C5. In a cycle whose outputs each have a well-formed configuration or
    none, every output with a matching configuration has its command run,
    in order, and the cycle returns, whatever status each command exits
    with; and [apply_monitor_config] returns [False] for a command that
    exits with a status other than 0. *)
Theorem update_monitor_configs_partial_failure (rt : Runtime) (q : query) (w : World)
    (monitors : list Monitor) (s : gset string) :
  get_current_monitors q = Ok monitors ->
  monitor_names monitors = Ok s ->
  s ≠ current_monitors (daemon w) ->
  starts rt ->
  (forall m, m ∈ monitors -> appliable rt (daemon w) m) ->
  (exists w',
     update_monitor_configs rt q w = (Ok tt, w')
     /\ calls w' = (calls w ++ omap (command_for rt (daemon w)) monitors)%list)
  /\ (forall m c cmd w0 code,
        output_command rt m c = Ok cmd ->
        swaymsg rt (calls w0) cmd = Exited code -> code <> 0%Z ->
        apply_monitor_config rt m c w0 = (Ok false, add_calls [cmd] w0)).
Proof.
  intros Hms Hs Hne Hstarts Happ. split.
  - rewrite (update_changed _ _ _ _ _ Hms Hs Hne).
    rewrite (for_each_configure rt Hstarts); [eauto|].
    intros m Hm. split; [by apply (monitor_names_named monitors s)|by apply Happ].
  - intros m c cmd w0 code Hcmd Hrun Hcode.
    rewrite (apply_monitor_config_exited _ _ _ _ _ _ Hcmd Hrun).
    by destruct (Z.eqb_spec code 0).
Qed.

Lemma rt_dp2_fails_starts : starts rt_dp2_fails.
Proof.
  intros history cmd. simpl.
  destruct cmd as [|a [|b [|c cmd]]]; try done.
  by destruct (decide (c = "DP-2")) as [->|]; repeat case_match.
Qed.

Lemma update_monitor_configs_partial_failure_witness :
  (exists w',
     update_monitor_configs rt_dp2_fails three_outputs desk = (Ok tt, w')
     /\ calls w'
        = [["swaymsg"; "output"; "DP-2"; "pos"; "1920"; "0"; "res"; "2560"; "1440";
            "scale"; "1.0"; "transform"; "normal"];
           ["swaymsg"; "output"; "DP-1"; "pos"; "0"; "0"; "res"; "1920"; "1080";
            "scale"; "1.0"; "transform"; "normal"]])
  /\ apply_monitor_config rt_dp2_fails lg_monitor cfg_lg desk
     = (Ok false,
        add_calls [["swaymsg"; "output"; "DP-2"; "pos"; "1920"; "0"; "res"; "2560";
                    "1440"; "scale"; "1.0"; "transform"; "normal"]] desk).
Proof.
  assert (Hne : three_names ≠ current_monitors (daemon desk)) by (by vm_compute).
  assert (Happ : forall m, m ∈ [lg_monitor; dell_monitor; acme_monitor] ->
                           appliable rt_dp2_fails (daemon desk) m).
  { intros m Hm. repeat (apply elem_of_cons in Hm as [->|Hm]).
    - exists (Some cfg_lg). split; [by vm_compute|]. intros c [= <-]. by eexists.
    - exists (Some cfg_1080p). split; [by vm_compute|]. intros c [= <-]. by eexists.
    - exists None. split; [by vm_compute|]. done.
    - by apply elem_of_nil in Hm. }
  pose proof (update_monitor_configs_partial_failure rt_dp2_fails three_outputs desk
                [lg_monitor; dell_monitor; acme_monitor] three_names
                eq_refl eq_refl Hne rt_dp2_fails_starts Happ) as [Hcycle Hfalse].
  split.
  - exact Hcycle.
  - apply (Hfalse lg_monitor cfg_lg _ desk 1%Z); [reflexivity|reflexivity|done].
Defined.

(** ** Loading the profiles *)

Lemma dict_get_keys {V} (d : pydict V) k v : dict_get d k = Some v -> k ∈ dict_keys d.
Proof.
  intros H. apply dict_get_elem in H. apply list_elem_of_fmap. by exists (k, v).
Qed.

Lemma set_profiles_id w :
  set_daemon (set_profiles (profiles (daemon w)) (daemon w)) w = w.
Proof. by destruct w as [[] ? ?]. Qed.

Lemma load_step_parsed k configs w :
  dict_get (profile_files (fs w)) k = Some (FDoc configs) ->
  (MonitorProfile_load k ≫= store_profile k) w
  = (Ok tt, set_daemon (set_profiles (dict_set (profiles (daemon w)) k
                                        (MonitorProfile_init k (Some configs)))
                          (daemon w)) w).
Proof.
  intros Hk. unfold MonitorProfile_load.
  unfold mbind at 1 2, M_bind at 1 2, get_world. by rewrite Hk.
Qed.

Lemma load_step_rejected k c w :
  dict_get (profile_files (fs w)) k = Some c -> json_load c = Raise JSONDecodeError ->
  (MonitorProfile_load k ≫= store_profile k) w = (Raise JSONDecodeError, w).
Proof.
  intros Hk Hc. unfold MonitorProfile_load.
  unfold mbind at 1 2, M_bind at 1 2, get_world. rewrite Hk.
  unfold mbind, M_bind, lift. by rewrite Hc.
Qed.

(** The loop over files that all parse. *)
Lemma load_loop_parsed ks w :
  all_parse (fs w) -> ks ⊆ dict_keys (profile_files (fs w)) ->
  for_each ks (fun k => MonitorProfile_load k ≫= store_profile k) w
  = (Ok tt, set_daemon (set_profiles (load_all (fs w) ks (profiles (daemon w)))
                          (daemon w)) w).
Proof.
  intros Hall. revert w Hall. induction ks as [|k ks IH]; intros w Hall Hks.
  - simpl. by rewrite set_profiles_id.
  - assert (Hk : k ∈ dict_keys (profile_files (fs w))) by (apply Hks; left).
    apply list_elem_of_fmap in Hk as ([k' c] & -> & Hin). simpl in *.
    destruct (dict_get (profile_files (fs w)) k') as [c'|] eqn:Hget.
    2:{ exfalso. clear -Hin Hget. induction (profile_files (fs w)) as [|[k0 v0] d IHd];
        [by apply elem_of_nil in Hin|]. simpl in Hget.
        destruct (String.eqb_spec k0 k') as [->|Hne]; [done|].
        apply elem_of_cons in Hin as [[= -> ->]|Hin]; [done|auto]. }
    destruct (Hall k' c' Hget) as [configs ->].
    rewrite (bind_Ok _ _ _ _ _ (load_step_parsed _ _ _ Hget)).
    rewrite IH; [|done|intros x Hx; apply Hks; by right].
    unfold load_all at 2. simpl fold_left. unfold loaded_profile at 2. simpl.
    by rewrite Hget.
Qed.

(** The loop stops at the first file that does not parse; until then it
    leaves the directory as it is. *)
Lemma load_loop_rejected ks w k c :
  k ∈ ks -> dict_get (profile_files (fs w)) k = Some c ->
  json_load c = Raise JSONDecodeError ->
  exists w', for_each ks (fun k => MonitorProfile_load k ≫= store_profile k) w
             = (Raise JSONDecodeError, w').
Proof.
  intros Hin Hk Hc. revert w Hk. induction ks as [|k0 ks IH]; intros w Hk.
  - by apply elem_of_nil in Hin.
  - simpl for_each.
    destruct (dict_get (profile_files (fs w)) k0) as [c0|] eqn:Hk0.
    + destruct c0 as [configs| |].
      * rewrite (bind_Ok _ _ _ _ _ (load_step_parsed _ _ _ Hk0)).
        apply elem_of_cons in Hin as [->|Hin]; [rewrite Hk in Hk0; by injection Hk0 as ->|].
        by apply IH.
      * eexists. by rewrite (bind_Raise _ _ _ _ _ (load_step_rejected _ _ _ Hk0 eq_refl)).
      * eexists. by rewrite (bind_Raise _ _ _ _ _ (load_step_rejected _ _ _ Hk0 eq_refl)).
    + assert (Hstep : (MonitorProfile_load k0 ≫= store_profile k0) w
                      = (Ok tt, set_daemon (set_profiles
                           (dict_set (profiles (daemon w)) k0 (MonitorProfile_init k0 None))
                           (daemon w)) w)).
      { unfold MonitorProfile_load. unfold mbind at 1 2, M_bind at 1 2, get_world.
        by rewrite Hk0. }
      rewrite (bind_Ok _ _ _ _ _ Hstep).
      apply elem_of_cons in Hin as [->|Hin]; [congruence|]. by apply IH.
Qed.

Lemma load_all_cons f k ks ps :
  load_all f (k :: ks) ps
  = load_all f ks (match loaded_profile f k with
                   | Some p => dict_set ps k p
                   | None => ps
                   end).
Proof. reflexivity. Qed.

Lemma load_all_get f ks ps k :
  dict_get (load_all f ks ps) k
  = if decide (k ∈ ks)
    then match loaded_profile f k with
         | Some p => Some p
         | None => dict_get ps k
         end
    else dict_get ps k.
Proof.
  revert ps. induction ks as [|k0 ks IH]; intros ps.
  - by destruct (decide (k ∈ [])) as [H%elem_of_nil|H].
  - rewrite load_all_cons, IH.
    destruct (decide (k ∈ ks)) as [Hin|Hnin].
    + rewrite decide_True by (by right).
      destruct (loaded_profile f k) as [p|] eqn:Hk; [done|].
      destruct (loaded_profile f k0) as [p0|] eqn:Hk0; [|done].
      apply dict_get_set_ne. by intros ->; rewrite Hk in Hk0.
    + destruct (decide (k = k0)) as [->|Hne].
      * rewrite decide_True by left.
        destruct (loaded_profile f k0) as [p0|]; [by rewrite dict_get_set_eq|done].
      * rewrite decide_False by (intros [?|?]%elem_of_cons; done).
        destruct (loaded_profile f k0) as [p0|]; [by apply dict_get_set_ne|done].
Qed.

(** What [load_profiles] leaves when every file parses. *)
Lemma load_profiles_parsed w :
  all_parse (fs w) ->
  load_profiles w
  = (Ok tt,
     {| daemon :=
          {| profiles :=
               (let ps := load_all (fs w) (dict_keys (profile_files (fs w)))
                            (profiles (daemon w)) in
                match dict_get ps DEFAULT_PROFILE with
                | Some _ => ps
                | None => dict_set ps DEFAULT_PROFILE
                            (MonitorProfile_init DEFAULT_PROFILE None)
                end);
             active_profile_name :=
               match active_file (fs w) with
               | Some text => strip text
               | None => active_profile_name (daemon w)
               end;
             current_monitors := current_monitors (daemon w) |};
        fs := fs w; calls := calls w |}).
Proof.
  intros Hall. unfold load_profiles.
  mstep.
  rewrite (bind_Ok _ _ _ _ _ (load_loop_parsed _ w Hall (reflexivity _))).
  unfold mbind at 1, M_bind at 1. simpl.
  destruct (dict_get (load_all _ _ _) DEFAULT_PROFILE) as [p|] eqn:Hdef;
    unfold mbind, M_bind, mret, M_ret, store_profile, modify; simpl;
    rewrite ?Hdef; by destruct (active_file (fs w)).
Qed.

Lemma load_profiles_rejected w k c :
  dict_get (profile_files (fs w)) k = Some c -> json_load c = Raise JSONDecodeError ->
  exists w', load_profiles w = (Raise JSONDecodeError, w').
Proof.
  intros Hk Hc. unfold load_profiles.
  mstep.
  destruct (load_loop_rejected (dict_keys (profile_files (fs w))) w k c
              (dict_get_keys _ _ _ Hk) Hk Hc) as [w' Hloop].
  exists w'. by rewrite (bind_Raise _ _ _ _ _ Hloop).
Qed.

Lemma load_all_get_parsed f ps k configs :
  dict_get (profile_files f) k = Some (FDoc configs) ->
  dict_get (load_all f (dict_keys (profile_files f)) ps) k
  = Some (MonitorProfile_init k (Some configs)).
Proof.
  intros Hk. rewrite load_all_get.
  rewrite decide_True by (by apply (dict_get_keys _ _ _ Hk)).
  unfold loaded_profile. by rewrite Hk.
Qed.

Lemma load_all_get_absent f ks ps k :
  dict_get (profile_files f) k = None ->
  dict_get (load_all f ks ps) k = dict_get ps k.
Proof.
  intros Hk. rewrite load_all_get. unfold loaded_profile. rewrite Hk.
  by destruct (decide (k ∈ ks)).
Qed.


Lemma stale_marker_all_parse : all_parse (fs stale_marker).
Proof.
  intros k c H. cbn -[String.eqb] in H.
  destruct (String.eqb "office" k); [|done]. injection H as <-. by eexists.
Qed.



(** ** Querying the outputs *)




(** ** A marker that names a profile without a file *)

Lemma find_best_config_missing self monitor :
  dict_get (profiles self) (active_profile_name self) = None ->
  find_best_config self monitor = Raise (KeyError (active_profile_name self)).
Proof. intros H. unfold find_best_config. by rewrite H. Qed.

Lemma update_missing_active rt q w m monitors s :
  dict_get (profiles (daemon w)) (active_profile_name (daemon w)) = None ->
  get_current_monitors q = Ok (m :: monitors) ->
  monitor_names (m :: monitors) = Ok s ->
  s ≠ current_monitors (daemon w) ->
  update_monitor_configs rt q w = (Raise (KeyError (active_profile_name (daemon w))), w).
Proof.
  intros Hact Hms Hs Hne. rewrite (update_changed _ _ _ _ _ Hms Hs Hne).
  assert (Hm : configure rt m w = (Raise (KeyError (active_profile_name (daemon w))), w)).
  { unfold configure. mstep.
    by rewrite (bind_lift_Raise _ _ _ _ (find_best_config_missing _ m Hact)). }
  simpl for_each. by rewrite (bind_Raise _ _ _ _ _ Hm).
Qed.

(** C6. Let the marker file name a profile that has no file, is not
    ["default"] and is not in [self.profiles].  Then [load_profiles]
    returns with that name as the active profile, a ["default"] profile is
    there, and yet [find_best_config] raises [KeyError] for every output;
    a cycle on a changed, non-empty list of outputs raises it at the first
    output and runs no command. *)
Theorem stale_active_profile_raises (w : World) (text : string) :
  all_parse (fs w) ->
  active_file (fs w) = Some text ->
  strip text <> DEFAULT_PROFILE ->
  dict_get (profile_files (fs w)) (strip text) = None ->
  dict_get (profiles (daemon w)) (strip text) = None ->
  exists w',
    load_profiles w = (Ok tt, w')
    /\ active_profile_name (daemon w') = strip text
    /\ is_Some (dict_get (profiles (daemon w')) DEFAULT_PROFILE)
    /\ (forall monitor,
          find_best_config (daemon w') monitor = Raise (KeyError (strip text)))
    /\ (forall rt q m monitors s,
          get_current_monitors q = Ok (m :: monitors) ->
          monitor_names (m :: monitors) = Ok s ->
          s ≠ current_monitors (daemon w') ->
          update_monitor_configs rt q w' = (Raise (KeyError (strip text)), w')).
Proof.
  intros Hall Hmarker Hdef Hfile Hmem.
  eexists. split; [by apply load_profiles_parsed|].
  rewrite Hmarker. simpl.
  set (ps := load_all _ _ _).
  assert (Hps : dict_get ps (strip text) = None)
    by (unfold ps; by rewrite load_all_get_absent).
  set (ps' := match dict_get ps DEFAULT_PROFILE with Some _ => ps | None => _ end).
  assert (Hps' : dict_get ps' (strip text) = None).
  { unfold ps'. destruct (dict_get ps DEFAULT_PROFILE); [done|].
    by rewrite dict_get_set_ne. }
  split; [done|]. split.
  - unfold ps'. destruct (dict_get ps DEFAULT_PROFILE) eqn:E; [by rewrite E|].
    by rewrite dict_get_set_eq.
  - split.
    + intros monitor. by apply (find_best_config_missing {| profiles := ps' |}).
    + intros rt q m monitors s Hms Hs Hne.
      by apply (update_missing_active rt q
                  {| daemon := {| profiles := ps'; active_profile_name := strip text |} |}
                  m monitors s).
Qed.

Lemma stale_active_profile_raises_witness :
  exists w',
    load_profiles stale_marker = (Ok tt, w')
    /\ active_profile_name (daemon w') = "work"
    /\ is_Some (dict_get (profiles (daemon w')) DEFAULT_PROFILE)
    /\ find_best_config (daemon w') lg_monitor = Raise (KeyError "work")
    /\ update_monitor_configs rt_dp2_fails three_outputs w' = (Raise (KeyError "work"), w').
Proof.
  assert (Hdef : strip "work
" <> DEFAULT_PROFILE) by (by vm_compute).
  destruct (stale_active_profile_raises stale_marker _ stale_marker_all_parse
              eq_refl Hdef eq_refl eq_refl)
    as (w' & Hload & Hact & Hd & Hfind & Hup).
  exists w'. split; [exact Hload|]. split; [exact Hact|]. split; [exact Hd|].
  split; [exact (Hfind lg_monitor)|].
  apply (Hup rt_dp2_fails three_outputs lg_monitor [dell_monitor; acme_monitor] three_names);
    [reflexivity|reflexivity|].
  assert (Hw' : w' = snd (load_profiles stale_marker)) by (by rewrite Hload).
  rewrite Hw'. by vm_compute.
Defined.

(** ** Saving the current setup *)

Lemma dict_set_id {V} (d : pydict V) k v : dict_get d k = Some v -> dict_set d k v = d.
Proof.
  induction d as [|[k' v'] d IH]; simpl; [done|].
  destruct (String.eqb_spec k' k) as [->|Hne]; intros H.
  - by injection H as ->.
  - by rewrite IH.
Qed.

Lemma dict_set_set {V} (d : pydict V) k v v' :
  dict_set (dict_set d k v) k v' = dict_set d k v'.
Proof.
  induction d as [|[k0 v0] d IH]; simpl.
  - by rewrite String.eqb_refl.
  - destruct (String.eqb_spec k0 k) as [->|Hne]; simpl.
    + by rewrite String.eqb_refl.
    + destruct (String.eqb_spec k0 k); [done|]. by rewrite IH.
Qed.

Lemma insert_all_lookup (config : Config) ks (configs : gmap string Config) k :
  fold_left (fun cs k => <[k := config]> cs) ks configs !! k
  = if decide (k ∈ ks) then Some config else configs !! k.
Proof.
  revert configs. induction ks as [|k0 ks IH]; intros configs.
  - by destruct (decide (k ∈ [])) as [H%elem_of_nil|H].
  - simpl fold_left. rewrite IH.
    destruct (decide (k ∈ ks)) as [Hin|Hnin].
    + by rewrite decide_True by (by right).
    + destruct (decide (k = k0)) as [->|Hne].
      * rewrite decide_True by left. apply lookup_insert_eq.
      * rewrite decide_False by (intros [?|?]%elem_of_cons; done).
        by apply lookup_insert_ne.
Qed.

Lemma keys_written_spec monitor k :
  k ∈ keys_written monitor <->
  str_truthy (get_str (mon_model monitor)) = true
  /\ (k = get_str (mon_model monitor)
      \/ exists serial,
           mon_serial monitor = Some serial /\ str_truthy serial = true
           /\ k = get_str (mon_model monitor) ++ "_" ++ serial).
Proof.
  unfold keys_written.
  destruct (str_truthy (get_str (mon_model monitor))) eqn:Hmodel.
  - rewrite elem_of_cons. split.
    + intros [->|Hk]; [by auto|]. split; [done|]. right.
      destruct (mon_serial monitor) as [serial|]; [|by apply elem_of_nil in Hk].
      destruct (str_truthy serial) eqn:Hs; [|by apply elem_of_nil in Hk].
      apply list_elem_of_singleton in Hk. by exists serial.
    + intros [_ [->|(serial & Hserial & Hs & ->)]]; [by left|].
      right. rewrite Hserial, Hs. left.
  - split; [by intros ?%elem_of_nil|by intros [? _]].
Qed.

Lemma record_written monitor configs config k :
  capture (get_str (mon_model monitor)) monitor = Ok config ->
  k ∈ keys_written monitor -> record monitor configs !! k = Some config.
Proof.
  intros Hc Hk. unfold record. rewrite Hc, insert_all_lookup. by rewrite decide_True.
Qed.

Lemma record_other monitor configs k :
  k ∉ keys_written monitor -> record monitor configs !! k = configs !! k.
Proof.
  intros Hk. unfold record.
  destruct (capture _ monitor); [|done]. rewrite insert_all_lookup. by rewrite decide_False.
Qed.

Lemma record_all_other monitors configs k :
  (forall m, m ∈ monitors -> k ∉ keys_written m) ->
  record_all monitors configs !! k = configs !! k.
Proof.
  revert configs. induction monitors as [|m ms IH]; intros configs Hk; [done|].
  unfold record_all. simpl fold_left. fold (record_all ms (record m configs)).
  rewrite IH by (intros m' Hm'; apply Hk; by right).
  apply record_other, Hk. left.
Qed.

Lemma record_all_app pre post configs :
  record_all (pre ++ post) configs = record_all post (record_all pre configs).
Proof. unfold record_all. apply fold_left_app. Qed.

(** The entry of an output stays unless a later output writes its key. *)
Lemma record_all_last pre monitor post configs config k :
  capture (get_str (mon_model monitor)) monitor = Ok config ->
  k ∈ keys_written monitor ->
  (forall m, m ∈ post -> k ∉ keys_written m) ->
  record_all (pre ++ monitor :: post) configs !! k = Some config.
Proof.
  intros Hc Hk Hpost. rewrite record_all_app.
  change (record_all (monitor :: post) ?cs)
    with (record_all post (record monitor cs)).
  rewrite record_all_other by done. by apply record_written.
Qed.

Lemma with_profile_get name p w :
  dict_get (profiles (daemon (with_profile name p w))) name = Some p.
Proof. apply dict_get_set_eq. Qed.

Lemma with_profile_twice name p p' w :
  with_profile name p' (with_profile name p w) = with_profile name p' w.
Proof. unfold with_profile, set_daemon, set_profiles. simpl. by rewrite dict_set_set. Qed.

Lemma with_profile_id name p w :
  dict_get (profiles (daemon w)) name = Some p -> with_profile name p w = w.
Proof.
  intros H. unfold with_profile. rewrite (dict_set_id _ _ _ H). apply set_profiles_id.
Qed.

Lemma set_config_stored name key config w p :
  dict_get (profiles (daemon w)) name = Some p ->
  set_config name key config w
  = (Ok tt, with_profile name {| prof_name := prof_name p;
                                 prof_configs := <[key := config]> (prof_configs p) |} w).
Proof. intros H. unfold set_config, modify. by rewrite H. Qed.

Lemma record_no_model monitor configs :
  str_truthy (get_str (mon_model monitor)) = false -> record monitor configs = configs.
Proof.
  intros H. unfold record, keys_written. rewrite H. by destruct (capture _ monitor).
Qed.

(** One pass of the loop body. *)
Lemma snapshot_records name monitor w p :
  dict_get (profiles (daemon w)) name = Some p -> capturable monitor ->
  snapshot name monitor w = (Ok tt, with_profile name (recorded [monitor] p) w).
Proof.
  intros Hp Hcap. unfold snapshot, recorded, record_all. simpl fold_left.
  destruct (str_truthy (get_str (mon_model monitor))) eqn:Hmodel.
  - destruct (Hcap Hmodel) as [config Hc].
    rewrite (bind_lift_Ok _ _ _ _ Hc).
    rewrite (bind_Ok _ _ _ _ _ (set_config_stored _ _ _ _ _ Hp)).
    unfold record, keys_written. rewrite Hc, Hmodel.
    destruct (mon_serial monitor) as [serial|]; [destruct (str_truthy serial)|]; try done.
    rewrite (set_config_stored _ _ _ _ _ (with_profile_get _ _ _)).
    by rewrite with_profile_twice.
  - rewrite (record_no_model _ _ Hmodel).
    replace {| prof_name := prof_name p; prof_configs := prof_configs p |} with p
      by (by destruct p).
    by rewrite (with_profile_id _ _ _ Hp).
Qed.

(** The loop of [save_current_setup]. *)
Lemma snapshot_loop name monitors w p :
  dict_get (profiles (daemon w)) name = Some p ->
  (forall m, m ∈ monitors -> capturable m) ->
  for_each monitors (snapshot name) w = (Ok tt, with_profile name (recorded monitors p) w).
Proof.
  revert w p. induction monitors as [|m ms IH]; intros w p Hp Hcap.
  - simpl. unfold recorded, record_all. simpl.
    replace {| prof_name := prof_name p; prof_configs := prof_configs p |} with p
      by (by destruct p).
    by rewrite (with_profile_id _ _ _ Hp).
  - simpl for_each.
    rewrite (bind_Ok _ _ _ _ _ (snapshot_records name m w p Hp (Hcap m ltac:(left)))).
    rewrite (IH _ _ (with_profile_get _ _ _)) by (intros m' Hm'; apply Hcap; by right).
    by rewrite with_profile_twice.
Qed.

(** What [save_current_setup] leaves when it can capture every output. *)
Lemma save_current_setup_returns q profile_name w monitors :
  get_current_monitors q = Ok monitors ->
  (forall m, m ∈ monitors -> capturable m) ->
  save_current_setup q profile_name w
  = (Ok tt,
     let name := target_name profile_name (daemon w) in
     let p := recorded monitors (target_profile profile_name (daemon w)) in
     {| daemon := {| profiles := dict_set (profiles (daemon w)) name p;
                     active_profile_name := name;
                     current_monitors := current_monitors (daemon w) |};
        fs := {| profile_files :=
                   dict_set (dict_set (profile_files (fs w)) (prof_name p) FEmpty)
                     (prof_name p) (FDoc (prof_configs p));
                 active_file := Some name |};
        calls := calls w |}).
Proof.
  intros Hms Hcap. unfold save_current_setup, target_profile.
  set (name := target_name profile_name (daemon w)).
  set (w1 := set_daemon (set_active_profile_name name (daemon w)) w).
  assert (Hfirst : match profile_name with
                   | Some n =>
                       if str_truthy n
                       then modify (fun w => set_daemon (set_active_profile_name n (daemon w)) w)
                       else mret tt
                   | None => mret tt
                   end w = (Ok tt, w1)).
  { unfold w1, name, target_name.
    destruct profile_name as [n|]; [destruct (str_truthy n)|]; try done;
      by destruct w as [[] ? ?]. }
  rewrite (bind_Ok _ _ _ _ _ Hfirst), (bind_lift_Ok _ _ _ _ Hms).
  mstep.
  change (active_profile_name (daemon w1)) with name.
  change (profiles (daemon w1)) with (profiles (daemon w)).
  destruct (dict_get (profiles (daemon w)) name) as [p0|] eqn:Hp0.
  - unfold mbind at 1, M_bind at 1, mret, M_ret.
    assert (Hp1 : dict_get (profiles (daemon w1)) name = Some p0) by done.
    rewrite (bind_Ok _ _ _ _ _ (snapshot_loop name monitors w1 p0 Hp1 Hcap)).
    mstep. rewrite with_profile_get.
    by unfold mbind, M_bind, MonitorProfile_save, save_active_profile, modify.
  - unfold mbind at 1, M_bind at 1, store_profile, modify.
    fold (with_profile name (MonitorProfile_init name None) w1).
    rewrite (bind_Ok _ _ _ _ _
               (snapshot_loop name monitors _ _ (with_profile_get _ _ _) Hcap)).
    rewrite with_profile_twice.
    mstep. rewrite with_profile_get.
    by unfold mbind, M_bind, MonitorProfile_save, save_active_profile, modify.
Qed.

(** C7, as the code has it.  When every connected output can be
    captured, [save_current_setup] returns; the active profile then holds
    the captured configuration of an output with a non-empty model under
    the model, and under ["{model}_{serial}"] when the serial is not
    empty, unless a later output of the same query wrote that key; keys
    that no output writes (an output with an empty model writes none) are
    as before; and the profile file holds the profile and the marker file
    its name. *)
Theorem save_current_setup_records (q : query) (profile_name : option string)
    (w : World) (monitors : list Monitor) :
  get_current_monitors q = Ok monitors ->
  (forall m, m ∈ monitors -> capturable m) ->
  exists w' p,
    save_current_setup q profile_name w = (Ok tt, w')
    /\ dict_get (profiles (daemon w')) (active_profile_name (daemon w')) = Some p
    /\ (forall pre m post config,
          monitors = (pre ++ m :: post)%list ->
          str_truthy (get_str (mon_model m)) = true ->
          capture (get_str (mon_model m)) m = Ok config ->
          ((forall m', m' ∈ post -> get_str (mon_model m) ∉ keys_written m') ->
           prof_configs p !! get_str (mon_model m) = Some config)
          /\ (forall serial,
                mon_serial m = Some serial -> str_truthy serial = true ->
                (forall m', m' ∈ post ->
                            (get_str (mon_model m) ++ "_" ++ serial) ∉ keys_written m') ->
                prof_configs p !! (get_str (mon_model m) ++ "_" ++ serial) = Some config))
    /\ (forall k,
          (forall m, m ∈ monitors -> k ∉ keys_written m) ->
          prof_configs p !! k
          = prof_configs (target_profile profile_name (daemon w)) !! k)
    /\ (forall m k,
          k ∈ keys_written m <->
          str_truthy (get_str (mon_model m)) = true
          /\ (k = get_str (mon_model m)
              \/ exists serial,
                   mon_serial m = Some serial /\ str_truthy serial = true
                   /\ k = get_str (mon_model m) ++ "_" ++ serial))
    /\ dict_get (profile_files (fs w')) (prof_name p) = Some (FDoc (prof_configs p))
    /\ active_file (fs w') = Some (active_profile_name (daemon w')).
Proof.
  intros Hms Hcap. eexists. eexists.
  split; [by apply (save_current_setup_returns q profile_name w monitors)|].
  cbn [daemon fs profiles active_profile_name profile_files active_file].
  split; [by apply dict_get_set_eq|].
  cbn [recorded prof_configs prof_name].
  split; [|split; [|split; [|split]]].
  - intros pre m post config -> Hmodel Hc. split.
    + intros Hpost. apply (record_all_last pre m post _ config); [done| |done].
      unfold keys_written. rewrite Hmodel. left.
    + intros serial Hserial Htruthy Hpost.
      apply (record_all_last pre m post _ config); [done| |done].
      unfold keys_written. rewrite Hmodel, Hserial, Htruthy. right. left.
  - intros k Hk. by apply record_all_other.
  - apply keys_written_spec.
  - by apply dict_get_set_eq.
  - done.
Qed.

Lemma save_current_setup_records_witness :
  exists w' p,
    save_current_setup three_outputs None desk = (Ok tt, w')
    /\ dict_get (profiles (daemon w')) "default" = Some p
    /\ prof_configs p !! "LG" = Some cfg_lg
    /\ prof_configs p !! "LG_XYZ" = Some cfg_lg
    /\ prof_configs p !! "ACME" = Some cfg_acme
    /\ dict_get (profile_files (fs w')) "default" = Some (FDoc (prof_configs p))
    /\ active_file (fs w') = Some "default".
Proof.
  assert (Hcap : forall m, m ∈ [lg_monitor; dell_monitor; acme_monitor] -> capturable m).
  { intros m Hm _. repeat (apply elem_of_cons in Hm as [->|Hm]);
      [by eexists|by eexists|by eexists|by apply elem_of_nil in Hm]. }
  destruct (save_current_setup_records three_outputs None desk
              [lg_monitor; dell_monitor; acme_monitor] eq_refl Hcap)
    as (w' & p & Hsave & Hp & Hrec & _ & _ & Hfile & Hmarker).
  assert (Hw' : w' = snd (save_current_setup three_outputs None desk))
    by (by rewrite Hsave).
  assert (Hact : active_profile_name (daemon w') = "default")
    by (rewrite Hw'; by vm_compute).
  assert (Hname : prof_name p = "default").
  { rewrite Hw' in Hp. vm_compute in Hp. by injection Hp as <-. }
  rewrite Hact in Hp, Hmarker. rewrite Hname in Hfile.
  exists w', p. split; [exact Hsave|]. split; [exact Hp|].
  destruct (Hrec [] lg_monitor [dell_monitor; acme_monitor] cfg_lg
              eq_refl eq_refl eq_refl) as [Hlg Hlg_serial].
  destruct (Hrec [lg_monitor; dell_monitor] acme_monitor [] cfg_acme
              eq_refl eq_refl eq_refl) as [Hacme _].
  split.
  { apply Hlg. intros m' Hm'. repeat (apply elem_of_cons in Hm' as [->|Hm']);
      [compute_done|compute_done|by apply elem_of_nil in Hm']. }
  split.
  { apply (Hlg_serial "XYZ" eq_refl eq_refl). intros m' Hm'.
    repeat (apply elem_of_cons in Hm' as [->|Hm']);
      [compute_done|compute_done|by apply elem_of_nil in Hm']. }
  split.
  { apply Hacme. intros m' Hm'. by apply elem_of_nil in Hm'. }
  split; [exact Hfile|exact Hmarker].
Defined.

(** C7 as claimed fails.  An output with a model and an empty serial is
    recorded under its model only; and of two outputs of one model the
    saved profile keeps, under the model, the configuration of the second. *)
Lemma save_current_setup_not_both_keys :
  (exists w' p,
     save_current_setup only_acme None desk = (Ok tt, w')
     /\ dict_get (profiles (daemon w')) "default" = Some p
     /\ prof_configs p !! "ACME" = Some cfg_acme
     /\ prof_configs p !! ("ACME" ++ "_" ++ "") = None)
  /\ (exists w' p,
        save_current_setup two_dells None desk = (Ok tt, w')
        /\ dict_get (profiles (daemon w')) "default" = Some p
        /\ capture "DELL" dell_monitor = Ok cfg_1080p
        /\ prof_configs p !! "DELL" = Some cfg_1080p_right
        /\ prof_configs p !! "DELL" <> Some cfg_1080p).
Proof.
  split.
  - eexists. eexists.
    split; [by apply (save_current_setup_returns _ _ _ [acme_monitor]);
             [|intros m ->%list_elem_of_singleton _; by eexists]|].
    split; [by vm_compute|]. split; by vm_compute.
  - eexists. eexists.
    split; [apply (save_current_setup_returns _ _ _ [dell_monitor; dell_monitor_2]);
             [done|]|].
    { intros m Hm _. repeat (apply elem_of_cons in Hm as [->|Hm]);
        [by eexists|by eexists|by apply elem_of_nil in Hm]. }
    split; [by vm_compute|]. split; [reflexivity|].
    split; [by vm_compute|]. vm_compute. intros [=].
Qed.

(** ** Saving, then loading *)

Lemma MonitorProfile_init_configs name configs :
  prof_configs (MonitorProfile_init name (Some configs)) = configs.
Proof. simpl. by destruct (decide (configs = ∅)) as [->|]. Qed.

Lemma target_profile_named profile_name self :
  profiles_named (profiles self) ->
  prof_name (target_profile profile_name self) = target_name profile_name self.
Proof.
  intros Hnamed. unfold target_profile.
  destruct (dict_get (profiles self) (target_name profile_name self)) as [p|] eqn:Hp.
  - by apply Hnamed.
  - done.
Qed.

(** C8. Let the query list an output with a model, at position (0,0),
    with mode 1920x1080, scale 1.0 (or none), transform normal (or none)
    and not disabled, and let no later output of the query write its
    model key.  Saving the setup to ["home"] returns, and loading ["home"]
    afterwards yields, under the model, the configuration captured at
    save time, field for field. *)
Theorem save_then_load_roundtrip (q : query) (w : World) (pre post : list Monitor)
    (m : Monitor) (model : string) :
  get_current_monitors q = Ok (pre ++ m :: post)%list ->
  (forall m', m' ∈ (pre ++ m :: post)%list -> capturable m') ->
  profiles_named (profiles (daemon w)) ->
  (forall m', m' ∈ post -> model ∉ keys_written m') ->
  mon_model m = Some model ->
  str_truthy model = true ->
  mon_rect m = Some {| rect_x := Some 0%Z; rect_y := Some 0%Z |} ->
  mon_current_mode m = Some {| mode_width := Some 1920%Z; mode_height := Some 1080%Z |} ->
  default (NFloat float_one) (mon_scale m) = NFloat float_one ->
  default "normal" (mon_transform m) = "normal" ->
  default false (mon_disabled m) = false ->
  let captured :=
    {| cfg_model := Some model; cfg_position := Some "0,0";
       cfg_resolution := Some "1920x1080"; cfg_scale := Some (NFloat float_one);
       cfg_transform := Some "normal"; cfg_enabled := Some true |} in
  capture model m = Ok captured
  /\ exists w' p,
       save_current_setup q (Some "home") w = (Ok tt, w')
       /\ MonitorProfile_load "home" w' = (Ok p, w')
       /\ prof_name p = "home"
       /\ prof_configs p !! model = Some captured.
Proof.
  intros Hms Hcap Hnamed Hpost Hmodel Htruthy Hrect Hmode Hscale Htransform Hdisabled
         captured.
  assert (Hc : capture model m = Ok captured).
  { unfold capture. rewrite Hrect, Hmode, Hscale, Htransform, Hdisabled. reflexivity. }
  split; [exact Hc|].
  eexists.
  exists (MonitorProfile_init "home"
            (Some (record_all (pre ++ m :: post)
                     (prof_configs (target_profile (Some "home") (daemon w)))))).
  split; [by apply (save_current_setup_returns q (Some "home") w _ Hms)|].
  cbn zeta. cbn [recorded prof_name prof_configs].
  rewrite !(target_profile_named (Some "home") (daemon w) Hnamed).
  change (target_name (Some "home") (daemon w)) with "home".
  unfold MonitorProfile_load.
  mstep.
  cbn [fs profile_files]. rewrite dict_get_set_eq.
  unfold mbind, M_bind, lift, json_load, mret, M_ret.
  split; [reflexivity|]. split; [reflexivity|].
  rewrite MonitorProfile_init_configs. cbn [recorded prof_configs].
  apply (record_all_last pre m post); [|unfold keys_written|done].
  - unfold get_str. by rewrite Hmodel.
  - unfold get_str. rewrite Hmodel. simpl. rewrite Htruthy. left.
Qed.

Lemma save_then_load_roundtrip_witness :
  capture "DELL" dell_monitor = Ok cfg_1080p
  /\ exists w' p,
       save_current_setup three_outputs (Some "home") desk = (Ok tt, w')
       /\ MonitorProfile_load "home" w' = (Ok p, w')
       /\ prof_name p = "home"
       /\ prof_configs p !! "DELL" = Some cfg_1080p.
Proof.
  assert (Hcap : forall m, m ∈ [lg_monitor; dell_monitor; acme_monitor] -> capturable m).
  { intros m Hm _. repeat (apply elem_of_cons in Hm as [->|Hm]);
      [by eexists|by eexists|by eexists|by apply elem_of_nil in Hm]. }
  assert (Hnamed : profiles_named (profiles (daemon desk))).
  { intros k p. cbn -[String.eqb].
    destruct (String.eqb_spec "default" k) as [<-|_]; [by intros [= <-]|].
    destruct (String.eqb_spec "office" k) as [<-|_]; [by intros [= <-]|done]. }
  assert (Hpost : forall m', m' ∈ [acme_monitor] -> "DELL" ∉ keys_written m').
  { intros m' ->%list_elem_of_singleton. compute_done. }
  exact (save_then_load_roundtrip three_outputs desk [lg_monitor] [acme_monitor]
           dell_monitor "DELL" eq_refl Hcap Hnamed Hpost
           eq_refl eq_refl eq_refl eq_refl eq_refl eq_refl eq_refl).
Defined.

(** ** Writing the profile file *)

(** C9, as the code has it.  [save] opens the profile file for writing
    in place and then writes the document.  Between the two the file is
    empty, which a reader of the directory can observe and which
    [json.load] rejects; once [save] has returned the file holds the
    profile's mapping. *)
Theorem save_writes_in_place (p : MonitorProfile) (w : World) :
  (exists f',
     f' ∈ save_states p (fs w)
     /\ dict_get (profile_files f') (prof_name p) = Some FEmpty
     /\ json_load FEmpty = Raise JSONDecodeError)
  /\ (exists w',
        MonitorProfile_save p w = (Ok tt, w')
        /\ Some (fs w') = last (save_states p (fs w))
        /\ dict_get (profile_files (fs w')) (prof_name p) = Some (FDoc (prof_configs p))).
Proof.
  split.
  - exists (open_w (prof_name p) (fs w)). split; [|split].
    + unfold save_states. right. left.
    + apply dict_get_set_eq.
    + reflexivity.
  - eexists. split; [reflexivity|]. split; [reflexivity|].
    apply dict_get_set_eq.
Qed.

(** C9 as claimed fails: while ["home"] is saved over its older file, the
    directory passes through a state in which [home.json] holds neither
    the older document nor the new one. *)
Lemma save_exposes_empty_file :
  ~ (forall f', f' ∈ save_states home_profile home_fs ->
        dict_get (profile_files f') "home" = dict_get (profile_files home_fs) "home"
        \/ dict_get (profile_files f') "home" = Some (FDoc (prof_configs home_profile))).
Proof.
  intros H. destruct (H (open_w "home" home_fs)) as [Hold|Hnew].
  - unfold save_states. right. left.
  - discriminate Hold.
  - discriminate Hnew.
Qed.

(** * Further properties of the code *)

(** ** Properties kept by a computation *)

Section Preserves.
Context (I : World -> Prop).

Lemma preserves_ret {A} (a : A) : preserves I (mret a).
Proof. by intros w Hw. Qed.

Lemma preserves_lift {A} (r : result A) : preserves I (lift r).
Proof. by intros w Hw. Qed.

Lemma preserves_get_world : preserves I get_world.
Proof. by intros w Hw. Qed.

Lemma preserves_modify f : (forall w, I w -> I (f w)) -> preserves I (modify f).
Proof. intros Hf w Hw. by apply Hf. Qed.

Lemma preserves_bind {A B} (m : M A) (f : A -> M B) :
  preserves I m -> (forall a, preserves I (f a)) -> preserves I (m ≫= f).
Proof.
  intros Hm Hf w Hw. unfold mbind, M_bind.
  specialize (Hm w Hw). destruct (m w) as [[a|e] w1]; [by apply Hf|done].
Qed.

Lemma preserves_for_each {A} (l : list A) (body : A -> M unit) :
  (forall a, preserves I (body a)) -> preserves I (for_each l body).
Proof.
  intros Hbody. induction l as [|a l IH]; simpl.
  - apply preserves_ret.
  - apply preserves_bind; [apply Hbody|]. by intros _.
Qed.

End Preserves.

(** ** What a cycle touches *)

Lemma output_command_shape rt monitor c cmd :
  output_command rt monitor c = Ok cmd ->
  exists name args, mon_name monitor = Some name
                    /\ cmd = "swaymsg" :: "output" :: name :: args.
Proof.
  unfold output_command, mbind, result_bind.
  destruct (mon_name monitor) as [name|]; simpl; [|done].
  destruct (default true (cfg_enabled c)).
  - destruct (cfg_resolution c) as [res|]; simpl; [|done].
    destruct (unpack2 (str_split "x" res)) as [[width height]|]; [|done].
    destruct (cfg_position c) as [pos|]; simpl; [|done].
    destruct (unpack2 (str_split "," pos)) as [[x y]|]; [|done].
    destruct (cfg_scale c) as [scale|]; simpl; [|done].
    destruct (cfg_transform c) as [transform|]; simpl; [|done].
    intros [= <-]. by eexists _, _.
  - intros [= <-]. by eexists _, _.
Qed.

(** One pass of the loop body runs at most one command, for its output,
    and changes nothing else. *)
Lemma configure_step rt monitor w :
  exists cmds,
    snd (configure rt monitor w) = add_calls cmds w
    /\ (cmds = []
        \/ exists name args, mon_name monitor = Some name
                             /\ cmds = ["swaymsg" :: "output" :: name :: args]).
Proof.
  assert (Hnone : exists cmds : list (list string),
             w = add_calls cmds w
             /\ (cmds = []
                 \/ exists name args, mon_name monitor = Some name
                      /\ cmds = ["swaymsg" :: "output" :: name :: args])).
  { exists []. split; [by rewrite add_calls_nil|by left]. }
  assert (Hwarn : snd (warn_no_configuration monitor w) = w).
  { unfold warn_no_configuration. by destruct (mon_name monitor). }
  unfold configure. mstep.
  destruct (find_best_config (daemon w) monitor) as [[c|]|e] eqn:Hfind.
  - rewrite (bind_lift_Ok _ _ _ _ eq_refl).
    destruct (config_truthy c); [|by rewrite Hwarn].
    unfold apply_monitor_config.
    destruct (output_command rt monitor c) as [cmd|e] eqn:Hcmd.
    + destruct (output_command_shape _ _ _ _ Hcmd) as (name & args & Hname & ->).
      exists ["swaymsg" :: "output" :: name :: args]. split; [|right; eauto].
      unfold mbind, M_bind, lift, run_checked.
      by destruct (swaymsg rt _ _).
    + done.
  - rewrite (bind_lift_Ok _ _ _ _ eq_refl). by rewrite Hwarn.
  - by rewrite (bind_lift_Raise _ _ _ _ eq_refl).
Qed.

Lemma for_each_configure_step rt monitors w (names : gset string) :
  (forall m name, m ∈ monitors -> mon_name m = Some name -> name ∈ names) ->
  exists cmds,
    snd (for_each monitors (configure rt) w) = add_calls cmds w
    /\ length cmds <= length monitors
    /\ Forall (targets names) cmds.
Proof.
  revert w. induction monitors as [|m ms IH]; intros w Hnames.
  - exists []. by rewrite add_calls_nil.
  - simpl for_each. unfold mbind, M_bind.
    destruct (configure_step rt m w) as (c1 & Hw1 & Hc1).
    assert (Hfirst : length c1 <= 1 /\ Forall (targets names) c1).
    { destruct Hc1 as [->|(name & args & Hname & ->)]; [by split; [simpl; lia|]|].
      split; [done|]. constructor; [|done]. exists name, args. split; [done|].
      apply (Hnames m); [left|done]. }
    destruct (configure rt m w) as [[[]|e] w1]; simpl in Hw1; subst w1.
    + destruct (IH (add_calls c1 w)) as (c2 & Hw2 & Hlen & Hall);
        [intros m' name Hm'; apply Hnames; by right|].
      exists (c1 ++ c2)%list. rewrite Hw2, add_calls_app.
      split; [done|]. split.
      * rewrite length_app. simpl. lia.
      * apply Forall_app. by split; [apply Hfirst|].
    + exists c1. split; [done|]. split; [simpl; lia|apply Hfirst].
Qed.

Lemma monitor_names_elem monitors s m name :
  monitor_names monitors = Ok s -> m ∈ monitors -> mon_name m = Some name -> name ∈ s.
Proof.
  revert s. induction monitors as [|m0 ms IH]; intros s Hs Hin Hname.
  - by apply elem_of_nil in Hin.
  - simpl in Hs. unfold mbind, result_bind in Hs.
    destruct (mon_name m0) as [n0|] eqn:Hn0; [|done]. simpl in Hs.
    destruct (monitor_names ms) as [s'|] eqn:Hs'; [|done].
    injection Hs as <-.
    apply elem_of_cons in Hin as [->|Hin].
    + rewrite Hname in Hn0. injection Hn0 as ->. set_solver.
    + apply elem_of_union_r. by apply (IH s').
Qed.

(** What one cycle leaves, case by case. *)
Lemma update_cases rt q w :
  (exists e, update_monitor_configs rt q w = (Raise e, w))
  \/ update_monitor_configs rt q w = (Ok tt, w)
  \/ exists monitors s cmds,
       get_current_monitors q = Ok monitors /\ monitor_names monitors = Ok s
       /\ length cmds <= length monitors /\ Forall (targets s) cmds
       /\ ((exists e, update_monitor_configs rt q w = (Raise e, add_calls cmds w))
           \/ update_monitor_configs rt q w
              = (Ok tt, set_daemon (set_current_monitors s (daemon w)) (add_calls cmds w))).
Proof.
  destruct (get_current_monitors q) as [ms|e] eqn:Hms.
  2:{ left. exists e. unfold update_monitor_configs.
      by rewrite (bind_lift_Raise _ _ _ _ Hms). }
  destruct (monitor_names ms) as [s|e] eqn:Hs.
  2:{ left. exists e. unfold update_monitor_configs.
      by rewrite (bind_lift_Ok _ _ _ _ Hms), (bind_lift_Raise _ _ _ _ Hs). }
  destruct (decide (s = current_monitors (daemon w))) as [Heq|Hne].
  { right. left. apply (update_unchanged rt q w s); [|done].
    unfold query_names. by rewrite Hms. }
  right. right.
  destruct (for_each_configure_step rt ms w s) as (cmds & Hw' & Hlen & Hall);
    [intros m name; by apply monitor_names_elem|].
  exists ms, s, cmds. repeat split; try done.
  rewrite (update_changed rt q w ms s Hms Hs Hne).
  destruct (for_each ms (configure rt) w) as [[[]|e] w']; simpl in Hw'; subst w'.
  - by right.
  - left. by exists e.
Qed.

(** X1. A cycle never writes to the profile directory and never changes
    the loaded profiles or the active profile name; it only appends to the
    commands run; and when it raises, the stored set of names is as
    before, so that the next trigger tries again. *)
Theorem update_monitor_configs_frame (rt : Runtime) (q : query) (w : World) :
  fs (snd (update_monitor_configs rt q w)) = fs w
  /\ profiles (daemon (snd (update_monitor_configs rt q w))) = profiles (daemon w)
  /\ active_profile_name (daemon (snd (update_monitor_configs rt q w)))
     = active_profile_name (daemon w)
  /\ (exists cmds, calls (snd (update_monitor_configs rt q w)) = (calls w ++ cmds)%list)
  /\ (forall e, fst (update_monitor_configs rt q w) = Raise e ->
        current_monitors (daemon (snd (update_monitor_configs rt q w)))
        = current_monitors (daemon w)).
Proof.
  destruct (update_cases rt q w)
    as [[e ->]|[->|(ms & s & cmds & _ & _ & _ & _ & [[e ->]| ->])]]; simpl;
    repeat split; try done; try (exists []; by rewrite app_nil_r); by eexists.
Qed.



Lemma for_each_app {A} (l1 l2 : list A) (body : A -> M unit) w :
  for_each (l1 ++ l2) body w = (for_each l1 body ≫= fun _ => for_each l2 body) w.
Proof.
  revert w. induction l1 as [|a l1 IH]; intros w; [done|].
  simpl. unfold mbind, M_bind.
  destruct (body a w) as [[[]|e] w1]; [|done]. apply IH.
Qed.

(** X3. An output whose matched configuration is malformed (a key is
    missing, or the resolution or position does not split in two) aborts
    the cycle with that exception: the outputs before it have been
    configured, the outputs after it are not, and the set of names is not
    stored. *)
Theorem update_monitor_configs_aborts (rt : Runtime) (q : query) (w : World)
    (pre post : list Monitor) (m : Monitor) (c : Config) (e : exn) (s : gset string) :
  get_current_monitors q = Ok (pre ++ m :: post)%list ->
  monitor_names (pre ++ m :: post) = Ok s ->
  s ≠ current_monitors (daemon w) ->
  starts rt ->
  (forall m', m' ∈ pre -> appliable rt (daemon w) m') ->
  find_best_config (daemon w) m = Ok (Some c) ->
  config_truthy c = true ->
  output_command rt m c = Raise e ->
  update_monitor_configs rt q w
  = (Raise e, add_calls (omap (command_for rt (daemon w)) pre) w).
Proof.
  intros Hms Hs Hne Hstarts Hpre Hfind Htruthy Hcmd.
  rewrite (update_changed rt q w _ s Hms Hs Hne), for_each_app.
  assert (Hall : forall m', m' ∈ pre ->
                            is_Some (mon_name m') /\ appliable rt (daemon w) m').
  { intros m' Hm'. split; [|by apply Hpre].
    apply (monitor_names_named (pre ++ m :: post) s m' Hs). apply elem_of_app. by left. }
  rewrite (bind_Ok _ _ _ _ _ (for_each_configure rt Hstarts pre w Hall)).
  simpl for_each.
  assert (Hm : configure rt m (add_calls (omap (command_for rt (daemon w)) pre) w)
               = (Raise e, add_calls (omap (command_for rt (daemon w)) pre) w)).
  { unfold configure. mstep. simpl daemon.
    rewrite (bind_lift_Ok _ _ _ _ Hfind), Htruthy.
    unfold apply_monitor_config.
    by rewrite (bind_Raise _ _ _ _ _ (bind_lift_Raise _ _ _ _ Hcmd)). }
  by rewrite (bind_Raise _ _ _ _ _ Hm).
Qed.

Lemma update_monitor_configs_aborts_witness :
  update_monitor_configs rt_dp2_fails dell_acme_lg desk_star
  = (Raise ValueError,
     add_calls [["swaymsg"; "output"; "DP-1"; "pos"; "0"; "0"; "res"; "1920"; "1080";
                 "scale"; "1.0"; "transform"; "normal"]] desk_star).
Proof.
  assert (Hne : three_names ≠ current_monitors (daemon desk_star)) by (by vm_compute).
  assert (Hpre : forall m', m' ∈ [dell_monitor] ->
                            appliable rt_dp2_fails (daemon desk_star) m').
  { intros m' ->%list_elem_of_singleton. exists (Some cfg_1080p).
    split; [by vm_compute|]. intros c [= <-]. by eexists. }
  exact (update_monitor_configs_aborts rt_dp2_fails dell_acme_lg desk_star
           [dell_monitor] [lg_monitor] acme_monitor cfg_star ValueError three_names
           eq_refl eq_refl Hne rt_dp2_fails_starts Hpre eq_refl eq_refl eq_refl).
Defined.

(** ** What a cycle compares *)

Lemma monitor_names_set monitors s :
  monitor_names monitors = Ok s -> s = list_to_set (omap mon_name monitors).
Proof.
  revert s. induction monitors as [|m ms IH]; intros s Hs.
  - by injection Hs as <-.
  - simpl in Hs. unfold mbind, result_bind in Hs. simpl.
    destruct (mon_name m) as [n|]; [|done]. simpl in Hs.
    destruct (monitor_names ms) as [s'|]; [|done].
    injection Hs as <-. by rewrite (IH s').
Qed.

Lemma monitor_names_total monitors :
  Forall (fun m => is_Some (mon_name m)) monitors ->
  monitor_names monitors = Ok (list_to_set (omap mon_name monitors)).
Proof.
  induction 1 as [|m ms [n Hn] _ IH]; [done|].
  simpl. rewrite Hn, IH. reflexivity.
Qed.

(** X4. A cycle compares names and nothing else.  After a cycle that
    returned, a cycle whose reply has the same set of output names does
    nothing, whatever the order of the outputs and whatever display is
    now behind a name. *)
Theorem update_monitor_configs_names_only (rt rt' : Runtime) (q q' : query)
    (w w1 : World) (monitors monitors' : list Monitor) :
  get_current_monitors q = Ok monitors ->
  get_current_monitors q' = Ok monitors' ->
  update_monitor_configs rt q w = (Ok tt, w1) ->
  Forall (fun m => is_Some (mon_name m)) monitors' ->
  list_to_set (omap mon_name monitors') =@{gset string} list_to_set (omap mon_name monitors) ->
  update_monitor_configs rt' q' w1 = (Ok tt, w1).
Proof.
  intros Hms Hms' Hup Hnamed Hsame.
  destruct (monitor_names monitors) as [s|e] eqn:Hs.
  2:{ unfold update_monitor_configs in Hup.
      by rewrite (bind_lift_Ok _ _ _ _ Hms), (bind_lift_Raise _ _ _ _ Hs) in Hup. }
  assert (Hq : query_names q = Ok s) by (unfold query_names; by rewrite Hms).
  apply (update_unchanged rt' q' w1 s).
  - unfold query_names. rewrite Hms'. simpl.
    rewrite (monitor_names_total _ Hnamed), Hsame. by rewrite (monitor_names_set _ _ Hs).
  - symmetry. by apply (update_stores_names rt q w w1 s).
Qed.

Lemma update_monitor_configs_names_only_witness :
  update_monitor_configs rt_dp2_fails three_outputs desk = (Ok tt, desk_reconciled)
  /\ update_monitor_configs rt_dp2_fails swapped_outputs desk_reconciled
     = (Ok tt, desk_reconciled).
Proof.
  assert (Hup : update_monitor_configs rt_dp2_fails three_outputs desk
                = (Ok tt, desk_reconciled)) by (vm_compute; reflexivity).
  assert (Hnamed : Forall (fun m => is_Some (mon_name m))
                     [acme_monitor; benq_monitor; lg_monitor])
    by (repeat constructor; by eexists).
  assert (Hsame : list_to_set (omap mon_name [acme_monitor; benq_monitor; lg_monitor])
                  =@{gset string}
                  list_to_set (omap mon_name [lg_monitor; dell_monitor; acme_monitor]))
    by (vm_compute; reflexivity).
  split; [exact Hup|].
  exact (update_monitor_configs_names_only rt_dp2_fails rt_dp2_fails three_outputs
           swapped_outputs desk desk_reconciled _ _ eq_refl eq_refl Hup Hnamed Hsame).
Defined.

(** ** More on the matcher *)

Lemma first_hit_entry configs ids c :
  first_hit configs ids = Some c ->
  exists identifier, identifier ∈ ids /\ configs !! identifier = Some c.
Proof.
  induction ids as [|i ids IH]; simpl; [done|].
  destruct (configs !! i) eqn:E.
  - intros [= ->]. exists i. split; [left|done].
  - intros H. destruct (IH H) as (j & Hj & Hc). exists j. split; [by right|done].
Qed.

Lemma first_hit_none configs ids :
  first_hit configs ids = None <-> forall identifier, identifier ∈ ids -> configs !! identifier = None.
Proof.
  induction ids as [|i ids IH]; simpl.
  - split; [by intros _ j ?%elem_of_nil|done].
  - destruct (configs !! i) eqn:E.
    + split; [done|]. intros H. rewrite <- E. apply H. left.
    + rewrite IH. split.
      * intros H j [->|Hj]%elem_of_cons; [done|by apply H].
      * intros H j Hj. apply H. by right.
Qed.

Lemma search_profiles_entry (ps : list MonitorProfile) ids c :
  search_profiles ps ids = Some c ->
  exists p, p ∈ ps /\ first_hit (prof_configs p) ids = Some c.
Proof.
  induction ps as [|p ps IH]; simpl; [done|].
  destruct (first_hit (prof_configs p) ids) eqn:E.
  - intros [= ->]. exists p. split; [left|done].
  - intros H. destruct (IH H) as (p' & Hp' & Hc). exists p'. split; [by right|done].
Qed.

Lemma search_profiles_none (ps : list MonitorProfile) ids :
  search_profiles ps ids = None <-> forall p, p ∈ ps -> first_hit (prof_configs p) ids = None.
Proof.
  induction ps as [|p ps IH]; simpl.
  - split; [by intros _ p' ?%elem_of_nil|done].
  - destruct (first_hit (prof_configs p) ids) eqn:E.
    + split; [done|]. intros H. rewrite <- E. apply H. left.
    + rewrite IH. split.
      * intros H p' [->|Hp']%elem_of_cons; [done|by apply H].
      * intros H p' Hp'. apply H. by right.
Qed.

Lemma dict_values_elem {V} (d : pydict V) v :
  v ∈ dict_values d <-> exists k, (k, v) ∈ d.
Proof.
  unfold dict_values. rewrite list_elem_of_fmap. split.
  - intros ([k v'] & -> & Hin). by exists k.
  - intros [k Hin]. by exists (k, v).
Qed.

(** X5. With the active profile loaded, a configuration that
    [find_best_config] returns is an entry of a loaded profile under one
    of the three identifiers of the output, and it returns [None] exactly
    when no loaded profile has an entry under any of them. *)
Theorem find_best_config_entries (self : Daemon) (monitor : Monitor)
    (active_profile : MonitorProfile) :
  dict_get (profiles self) (active_profile_name self) = Some active_profile ->
  (forall c, find_best_config self monitor = Ok (Some c) ->
     exists k p identifier,
       (k, p) ∈ profiles self /\ identifier ∈ identifiers monitor
       /\ prof_configs p !! identifier = Some c)
  /\ (find_best_config self monitor = Ok None <->
      forall k p identifier,
        (k, p) ∈ profiles self -> identifier ∈ identifiers monitor ->
        prof_configs p !! identifier = None).
Proof.
  intros Hact. unfold find_best_config. rewrite Hact. split.
  - intros c.
    destruct (first_hit (prof_configs active_profile) (identifiers monitor)) as [c'|] eqn:Hhit.
    + intros [= ->]. destruct (first_hit_entry _ _ _ Hhit) as (i & Hi & Hc).
      exists (active_profile_name self), active_profile, i.
      split; [by apply dict_get_elem|done].
    + intros [= H]. destruct (search_profiles_entry _ _ _ H) as (p & Hp & Hhit').
      apply dict_values_elem in Hp as [k Hk].
      destruct (first_hit_entry _ _ _ Hhit') as (i & Hi & Hc). by exists k, p, i.
  - apply dict_get_elem in Hact.
    destruct (first_hit (prof_configs active_profile) (identifiers monitor)) as [c'|] eqn:Hhit.
    + split; [done|]. intros H. exfalso.
      destruct (first_hit_entry _ _ _ Hhit) as (i & Hi & Hc).
      by rewrite (H _ _ _ Hact Hi) in Hc.
    + split.
      * intros [= H] k p i Hk Hi.
        assert (Hp : first_hit (prof_configs p) (identifiers monitor) = None).
        { apply (proj1 (search_profiles_none _ _) H). apply dict_values_elem. by exists k. }
        by apply (proj1 (first_hit_none _ _) Hp).
      * intros H. f_equal. apply search_profiles_none. intros p [k Hk]%dict_values_elem.
        apply first_hit_none. intros i Hi. by apply (H k p i).
Qed.

Lemma find_best_config_entries_witness :
  (exists k p identifier,
     (k, p) ∈ profiles two_profiles /\ identifier ∈ identifiers lg_monitor
     /\ prof_configs p !! identifier = Some cfg_lg)
  /\ (forall k p identifier,
        (k, p) ∈ profiles two_profiles -> identifier ∈ identifiers acme_monitor ->
        prof_configs p !! identifier = None).
Proof.
  split.
  - exact (proj1 (find_best_config_entries two_profiles lg_monitor _ eq_refl)
             cfg_lg eq_refl).
  - exact (proj1 (proj2 (find_best_config_entries two_profiles acme_monitor _ eq_refl))
             eq_refl).
Defined.

Lemma search_profiles_app (ps ps' : list MonitorProfile) ids :
  (forall p, p ∈ ps -> first_hit (prof_configs p) ids = None) ->
  search_profiles (ps ++ ps') ids = search_profiles ps' ids.
Proof.
  induction ps as [|p ps IH]; intros H; [done|].
  simpl. rewrite (H p) by left. apply IH. intros p' Hp'. apply H. by right.
Qed.

(** X6. Among the profiles that are not active, the order of
    [self.profiles] comes before the order of the identifiers: when the
    active profile has no entry for the output, the first profile with
    an entry under any identifier gives the configuration, whatever later
    profiles hold, also under ["{model}_{serial}"]. *)
Theorem find_best_config_profile_order (self : Daemon) (monitor : Monitor)
    (active_profile p : MonitorProfile) (k : string)
    (before after : list (string * MonitorProfile)) (c : Config) :
  dict_get (profiles self) (active_profile_name self) = Some active_profile ->
  first_hit (prof_configs active_profile) (identifiers monitor) = None ->
  profiles self = (before ++ (k, p) :: after)%list ->
  (forall k' p', (k', p') ∈ before ->
                 first_hit (prof_configs p') (identifiers monitor) = None) ->
  first_hit (prof_configs p) (identifiers monitor) = Some c ->
  find_best_config self monitor = Ok (Some c).
Proof.
  intros Hact Hnone Hps Hbefore Hp. unfold find_best_config.
  rewrite Hact, Hnone, Hps. unfold dict_values. rewrite fmap_app.
  rewrite search_profiles_app.
  - rewrite fmap_cons. cbn [search_profiles snd]. by rewrite Hp.
  - intros p' ([k' p''] & -> & Hin)%list_elem_of_fmap. by apply (Hbefore k').
Qed.

(** The output is known by its connector in the earlier profile and by
    model and serial in the later one: the earlier profile wins. *)
Lemma find_best_config_profile_order_witness :
  find_best_config layered_profiles dell_monitor = Ok (Some cfg_1440p).
Proof.
  apply (find_best_config_profile_order layered_profiles dell_monitor
           {| prof_name := "default"; prof_configs := ∅ |}
           {| prof_name := "byname"; prof_configs := {["DP-1" := cfg_1440p]} |}
           "byname"
           [("default", {| prof_name := "default"; prof_configs := ∅ |})]
           [("byserial", {| prof_name := "byserial";
                            prof_configs := {["DELL_ABC123" := cfg_1080p]} |})]);
    [reflexivity|reflexivity|reflexivity| |reflexivity].
  intros k' p' [= -> ->]%list_elem_of_singleton. reflexivity.
Defined.

(** X7. Empty identifiers are looked up like any other.  For an output
    without model and without serial the first identifier is ["_"]: an
    entry of the active profile under ["_"] is returned for every such
    output, before an entry under the name of the output. *)
Theorem find_best_config_empty_identity (self : Daemon) (monitor : Monitor)
    (active_profile : MonitorProfile) (c : Config) :
  dict_get (profiles self) (active_profile_name self) = Some active_profile ->
  get_str (mon_model monitor) = "" ->
  get_str (mon_serial monitor) = "" ->
  prof_configs active_profile !! "_" = Some c ->
  find_best_config self monitor = Ok (Some c).
Proof.
  intros Hact Hmodel Hserial Hc. unfold find_best_config, identifiers.
  rewrite Hact, Hmodel, Hserial. simpl.
  change ("" ++ "_" ++ "") with "_". by rewrite Hc.
Qed.

Lemma find_best_config_empty_identity_witness :
  find_best_config underscore_profiles anonymous_monitor = Ok (Some cfg_1080p).
Proof.
  exact (find_best_config_empty_identity underscore_profiles anonymous_monitor _
           cfg_1080p eq_refl eq_refl eq_refl eq_refl).
Defined.

(** ** Splitting and printing *)

Lemma str_split_length sep s : length (str_split sep s) = S (count_char sep s).
Proof.
  induction s as [|c s IH]; [done|].
  simpl. destruct (Ascii.eqb c sep); simpl; [by rewrite IH|].
  destruct (str_split sep s); simpl in *; done.
Qed.

Lemma str_split_whole sep s : count_char sep s = 0 -> str_split sep s = [s].
Proof.
  induction s as [|c s IH]; [done|].
  simpl. destruct (Ascii.eqb c sep); [done|]. simpl. intros H. by rewrite IH.
Qed.

Lemma str_split_two sep s1 s2 :
  count_char sep s1 = 0 -> count_char sep s2 = 0 ->
  str_split sep (s1 ++ String sep s2) = [s1; s2].
Proof.
  intros H1 H2. induction s1 as [|c s1 IH].
  - change ("" ++ String sep s2) with (String sep s2). simpl.
    rewrite Ascii.eqb_refl. by rewrite str_split_whole.
  - change (String c s1 ++ String sep s2) with (String c (s1 ++ String sep s2)).
    simpl in *. destruct (Ascii.eqb c sep); [done|]. by rewrite IH.
Qed.

Lemma unpack2_once sep s :
  count_char sep s = 1 -> exists a b, unpack2 (str_split sep s) = Ok (a, b).
Proof.
  intros H. pose proof (str_split_length sep s) as Hlen. rewrite H in Hlen.
  destruct (str_split sep s) as [|a [|b [|? ?]]]; try done. by exists a, b.
Qed.

Lemma unpack2_other sep s :
  count_char sep s <> 1 -> unpack2 (str_split sep s) = Raise ValueError.
Proof.
  intros H. pose proof (str_split_length sep s) as Hlen.
  destruct (str_split sep s) as [|a [|b [|? ?]]]; try done.
  simpl in Hlen. exfalso. apply H. lia.
Qed.

(** A printed integer holds digits and a sign, no separator. *)
Lemma str_int_separators z :
  count_char "," (str_int z) = 0 /\ count_char "x" (str_int z) = 0.
Proof.
  assert (Hu : forall u, count_char "," (NilEmpty.string_of_uint u) = 0
                         /\ count_char "x" (NilEmpty.string_of_uint u) = 0)
    by (induction u; simpl; done).
  assert (Hz : forall u, count_char "," (NilZero.string_of_uint u) = 0
                         /\ count_char "x" (NilZero.string_of_uint u) = 0)
    by (intros u; destruct u; try apply Hu; done).
  unfold str_int. destruct (Z.to_int z); simpl; apply Hz.
Qed.

(** X8. The command for an output can be built exactly when the output
    has a name and the configuration is disabled or has a scale, a
    transform, a resolution with one ['x'] and a position with one comma.
    The pieces themselves are not looked at. *)
Theorem output_command_succeeds (rt : Runtime) (monitor : Monitor) (c : Config) :
  (exists cmd, output_command rt monitor c = Ok cmd) <->
  is_Some (mon_name monitor)
  /\ (default true (cfg_enabled c) = true ->
      exists resolution position,
        cfg_resolution c = Some resolution /\ count_char "x" resolution = 1
        /\ cfg_position c = Some position /\ count_char "," position = 1
        /\ is_Some (cfg_scale c) /\ is_Some (cfg_transform c)).
Proof.
  unfold output_command, mbind, result_bind.
  destruct (mon_name monitor) as [name|]; simpl.
  2:{ split; [by intros [? ?]|by intros [[? ?] _]]. }
  destruct (default true (cfg_enabled c)).
  2:{ split; [by split|by eexists]. }
  destruct (cfg_resolution c) as [res|]; simpl.
  2:{ split; [by intros [? ?]|]. by intros [_ (? & ? & ? & _)]. }
  destruct (decide (count_char "x" res = 1)) as [Hres|Hres].
  2:{ rewrite (unpack2_other _ _ Hres).
      split; [by intros [? ?]|]. intros [_ (? & ? & [= <-] & ? & _)]; done. }
  destruct (unpack2_once _ _ Hres) as (width & height & ->).
  destruct (cfg_position c) as [pos|]; simpl.
  2:{ split; [by intros [? ?]|]. by intros [_ (? & ? & _ & _ & ? & _)]. }
  destruct (decide (count_char "," pos = 1)) as [Hpos|Hpos].
  2:{ rewrite (unpack2_other _ _ Hpos).
      split; [by intros [? ?]|]. intros [_ (? & ? & _ & _ & [= <-] & ? & _)]; done. }
  destruct (unpack2_once _ _ Hpos) as (x & y & ->).
  destruct (cfg_scale c) as [scale|]; simpl.
  2:{ split; [by intros [? ?]|]. by intros [_ (? & ? & _ & _ & _ & _ & [? ?] & _)]. }
  destruct (cfg_transform c) as [transform|]; simpl.
  2:{ split; [by intros [? ?]|]. by intros [_ (? & ? & _ & _ & _ & _ & _ & [? ?])]. }
  split; [|by eexists]. intros _. split; [by eexists|]. intros _.
  exists res, pos. repeat split; try done; by eexists.
Qed.

(** X9. What [save_current_setup] captures of an output,
    [apply_monitor_config] can apply to it: the command is built, and it
    carries the position and the mode that the output reported (or
    [disable] for a disabled output). *)
Theorem capture_then_output_command (rt : Runtime) (monitor : Monitor)
    (model name : string) (x y width height : Z) :
  mon_name monitor = Some name ->
  mon_rect monitor = Some {| rect_x := Some x; rect_y := Some y |} ->
  mon_current_mode monitor
  = Some {| mode_width := Some width; mode_height := Some height |} ->
  exists c,
    capture model monitor = Ok c
    /\ output_command rt monitor c
       = Ok (if default false (mon_disabled monitor)
             then ["swaymsg"; "output"; name; "disable"]
             else ["swaymsg"; "output"; name;
                   "pos"; str_int x; str_int y;
                   "res"; str_int width; str_int height;
                   "scale"; str_number rt (default (NFloat float_one) (mon_scale monitor));
                   "transform"; default "normal" (mon_transform monitor)]).
Proof.
  intros Hname Hrect Hmode. eexists. split.
  - unfold capture. rewrite Hrect, Hmode. reflexivity.
  - unfold output_command. rewrite Hname. simpl.
    destruct (default false (mon_disabled monitor)); [reflexivity|].
    simpl negb. cbv iota.
    change (str_int width ++ "x" ++ str_int height)
      with (str_int width ++ String "x" (str_int height)).
    change (str_int x ++ "," ++ str_int y) with (str_int x ++ String "," (str_int y)).
    rewrite (str_split_two "x" _ _ (proj2 (str_int_separators width))
               (proj2 (str_int_separators height))).
    rewrite (str_split_two "," _ _ (proj1 (str_int_separators x))
               (proj1 (str_int_separators y))).
    reflexivity.
Qed.

Lemma capture_then_output_command_witness :
  exists c,
    capture "LG" lg_monitor = Ok c
    /\ output_command rt_dp2_fails lg_monitor c
       = Ok ["swaymsg"; "output"; "DP-2"; "pos"; "1920"; "0"; "res"; "2560"; "1440";
             "scale"; "1.0"; "transform"; "normal"].
Proof.
  exact (capture_then_output_command rt_dp2_fails lg_monitor "LG" "DP-2"
           1920 0 2560 1440 eq_refl eq_refl eq_refl).
Defined.

(** ** The shape of [self.profiles] *)

Lemma preserves_bind_value {A B} (I : World -> Prop) (P : A -> Prop)
    (m : M A) (f : A -> M B) :
  preserves I m -> returns P m -> (forall a, P a -> preserves I (f a)) ->
  preserves I (m ≫= f).
Proof.
  intros Hm HP Hf w Hw. unfold mbind, M_bind.
  specialize (Hm w Hw). destruct (m w) as [[a|e] w1] eqn:E; [|done].
  apply (Hf a); [by apply (HP w a w1)|done].
Qed.

Lemma dict_keys_set {V} (d : pydict V) k v :
  dict_keys (dict_set d k v)
  = if decide (k ∈ dict_keys d) then dict_keys d else (dict_keys d ++ [k])%list.
Proof.
  induction d as [|[k0 v0] d IH]; simpl.
  - by destruct (decide (k ∈ [])) as [H%elem_of_nil|H].
  - destruct (String.eqb_spec k0 k) as [->|Hne]; simpl.
    + by rewrite decide_True by left.
    + rewrite IH. destruct (decide (k ∈ dict_keys d)) as [Hin|Hnin].
      * by rewrite decide_True by (by right).
      * by rewrite decide_False by (intros [?|?]%elem_of_cons; done).
Qed.

Lemma dict_set_wf {V} (d : pydict V) k v : dict_wf d -> dict_wf (dict_set d k v).
Proof.
  unfold dict_wf. intros Hwf. rewrite dict_keys_set.
  destruct (decide (k ∈ dict_keys d)); [done|].
  apply NoDup_app. split; [done|]. split.
  - intros x Hx ->%list_elem_of_singleton. done.
  - apply NoDup_singleton.
Qed.

Lemma dict_set_named ps k p :
  profiles_named ps -> prof_name p = k -> profiles_named (dict_set ps k p).
Proof.
  intros Hnamed Hp k' p'. destruct (decide (k = k')) as [<-|Hne].
  - rewrite dict_get_set_eq. by intros [= <-].
  - rewrite dict_get_set_ne by done. apply Hnamed.
Qed.

Lemma store_profile_wf name p :
  prof_name p = name -> preserves profiles_wf (store_profile name p).
Proof.
  intros Hp. apply preserves_modify. intros w [Hwf Hnamed]. split; simpl.
  - by apply dict_set_wf.
  - by apply dict_set_named.
Qed.

Lemma MonitorProfile_load_named name :
  returns (fun p => prof_name p = name) (MonitorProfile_load name).
Proof.
  intros w p w'. unfold MonitorProfile_load. mstep.
  destruct (dict_get (profile_files (fs w)) name) as [c|].
  - unfold mbind, M_bind, lift. destruct (json_load c); [|done]. by intros [= <- ?].
  - by intros [= <- ?].
Qed.

Lemma MonitorProfile_load_frame (I : World -> Prop) name :
  preserves I (MonitorProfile_load name).
Proof.
  intros w Hw. unfold MonitorProfile_load. mstep.
  destruct (dict_get (profile_files (fs w)) name) as [c|]; [|done].
  unfold mbind, M_bind, lift. by destruct (json_load c).
Qed.

Lemma load_profiles_wf : preserves profiles_wf load_profiles.
Proof.
  unfold load_profiles.
  apply preserves_bind; [apply preserves_get_world|]. intros w0.
  apply preserves_bind.
  { apply preserves_for_each. intros k.
    apply (preserves_bind_value _ (fun p => prof_name p = k));
      [apply MonitorProfile_load_frame|apply MonitorProfile_load_named|].
    intros p Hp. by apply store_profile_wf. }
  intros _. apply preserves_bind; [apply preserves_get_world|]. intros w1.
  apply preserves_bind.
  { destruct (dict_get _ DEFAULT_PROFILE); [apply preserves_ret|].
    by apply store_profile_wf. }
  intros _. apply preserves_bind; [apply preserves_get_world|]. intros w2.
  destruct (active_file (fs w2)); [|apply preserves_ret].
  apply preserves_modify. by intros w [? ?].
Qed.

Lemma update_profiles_unchanged rt q w :
  profiles (daemon (snd (update_monitor_configs rt q w))) = profiles (daemon w).
Proof.
  by destruct (update_cases rt q w)
    as [[e ->]|[->|(ms & s & cmds & _ & _ & _ & _ & [[e ->]| ->])]].
Qed.

Lemma update_monitor_configs_wf rt q : preserves profiles_wf (update_monitor_configs rt q).
Proof.
  intros w [Hwf Hnamed]. unfold profiles_wf.
  rewrite update_profiles_unchanged. by split.
Qed.

Lemma set_config_wf name key config : preserves profiles_wf (set_config name key config).
Proof.
  apply preserves_modify. intros w [Hwf Hnamed].
  destruct (dict_get (profiles (daemon w)) name) as [p|] eqn:Hp; [|done].
  split; simpl.
  - by apply dict_set_wf.
  - apply dict_set_named; [done|]. simpl. by apply Hnamed.
Qed.

Lemma snapshot_wf name monitor : preserves profiles_wf (snapshot name monitor).
Proof.
  unfold snapshot. destruct (str_truthy _); [|apply preserves_ret].
  apply preserves_bind; [apply preserves_lift|]. intros config.
  apply preserves_bind; [apply set_config_wf|]. intros _.
  destruct (mon_serial monitor) as [serial|]; [|apply preserves_ret].
  destruct (str_truthy serial); [apply set_config_wf|apply preserves_ret].
Qed.

Lemma save_current_setup_wf q profile_name :
  preserves profiles_wf (save_current_setup q profile_name).
Proof.
  unfold save_current_setup. apply preserves_bind.
  { destruct profile_name as [n|]; [destruct (str_truthy n)|];
      try apply preserves_ret.
    apply preserves_modify. by intros w [? ?]. }
  intros _. apply preserves_bind; [apply preserves_lift|]. intros monitors.
  apply preserves_bind; [apply preserves_get_world|]. intros w0.
  apply preserves_bind.
  { destruct (dict_get _ _); [apply preserves_ret|]. by apply store_profile_wf. }
  intros _. apply preserves_bind.
  { apply preserves_for_each. intros m. apply snapshot_wf. }
  intros _. apply preserves_bind; [apply preserves_get_world|]. intros w1.
  apply preserves_bind.
  { destruct (dict_get _ _); [|apply preserves_ret].
    apply preserves_modify. by intros w [? ?]. }
  intros _. apply preserves_modify. by intros w [? ?].
Qed.

Lemma handle_udev_event_wf rt q action :
  preserves profiles_wf (handle_udev_event rt q action).
Proof.
  unfold handle_udev_event.
  destruct (bool_decide _); [apply update_monitor_configs_wf|apply preserves_ret].
Qed.

(** X10. [self.profiles] stays a dictionary of profiles stored under
    their own names: the daemon starts with such a one, and loading the
    profiles, a cycle, saving the setup, the start of [run] and the
    handling of udev events keep it so, whether they return or raise. *)
Theorem profiles_wf_invariant :
  (forall f cmds,
     profiles_wf {| daemon := MonitorDaemon_init; fs := f; calls := cmds |})
  /\ preserves profiles_wf load_profiles
  /\ (forall rt q, preserves profiles_wf (update_monitor_configs rt q))
  /\ (forall q profile_name, preserves profiles_wf (save_current_setup q profile_name))
  /\ (forall rt q, preserves profiles_wf (run rt q))
  /\ (forall rt events, preserves profiles_wf (handle_udev_events rt events)).
Proof.
  split; [|split; [|split; [|split; [|split]]]].
  - intros f cmds. split; [apply NoDup_nil_2|by intros k p].
  - apply load_profiles_wf.
  - apply update_monitor_configs_wf.
  - apply save_current_setup_wf.
  - intros rt q. unfold run. apply preserves_bind; [apply load_profiles_wf|].
    intros _. apply update_monitor_configs_wf.
  - intros rt events. unfold handle_udev_events. apply preserves_for_each.
    intros e. apply handle_udev_event_wf.
Qed.

(** ** After [load_profiles] *)

Lemma find_best_config_returns self :
  active_loaded self <-> forall monitor, exists r, find_best_config self monitor = Ok r.
Proof.
  unfold active_loaded, find_best_config. split.
  - intros [p Hp] monitor. rewrite Hp. destruct (first_hit _ _); by eexists.
  - intros H. destruct (H dell_monitor) as [r Hr].
    destruct (dict_get (profiles self) (active_profile_name self)); [by eexists|done].
Qed.

Lemma load_all_is_Some f ps k :
  all_parse f ->
  is_Some (dict_get (load_all f (dict_keys (profile_files f)) ps) k)
  <-> is_Some (dict_get (profile_files f) k) \/ is_Some (dict_get ps k).
Proof.
  intros Hall. destruct (dict_get (profile_files f) k) as [c|] eqn:Hk.
  - destruct (Hall k c Hk) as [configs ->].
    rewrite (load_all_get_parsed f ps k configs Hk). split; [by left; eexists|by eexists].
  - rewrite (load_all_get_absent f _ ps k Hk). split; [by right|].
    by intros [[? [=]]|?].
Qed.

(** X11. After [load_profiles] on a directory whose files are kept under
    their stems and all parse, with a marker of plain text, the active
    profile is loaded exactly when the name taken from the marker (or,
    without a marker, the name the daemon had) is ["default"], or has a
    file, or was already in [self.profiles]; and exactly then
    [find_best_config] returns for every output instead of raising. *)
Theorem load_profiles_active_loaded (w : World) :
  all_parse (fs w) ->
  flat_dir (fs w) ->
  plain_marker (fs w) ->
  exists w',
    load_profiles w = (Ok tt, w')
    /\ active_profile_name (daemon w') = marked_name w
    /\ (active_loaded (daemon w') <->
        marked_name w = DEFAULT_PROFILE
        \/ is_Some (dict_get (profile_files (fs w)) (marked_name w))
        \/ is_Some (dict_get (profiles (daemon w)) (marked_name w)))
    /\ (active_loaded (daemon w') <->
        forall monitor, exists r, find_best_config (daemon w') monitor = Ok r).
Proof.
  intros Hall _ _. eexists. split; [by apply load_profiles_parsed|].
  split; [reflexivity|]. split; [|apply find_best_config_returns].
  unfold active_loaded. cbn [daemon profiles active_profile_name].
  fold (marked_name w). set (n := marked_name w).
  set (ps := load_all _ _ _).
  pose proof (load_all_is_Some (fs w) (profiles (daemon w)) n Hall) as Hn. fold ps in Hn.
  destruct (dict_get ps DEFAULT_PROFILE) as [d|] eqn:Hd.
  - rewrite Hn. split; [tauto|]. intros [Hdef|H]; [|done].
    apply Hn. rewrite Hdef, Hd. by eexists.
  - destruct (decide (n = DEFAULT_PROFILE)) as [->|Hne].
    + rewrite dict_get_set_eq. split; [by left|by eexists].
    + rewrite dict_get_set_ne by done. rewrite Hn. split; [tauto|].
      intros [Hdef|H]; done.
Qed.

Lemma office_marker_all_parse : all_parse (fs office_marker).
Proof.
  intros k c H. cbn -[String.eqb] in H.
  destruct (String.eqb "office" k); [injection H as <-; by eexists|].
  destruct (String.eqb "home" k); [injection H as <-; by eexists|done].
Qed.

Lemma office_marker_flat : flat_dir (fs office_marker).
Proof.
  intros k Hk. cbn in Hk.
  repeat (apply elem_of_cons in Hk as [->|Hk]); [done|done|by apply elem_of_nil in Hk].
Qed.

Lemma office_marker_plain : plain_marker (fs office_marker).
Proof. by intros text [= <-]. Qed.

Lemma load_profiles_active_loaded_witness :
  exists w',
    load_profiles office_marker = (Ok tt, w')
    /\ active_profile_name (daemon w') = "office"
    /\ find_best_config (daemon w') lg_monitor = Ok (Some cfg_lg).
Proof.
  destruct (load_profiles_active_loaded office_marker office_marker_all_parse
              office_marker_flat office_marker_plain)
    as (w' & Hload & Hname & Hiff & _).
  exists w'. split; [exact Hload|]. split; [exact Hname|].
  assert (Hw' : w' = snd (load_profiles office_marker)) by (by rewrite Hload).
  rewrite Hw'. reflexivity.
Defined.

Lemma dict_get_of_elem {V} (d : pydict V) k v : (k, v) ∈ d -> dict_get d k <> None.
Proof.
  induction d as [|[k0 v0] d IH]; [by intros ?%elem_of_nil|].
  intros Hin. simpl. destruct (String.eqb_spec k0 k) as [->|Hne]; [done|].
  apply elem_of_cons in Hin as [[= -> ->]|Hin]; [done|auto].
Qed.

Lemma load_all_fixed f ks ps :
  (forall k, k ∈ ks -> exists p, loaded_profile f k = Some p /\ dict_get ps k = Some p) ->
  load_all f ks ps = ps.
Proof.
  induction ks as [|k ks IH]; intros H; [done|].
  rewrite load_all_cons. destruct (H k) as (p & Hp & Hget); [left|].
  rewrite Hp, (dict_set_id _ _ _ Hget). apply IH. intros k' Hk'. apply H. by right.
Qed.

(** X12. Loading the profiles twice is loading them once: on a
    directory whose files all parse, a second [load_profiles] leaves the
    daemon as the first one left it. *)
Theorem load_profiles_idempotent (w w1 : World) :
  all_parse (fs w) ->
  load_profiles w = (Ok tt, w1) ->
  load_profiles w1 = (Ok tt, w1).
Proof.
  intros Hall Hload. rewrite (load_profiles_parsed w Hall) in Hload.
  injection Hload as <-.
  rewrite load_profiles_parsed by done. cbn [daemon fs calls profiles
    active_profile_name current_monitors].
  set (ps := load_all (fs w) _ (profiles (daemon w))).
  set (ps' := match dict_get ps DEFAULT_PROFILE with Some _ => ps | None => _ end).
  assert (Hps' : forall k configs,
             dict_get (profile_files (fs w)) k = Some (FDoc configs) ->
             dict_get ps' k = Some (MonitorProfile_init k (Some configs))).
  { intros k configs Hk.
    pose proof (load_all_get_parsed (fs w) (profiles (daemon w)) k configs Hk) as Hps.
    fold ps in Hps. unfold ps'.
    destruct (dict_get ps DEFAULT_PROFILE) eqn:Hdef; [done|].
    rewrite dict_get_set_ne; [done|]. intros <-. congruence. }
  assert (Hfix : load_all (fs w) (dict_keys (profile_files (fs w))) ps' = ps').
  { apply load_all_fixed. intros k Hk.
    apply list_elem_of_fmap in Hk as ([k' c] & -> & Hin). simpl.
    destruct (dict_get (profile_files (fs w)) k') as [c'|] eqn:Hget.
    - destruct (Hall k' c' Hget) as [configs ->].
      exists (MonitorProfile_init k' (Some configs)). split; [|by apply Hps'].
      unfold loaded_profile. by rewrite Hget.
    - exfalso. apply (dict_get_of_elem _ _ _ Hin). by rewrite Hget. }
  rewrite Hfix.
  assert (Hdef : is_Some (dict_get ps' DEFAULT_PROFILE)).
  { unfold ps'. destruct (dict_get ps DEFAULT_PROFILE) eqn:E; [by rewrite E|].
    rewrite dict_get_set_eq. by eexists. }
  destruct Hdef as [d Hd]. rewrite Hd.
  by destruct (active_file (fs w)).
Qed.

Lemma load_profiles_idempotent_witness :
  load_profiles (snd (load_profiles office_marker))
  = (Ok tt, snd (load_profiles office_marker)).
Proof.
  apply (load_profiles_idempotent office_marker _ office_marker_all_parse).
  reflexivity.
Defined.

(** ** More on saving the setup *)

(** X13. After [save_current_setup] has returned, the matcher finds for
    an output with a model and a serial the configuration that was
    captured of it, unless a later output of the query was recorded under
    the same ["{model}_{serial}"]. *)
Theorem save_current_setup_then_find (q : query) (profile_name : option string)
    (w : World) (pre post : list Monitor) (m : Monitor) (serial : string) (c : Config) :
  get_current_monitors q = Ok (pre ++ m :: post)%list ->
  (forall m', m' ∈ (pre ++ m :: post)%list -> capturable m') ->
  str_truthy (get_str (mon_model m)) = true ->
  mon_serial m = Some serial ->
  str_truthy serial = true ->
  capture (get_str (mon_model m)) m = Ok c ->
  (forall m', m' ∈ post -> (get_str (mon_model m) ++ "_" ++ serial) ∉ keys_written m') ->
  exists w',
    save_current_setup q profile_name w = (Ok tt, w')
    /\ find_best_config (daemon w') m = Ok (Some c).
Proof.
  intros Hms Hcap Hmodel Hserial Htruthy Hc Hpost.
  eexists. split; [by apply (save_current_setup_returns q profile_name w _ Hms)|].
  unfold find_best_config. cbn [daemon profiles active_profile_name].
  rewrite dict_get_set_eq. cbn [recorded prof_configs].
  unfold identifiers. cbn [first_hit]. unfold get_str at 2. rewrite Hserial.
  cbn [default from_option id].
  rewrite (record_all_last pre m post _ c); [done|done| |done].
  unfold keys_written. rewrite Hmodel, Hserial, Htruthy. right. left.
Qed.

Lemma save_current_setup_then_find_witness :
  exists w',
    save_current_setup three_outputs (Some "home") desk = (Ok tt, w')
    /\ find_best_config (daemon w') lg_monitor = Ok (Some cfg_lg).
Proof.
  assert (Hcap : forall m, m ∈ [lg_monitor; dell_monitor; acme_monitor] -> capturable m).
  { intros m Hm _. repeat (apply elem_of_cons in Hm as [->|Hm]);
      [by eexists|by eexists|by eexists|by apply elem_of_nil in Hm]. }
  assert (Hpost : forall m', m' ∈ [dell_monitor; acme_monitor] ->
                             ("LG" ++ "_" ++ "XYZ") ∉ keys_written m').
  { intros m' Hm'. repeat (apply elem_of_cons in Hm' as [->|Hm']);
      [compute_done|compute_done|by apply elem_of_nil in Hm']. }
  exact (save_current_setup_then_find three_outputs (Some "home") desk []
           [dell_monitor; acme_monitor] lg_monitor "XYZ" cfg_lg
           eq_refl Hcap eq_refl eq_refl eq_refl eq_refl Hpost).
Defined.

(** The world in which the loop of [save_current_setup] starts. *)
Lemma save_current_setup_loop_raises q profile_name w monitors e w3 :
  get_current_monitors q = Ok monitors ->
  for_each monitors (snapshot (target_name profile_name (daemon w)))
    (with_profile (target_name profile_name (daemon w))
       (target_profile profile_name (daemon w))
       (set_daemon (set_active_profile_name (target_name profile_name (daemon w))
                      (daemon w)) w))
  = (Raise e, w3) ->
  save_current_setup q profile_name w = (Raise e, w3).
Proof.
  intros Hms Hloop. unfold save_current_setup, target_profile in *.
  set (name := target_name profile_name (daemon w)) in *.
  set (w1 := set_daemon (set_active_profile_name name (daemon w)) w) in *.
  assert (Hfirst : match profile_name with
                   | Some n =>
                       if str_truthy n
                       then modify (fun w => set_daemon (set_active_profile_name n (daemon w)) w)
                       else mret tt
                   | None => mret tt
                   end w = (Ok tt, w1)).
  { unfold w1, name, target_name.
    destruct profile_name as [n|]; [destruct (str_truthy n)|]; try done;
      by destruct w as [[] ? ?]. }
  rewrite (bind_Ok _ _ _ _ _ Hfirst), (bind_lift_Ok _ _ _ _ Hms).
  mstep.
  change (active_profile_name (daemon w1)) with name.
  change (profiles (daemon w1)) with (profiles (daemon w)).
  destruct (dict_get (profiles (daemon w)) name) as [p0|] eqn:Hp0.
  - unfold mbind at 1, M_bind at 1, mret, M_ret.
    cbn [default from_option id] in Hloop.
    rewrite (with_profile_id name p0 w1 Hp0) in Hloop.
    by rewrite (bind_Raise _ _ _ _ _ Hloop).
  - unfold mbind at 1, M_bind at 1, store_profile, modify.
    fold (with_profile name (MonitorProfile_init name None) w1).
    by rewrite (bind_Raise _ _ _ _ _ Hloop).
Qed.

Lemma snapshot_raises name monitor w e :
  str_truthy (get_str (mon_model monitor)) = true ->
  capture (get_str (mon_model monitor)) monitor = Raise e ->
  snapshot name monitor w = (Raise e, w).
Proof.
  intros Hmodel Hc. unfold snapshot. rewrite Hmodel.
  by rewrite (bind_lift_Raise _ _ _ _ Hc).
Qed.

(** X14. When an output with a model lacks ['rect'] or ['current_mode']
    (or a coordinate), [save_current_setup] raises the [KeyError]: nothing
    is written to the profile directory, but in memory the active profile
    name is already the new one and the outputs before it are already
    recorded in the profile. *)
Theorem save_current_setup_capture_fails (q : query) (profile_name : option string)
    (w : World) (pre post : list Monitor) (m : Monitor) (e : exn) :
  get_current_monitors q = Ok (pre ++ m :: post)%list ->
  (forall m', m' ∈ pre -> capturable m') ->
  str_truthy (get_str (mon_model m)) = true ->
  capture (get_str (mon_model m)) m = Raise e ->
  exists w',
    save_current_setup q profile_name w = (Raise e, w')
    /\ fs w' = fs w
    /\ active_profile_name (daemon w') = target_name profile_name (daemon w)
    /\ dict_get (profiles (daemon w')) (target_name profile_name (daemon w))
       = Some (recorded pre (target_profile profile_name (daemon w))).
Proof.
  intros Hms Hpre Hmodel Hc. eexists. split.
  - apply (save_current_setup_loop_raises q profile_name w _ e _ Hms).
    rewrite for_each_app.
    rewrite (bind_Ok _ _ _ _ _ (snapshot_loop _ pre _ _ (with_profile_get _ _ _) Hpre)).
    simpl for_each. rewrite with_profile_twice.
    by rewrite (bind_Raise _ _ _ _ _ (snapshot_raises _ m _ e Hmodel Hc)).
  - split; [done|]. split; [done|]. apply with_profile_get.
Qed.

Lemma save_current_setup_capture_fails_witness :
  exists w',
    save_current_setup lg_headless_dell (Some "home") desk = (Raise (KeyError "rect"), w')
    /\ fs w' = fs desk
    /\ active_profile_name (daemon w') = "home"
    /\ dict_get (profiles (daemon w')) "home"
       = Some (recorded [lg_monitor] (MonitorProfile_init "home" None)).
Proof.
  assert (Hpre : forall m', m' ∈ [lg_monitor] -> capturable m').
  { intros m' ->%list_elem_of_singleton _. by eexists. }
  exact (save_current_setup_capture_fails lg_headless_dell (Some "home") desk
           [lg_monitor] [dell_monitor] headless_monitor (KeyError "rect")
           eq_refl Hpre eq_refl eq_refl).
Defined.

(** X15. [save_current_setup] sets the active profile name before it
    queries the outputs.  When the query raises and no profile of the new
    name is loaded, the daemon is left with an active profile that does
    not exist: nothing is written, and [find_best_config] raises
    [KeyError] for every output from then on. *)
Theorem save_current_setup_query_fails (q : query) (profile_name : option string)
    (w : World) (e : exn) :
  get_current_monitors q = Raise e ->
  dict_get (profiles (daemon w)) (target_name profile_name (daemon w)) = None ->
  exists w',
    save_current_setup q profile_name w = (Raise e, w')
    /\ fs w' = fs w
    /\ profiles (daemon w') = profiles (daemon w)
    /\ active_profile_name (daemon w') = target_name profile_name (daemon w)
    /\ (forall monitor,
          find_best_config (daemon w') monitor
          = Raise (KeyError (target_name profile_name (daemon w)))).
Proof.
  intros Hq Hnone.
  exists (set_daemon (set_active_profile_name (target_name profile_name (daemon w))
                        (daemon w)) w).
  split.
  - unfold save_current_setup.
    assert (Hfirst : match profile_name with
                     | Some n =>
                         if str_truthy n
                         then modify (fun w => set_daemon (set_active_profile_name n (daemon w)) w)
                         else mret tt
                     | None => mret tt
                     end w
                     = (Ok tt, set_daemon (set_active_profile_name
                                             (target_name profile_name (daemon w))
                                             (daemon w)) w)).
    { unfold target_name.
      destruct profile_name as [n|]; [destruct (str_truthy n)|]; try done;
        by destruct w as [[] ? ?]. }
    by rewrite (bind_Ok _ _ _ _ _ Hfirst), (bind_lift_Raise _ _ _ _ Hq).
  - split; [done|]. split; [done|]. split; [done|].
    intros monitor. by apply (find_best_config_missing (set_active_profile_name _ _)).
Qed.

Lemma save_current_setup_query_fails_witness :
  exists w',
    save_current_setup (QExited 0 Malformed) (Some "home") desk
    = (Raise JSONDecodeError, w')
    /\ fs w' = fs desk
    /\ active_profile_name (daemon w') = "home"
    /\ find_best_config (daemon w') dell_monitor = Raise (KeyError "home").
Proof.
  destruct (save_current_setup_query_fails (QExited 0 Malformed) (Some "home") desk
              JSONDecodeError eq_refl eq_refl)
    as (w' & Hsave & Hfs & _ & Hact & Hfind).
  exists w'. split; [exact Hsave|]. split; [exact Hfs|]. split; [exact Hact|].
  exact (Hfind dell_monitor).
Defined.

Lemma save_current_setup_quiet cmds s q profile_name :
  preserves (quiet cmds s) (save_current_setup q profile_name).
Proof.
  assert (Hset : forall name key config, preserves (quiet cmds s) (set_config name key config)).
  { intros name key config. apply preserves_modify. intros w Hw.
    by destruct (dict_get (profiles (daemon w)) name). }
  unfold save_current_setup. apply preserves_bind.
  { destruct profile_name as [n|]; [destruct (str_truthy n)|];
      try apply preserves_ret.
    by apply preserves_modify. }
  intros _. apply preserves_bind; [apply preserves_lift|]. intros monitors.
  apply preserves_bind; [apply preserves_get_world|]. intros w0.
  apply preserves_bind.
  { destruct (dict_get _ _); [apply preserves_ret|]. by apply preserves_modify. }
  intros _. apply preserves_bind.
  { apply preserves_for_each. intros m. unfold snapshot.
    destruct (str_truthy _); [|apply preserves_ret].
    apply preserves_bind; [apply preserves_lift|]. intros config.
    apply preserves_bind; [apply Hset|]. intros _.
    destruct (mon_serial m) as [serial|]; [|apply preserves_ret].
    destruct (str_truthy serial); [apply Hset|apply preserves_ret]. }
  intros _. apply preserves_bind; [apply preserves_get_world|]. intros w1.
  apply preserves_bind.
  { destruct (dict_get _ _); [|apply preserves_ret]. by apply preserves_modify. }
  intros _. by apply preserves_modify.
Qed.

(** X16. [save_current_setup] runs no [swaymsg output] command and does
    not touch the stored set of names, whether it returns or raises; and
    when it returns, every profile other than the one saved, in memory
    and in the directory, is as before. *)
Theorem save_current_setup_frame (q : query) (profile_name : option string) (w : World) :
  calls (snd (save_current_setup q profile_name w)) = calls w
  /\ current_monitors (daemon (snd (save_current_setup q profile_name w)))
     = current_monitors (daemon w)
  /\ (forall monitors,
        get_current_monitors q = Ok monitors ->
        (forall m, m ∈ monitors -> capturable m) ->
        fst (save_current_setup q profile_name w) = Ok tt
        /\ (forall k, k <> target_name profile_name (daemon w) ->
              dict_get (profiles (daemon (snd (save_current_setup q profile_name w)))) k
              = dict_get (profiles (daemon w)) k)
        /\ (forall k, k <> prof_name (target_profile profile_name (daemon w)) ->
              dict_get (profile_files (fs (snd (save_current_setup q profile_name w)))) k
              = dict_get (profile_files (fs w)) k)).
Proof.
  destruct (save_current_setup_quiet (calls w) (current_monitors (daemon w))
              q profile_name w) as [Hcalls Hcur]; [done|].
  split; [done|]. split; [done|].
  intros monitors Hms Hcap.
  rewrite (save_current_setup_returns q profile_name w monitors Hms Hcap).
  cbn [fst snd daemon fs profiles profile_files recorded prof_name].
  split; [done|]. split.
  - intros k Hk. by apply dict_get_set_ne.
  - intros k Hk. by rewrite !dict_get_set_ne.
Qed.

Lemma save_current_setup_frame_witness :
  calls (snd (save_current_setup three_outputs (Some "home") desk)) = []
  /\ dict_get (profiles (daemon (snd (save_current_setup three_outputs (Some "home") desk))))
       "office"
     = dict_get (profiles (daemon desk)) "office".
Proof.
  assert (Hcap : forall m, m ∈ [lg_monitor; dell_monitor; acme_monitor] -> capturable m).
  { intros m Hm _. repeat (apply elem_of_cons in Hm as [->|Hm]);
      [by eexists|by eexists|by eexists|by apply elem_of_nil in Hm]. }
  destruct (save_current_setup_frame three_outputs (Some "home") desk)
    as (Hcalls & _ & Hrest).
  split; [exact Hcalls|].
  destruct (Hrest _ eq_refl Hcap) as (_ & Hprofiles & _).
  by apply Hprofiles.
Defined.

(** ** Saving, then starting again *)

Lemma all_parse_written f name configs :
  all_parse f ->
  all_parse {| profile_files := dict_set (dict_set (profile_files f) name FEmpty) name
                                  (FDoc configs);
               active_file := Some name |}.
Proof.
  intros Hall k c. cbn [profile_files]. rewrite dict_set_set.
  destruct (decide (name = k)) as [<-|Hne].
  - rewrite dict_get_set_eq. intros [= <-]. by eexists.
  - rewrite dict_get_set_ne by done. apply Hall.
Qed.

(** What a new daemon loads after [save_current_setup] has returned. *)
Lemma save_then_load_profiles q n w monitors :
  get_current_monitors q = Ok monitors ->
  (forall m, m ∈ monitors -> capturable m) ->
  all_parse (fs w) ->
  profiles_named (profiles (daemon w)) ->
  str_truthy n = true ->
  exists w' w2,
    save_current_setup q (Some n) w = (Ok tt, w')
    /\ load_profiles (restarted w') = (Ok tt, w2)
    /\ fs w2 = fs w'
    /\ active_profile_name (daemon w2) = strip n
    /\ dict_get (profiles (daemon w')) n
       = Some (recorded monitors (target_profile (Some n) (daemon w)))
    /\ dict_get (profiles (daemon w2)) n
       = Some (MonitorProfile_init n
                 (Some (record_all monitors
                          (prof_configs (target_profile (Some n) (daemon w))))))
    /\ (forall k, k <> n -> k <> DEFAULT_PROFILE ->
                  dict_get (profile_files (fs w)) k = None ->
                  dict_get (profiles (daemon w2)) k = None).
Proof.
  intros Hms Hcap Hall Hnamed Hn.
  assert (Htarget : target_name (Some n) (daemon w) = n)
    by (unfold target_name; by rewrite Hn).
  pose proof (target_profile_named (Some n) (daemon w) Hnamed) as Hpn.
  rewrite Htarget in Hpn.
  pose proof (save_current_setup_returns q (Some n) w monitors Hms Hcap) as Hsave.
  cbn zeta in Hsave. cbn [recorded prof_name prof_configs] in Hsave.
  rewrite Htarget, Hpn in Hsave.
  set (cfgs := record_all monitors _) in *.
  match type of Hsave with _ = (_, ?x) => set (w' := x) in * end.
  assert (Hall' : all_parse (fs (restarted w'))) by (by apply all_parse_written).
  pose proof (load_profiles_parsed (restarted w') Hall') as Hload.
  match type of Hload with _ = (_, ?x) => set (w2 := x) in * end.
  exists w', w2. split; [exact Hsave|]. split; [exact Hload|].
  split; [done|]. split; [done|].
  split; [unfold w'; cbn [daemon profiles]; by rewrite dict_get_set_eq|].
  assert (Hfile : dict_get (profile_files (fs (restarted w'))) n = Some (FDoc cfgs)).
  { unfold w'. cbn [restarted fs profile_files]. by rewrite dict_get_set_eq. }
  unfold w2. cbn [daemon profiles].
  set (ps := load_all (fs (restarted w')) _ _).
  assert (Hps : dict_get ps n = Some (MonitorProfile_init n (Some cfgs)))
    by (by apply load_all_get_parsed).
  split.
  - destruct (dict_get ps DEFAULT_PROFILE) eqn:Hdef; [done|].
    rewrite dict_get_set_ne; [done|]. intros <-. congruence.
  - intros k Hk Hkd Hnone.
    assert (Hk' : dict_get ps k = None).
    { unfold ps. rewrite load_all_get_absent; [done|].
      unfold w'. cbn [restarted fs profile_files]. by rewrite !dict_get_set_ne. }
    destruct (dict_get ps DEFAULT_PROFILE); [done|].
    by rewrite dict_get_set_ne.
Qed.

(** X17. A profile name of plain text that is a stem and has no white
    space at its ends survives a restart: after [save_current_setup] to
    that name has returned, a new daemon that loads the directory has that
    profile as its active one, with the mapping that was saved, and the
    matcher returns. *)
Theorem save_current_setup_then_restart (q : query) (n : string) (w : World)
    (monitors : list Monitor) :
  get_current_monitors q = Ok monitors ->
  (forall m, m ∈ monitors -> capturable m) ->
  all_parse (fs w) ->
  flat_dir (fs w) ->
  profiles_named (profiles (daemon w)) ->
  str_truthy n = true ->
  plain_text n = true ->
  is_stem n = true ->
  strip n = n ->
  exists w' w2 p p2,
    save_current_setup q (Some n) w = (Ok tt, w')
    /\ load_profiles (restarted w') = (Ok tt, w2)
    /\ active_profile_name (daemon w2) = n
    /\ dict_get (profiles (daemon w')) n = Some p
    /\ dict_get (profiles (daemon w2)) n = Some p2
    /\ prof_configs p2 = prof_configs p
    /\ active_loaded (daemon w2).
Proof.
  intros Hms Hcap Hall _ Hnamed Hn _ _ Hstrip.
  destruct (save_then_load_profiles q n w monitors Hms Hcap Hall Hnamed Hn)
    as (w' & w2 & Hsave & Hload & _ & Hact & Hp & Hp2 & _).
  rewrite Hstrip in Hact.
  exists w', w2. eexists. eexists. split; [exact Hsave|]. split; [exact Hload|].
  split; [exact Hact|]. split; [exact Hp|]. split; [exact Hp2|].
  split; [by rewrite MonitorProfile_init_configs|].
  unfold active_loaded. rewrite Hact, Hp2. by eexists.
Qed.

Lemma desk_named : profiles_named (profiles (daemon desk)).
Proof.
  intros k p. cbn -[String.eqb].
  destruct (String.eqb_spec "default" k) as [<-|_]; [by intros [= <-]|].
  destruct (String.eqb_spec "office" k) as [<-|_]; [by intros [= <-]|done].
Qed.

Lemma three_outputs_capturable :
  forall m, m ∈ [lg_monitor; dell_monitor; acme_monitor] -> capturable m.
Proof.
  intros m Hm _. repeat (apply elem_of_cons in Hm as [->|Hm]);
    [by eexists|by eexists|by eexists|by apply elem_of_nil in Hm].
Qed.

Lemma save_current_setup_then_restart_witness :
  exists w' w2 p p2,
    save_current_setup three_outputs (Some "home") desk = (Ok tt, w')
    /\ load_profiles (restarted w') = (Ok tt, w2)
    /\ active_profile_name (daemon w2) = "home"
    /\ dict_get (profiles (daemon w')) "home" = Some p
    /\ dict_get (profiles (daemon w2)) "home" = Some p2
    /\ prof_configs p2 = prof_configs p
    /\ active_loaded (daemon w2).
Proof.
  assert (Hall : all_parse (fs desk)) by (by intros k c).
  assert (Hflat : flat_dir (fs desk)) by (by intros k Hk%elem_of_nil).
  exact (save_current_setup_then_restart three_outputs "home" desk _
           eq_refl three_outputs_capturable Hall Hflat desk_named
           eq_refl eq_refl eq_refl eq_refl).
Defined.

(** X18. A profile name of plain text that is a stem and has white space
    at an end does not survive a restart, because [load_profiles] strips
    the marker: after [save_current_setup] to such a name, a new daemon
    has the stripped name as its active profile, and when that name is
    not ["default"] and has no file [find_best_config] raises [KeyError]
    for every output. *)
Theorem save_current_setup_padded_name (q : query) (n : string) (w : World)
    (monitors : list Monitor) :
  get_current_monitors q = Ok monitors ->
  (forall m, m ∈ monitors -> capturable m) ->
  all_parse (fs w) ->
  flat_dir (fs w) ->
  profiles_named (profiles (daemon w)) ->
  str_truthy n = true ->
  plain_text n = true ->
  is_stem n = true ->
  strip n <> n ->
  strip n <> DEFAULT_PROFILE ->
  dict_get (profile_files (fs w)) (strip n) = None ->
  exists w' w2,
    save_current_setup q (Some n) w = (Ok tt, w')
    /\ active_profile_name (daemon w') = n
    /\ load_profiles (restarted w') = (Ok tt, w2)
    /\ active_profile_name (daemon w2) = strip n
    /\ (forall monitor,
          find_best_config (daemon w2) monitor = Raise (KeyError (strip n))).
Proof.
  intros Hms Hcap Hall _ Hnamed Hn _ _ Hstrip Hdef Hnone.
  destruct (save_then_load_profiles q n w monitors Hms Hcap Hall Hnamed Hn)
    as (w' & w2 & Hsave & Hload & _ & Hact & _ & _ & Hother).
  exists w', w2. split; [exact Hsave|]. split.
  { rewrite (save_current_setup_returns q (Some n) w monitors Hms Hcap) in Hsave.
    injection Hsave as <-. unfold target_name. by rewrite Hn. }
  split; [exact Hload|]. split; [exact Hact|].
  intros monitor. rewrite <- Hact. apply find_best_config_missing.
  rewrite Hact. by apply Hother.
Qed.

Lemma save_current_setup_padded_name_witness :
  exists w' w2,
    save_current_setup three_outputs (Some "home ") desk = (Ok tt, w')
    /\ active_profile_name (daemon w') = "home "
    /\ load_profiles (restarted w') = (Ok tt, w2)
    /\ active_profile_name (daemon w2) = "home"
    /\ find_best_config (daemon w2) dell_monitor = Raise (KeyError "home").
Proof.
  assert (Hall : all_parse (fs desk)) by (by intros k c).
  assert (Hstrip : strip "home " <> "home ") by (by vm_compute).
  assert (Hdef : strip "home " <> DEFAULT_PROFILE) by (by vm_compute).
  assert (Hflat : flat_dir (fs desk)) by (by intros k Hk%elem_of_nil).
  destruct (save_current_setup_padded_name three_outputs "home " desk _
              eq_refl three_outputs_capturable Hall Hflat desk_named
              eq_refl eq_refl eq_refl Hstrip Hdef eq_refl)
    as (w' & w2 & Hsave & Hact' & Hload & Hact & Hfind).
  exists w', w2. split; [exact Hsave|]. split; [exact Hact'|]. split; [exact Hload|].
  split; [exact Hact|]. exact (Hfind dell_monitor).
Defined.



(** ** Events and the start of the daemon *)

(** X20. Only [add] and [remove] events start a cycle, and a burst of
    them costs nothing once the outputs have settled: events whose action
    is another one, or whose query yields the stored set of names, leave
    the world as it is, however many they are. *)
Theorem handle_udev_events_settled (rt : Runtime) (events : list (string * query))
    (w : World) :
  (forall e, e ∈ events ->
             fst e ∉ ["add"; "remove"]
             \/ query_names (snd e) = Ok (current_monitors (daemon w))) ->
  handle_udev_events rt events w = (Ok tt, w).
Proof.
  unfold handle_udev_events. induction events as [|[action q] events IH]; intros H; [done|].
  simpl for_each.
  assert (Hfirst : handle_udev_event rt q action w = (Ok tt, w)).
  { unfold handle_udev_event. destruct (H (action, q)) as [Hother|Hsame]; [left| |].
    - simpl in Hother. by rewrite bool_decide_eq_false_2.
    - destruct (bool_decide _); [|done]. by apply (update_unchanged rt q w _ Hsame). }
  rewrite (bind_Ok _ _ _ _ _ Hfirst). apply IH. intros e He. apply H. by right.
Qed.

Lemma handle_udev_events_settled_witness :
  handle_udev_events rt_dp2_fails settled_events desk_reconciled = (Ok tt, desk_reconciled).
Proof.
  apply handle_udev_events_settled. intros e He.
  repeat (apply elem_of_cons in He as [->|He]); [| | |by apply elem_of_nil in He].
  - left. compute_done.
  - right. vm_compute. reflexivity.
  - right. vm_compute. reflexivity.
Defined.

(** X21. The start of the daemon.  When [load_profiles] returns, the
    query lists outputs that all have a name, commands can be started and
    the configurations matched among the loaded profiles are well formed,
    [run] reaches its idle loop: the profiles and the files are those
    [load_profiles] left, the names of the outputs are stored, and the
    commands run are those of the matched outputs, in the order of the
    listing, or none at all when the set of names is the one the daemon
    already had. *)
Theorem run_starts (rt : Runtime) (q : query) (w w1 : World)
    (monitors : list Monitor) (s : gset string) :
  load_profiles w = (Ok tt, w1) ->
  get_current_monitors q = Ok monitors ->
  monitor_names monitors = Ok s ->
  starts rt ->
  (forall m, m ∈ monitors -> appliable rt (daemon w1) m) ->
  exists w',
    run rt q w = (Ok tt, w')
    /\ current_monitors (daemon w') = s
    /\ profiles (daemon w') = profiles (daemon w1)
    /\ fs w' = fs w1
    /\ calls w'
       = (calls w1 ++ if decide (s = current_monitors (daemon w1)) then []
                      else omap (command_for rt (daemon w1)) monitors)%list.
Proof.
  intros Hload Hms Hs Hstarts Happ. unfold run.
  rewrite (bind_Ok _ _ _ _ _ Hload).
  destruct (decide (s = current_monitors (daemon w1))) as [Heq|Hne].
  - exists w1. rewrite app_nil_r. split; [|done].
    apply (update_unchanged rt q w1 s); [|done]. unfold query_names. by rewrite Hms.
  - eexists. split.
    + rewrite (update_changed rt q w1 monitors s Hms Hs Hne).
      rewrite (for_each_configure rt Hstarts monitors w1); [done|].
      intros m Hm. split; [by apply (monitor_names_named monitors s)|by apply Happ].
    + done.
Qed.

(** The scenario of the specification, from the files on disk. *)
Lemma run_starts_witness :
  exists w',
    run rt_dp2_fails scenario_query scenario_start = (Ok tt, w')
    /\ current_monitors (daemon w') = {["DP-1"]}
    /\ calls w' = [["swaymsg"; "output"; "DP-1"; "pos"; "0"; "0";
                    "res"; "2560"; "1440"; "scale"; "1.0"; "transform"; "normal"]].
Proof.
  assert (Happ : forall m, m ∈ [{| mon_name := Some "DP-1"; mon_model := Some "LG";
                                   mon_serial := Some "XYZ"; mon_rect := None;
                                   mon_current_mode := None; mon_scale := None;
                                   mon_transform := None; mon_disabled := None |}] ->
                           appliable rt_dp2_fails
                             (daemon (snd (load_profiles scenario_start))) m).
  { intros m ->%list_elem_of_singleton. exists (Some cfg_office).
    split; [by vm_compute|]. intros c [= <-]. by eexists. }
  destruct (run_starts rt_dp2_fails scenario_query scenario_start
              (snd (load_profiles scenario_start)) _ {["DP-1"]}
              eq_refl eq_refl eq_refl rt_dp2_fails_starts Happ)
    as (w' & Hrun & Hcur & _ & _ & Hcalls).
  exists w'. split; [exact Hrun|]. split; [exact Hcur|]. exact Hcalls.
Defined.

(** ** The front-end and the daemon on one directory *)

Lemma dict_get_del_ne {V} (d : pydict V) k k' :
  k <> k' -> dict_get (dict_del d k) k' = dict_get d k'.
Proof.
  intros Hne. induction d as [|[k0 v0] d IH]; [done|]. simpl.
  destruct (String.eqb_spec k0 k) as [->|Hne0]; simpl.
  - by destruct (String.eqb_spec k k').
  - by rewrite IH.
Qed.

Lemma dict_get_absent {V} (d : pydict V) k : k ∉ dict_keys d -> dict_get d k = None.
Proof.
  intros Hk. destruct (dict_get d k) as [v|] eqn:E; [|done].
  exfalso. apply Hk. by apply (dict_get_keys d k v).
Qed.

Lemma dict_get_del_eq {V} (d : pydict V) k : dict_wf d -> dict_get (dict_del d k) k = None.
Proof.
  unfold dict_wf. induction d as [|[k0 v0] d IH]; [done|]. simpl.
  intros [Hfresh Hnd]%NoDup_cons.
  destruct (String.eqb_spec k0 k) as [->|Hne]; simpl.
  - by apply dict_get_absent.
  - destruct (String.eqb_spec k0 k); [done|]. by apply IH.
Qed.

(** X22. A profile that the front-end saves is the profile that the
    daemon loads: after [save_profile] the file of the name holds the
    mapping, [MonitorProfile.load] returns it, and the other files and the
    marker are untouched.  The profile ["(Current)"] is kept in memory
    only. *)
Theorem save_profile_then_load (name : string) (config : gmap string Config)
    (m : Manager) (w : World) :
  (name <> CURRENT_PROFILE ->
   let f' := snd (SwayMonitorManager_save_profile name config m (fs w)) in
   (exists p, MonitorProfile_load name (set_fs f' w) = (Ok p, set_fs f' w)
              /\ prof_name p = name /\ prof_configs p = config)
   /\ (forall k, k <> name ->
                 dict_get (profile_files f') k = dict_get (profile_files (fs w)) k)
   /\ active_file f' = active_file (fs w))
  /\ snd (SwayMonitorManager_save_profile CURRENT_PROFILE config m (fs w)) = fs w
  /\ dict_get (mgr_profiles (fst (SwayMonitorManager_save_profile name config m (fs w))))
       name = Some config.
Proof.
  split; [|split].
  - intros Hname. unfold SwayMonitorManager_save_profile.
    rewrite decide_True by done. cbn [snd]. split; [|split].
    + eexists. split.
      * unfold MonitorProfile_load. mstep. cbn [fs set_fs json_dump profile_files].
        rewrite dict_get_set_eq. reflexivity.
      * split; [done|]. apply MonitorProfile_init_configs.
    + intros k Hk. cbn [json_dump open_w profile_files]. by rewrite !dict_get_set_ne.
    + done.
  - unfold SwayMonitorManager_save_profile. by rewrite decide_False by (by intros []).
  - apply dict_get_set_eq.
Qed.

Lemma save_profile_then_load_witness :
  exists p,
    MonitorProfile_load "travel"
      (set_fs (snd (SwayMonitorManager_save_profile "travel" {["DELL" := cfg_1440p]}
                      manager_loaded (fs office_marker))) office_marker)
    = (Ok p, set_fs (snd (SwayMonitorManager_save_profile "travel" {["DELL" := cfg_1440p]}
                            manager_loaded (fs office_marker))) office_marker)
    /\ prof_name p = "travel" /\ prof_configs p = {["DELL" := cfg_1440p]}.
Proof.
  assert (Hname : "travel" <> CURRENT_PROFILE) by (by vm_compute).
  exact (proj1 (proj1 (save_profile_then_load "travel" {["DELL" := cfg_1440p]}
                         manager_loaded office_marker) Hname)).
Defined.

Lemma all_parse_unlink f name :
  dict_wf (profile_files f) -> all_parse f -> all_parse (unlink name f).
Proof.
  intros Hwf Hall k c. cbn [unlink profile_files].
  destruct (decide (name = k)) as [<-|Hne].
  - by rewrite dict_get_del_eq.
  - rewrite dict_get_del_ne by done. apply Hall.
Qed.

(** X23. Removing a profile in the front-end leaves the marker alone.
    When the removed profile is the one the marker names (a stem of plain
    text without white space at its ends), a daemon that starts afterwards
    loads the directory, takes the name from the marker and raises
    [KeyError] in [find_best_config] for every output. *)
Theorem remove_profile_stale_marker (name : string) (m : Manager) (w : World)
    (c : file) (config : gmap string Config) :
  name <> CURRENT_PROFILE ->
  name <> DEFAULT_PROFILE ->
  dict_wf (profile_files (fs w)) ->
  all_parse (fs w) ->
  flat_dir (fs w) ->
  dict_get (profile_files (fs w)) name = Some c ->
  dict_get (mgr_profiles m) name = Some config ->
  active_file (fs w) = Some name ->
  plain_text name = true ->
  strip name = name ->
  exists m' f' w2,
    SwayMonitorManager_remove_profile name m (fs w) = (Ok true, (m', f'))
    /\ dict_get (profile_files f') name = None
    /\ active_file f' = Some name
    /\ load_profiles {| daemon := MonitorDaemon_init; fs := f'; calls := [] |} = (Ok tt, w2)
    /\ (forall monitor, find_best_config (daemon w2) monitor = Raise (KeyError name)).
Proof.
  intros Hcur Hdef Hwf Hall _ Hfile Hmem Hmarker _ Hstrip.
  eexists. eexists. eexists. split.
  { unfold SwayMonitorManager_remove_profile.
    rewrite decide_False by done. by rewrite Hfile, Hmem. }
  assert (Hgone : dict_get (profile_files (unlink name (fs w))) name = None)
    by (by apply dict_get_del_eq).
  split; [exact Hgone|]. split; [done|].
  split.
  { apply (load_profiles_parsed {| daemon := MonitorDaemon_init;
                                   fs := unlink name (fs w); calls := [] |}).
    by apply all_parse_unlink. }
  intros monitor. cbn [daemon fs unlink active_file]. rewrite Hmarker, Hstrip.
  apply (find_best_config_missing {| active_profile_name := name |}).
  cbn [profiles active_profile_name].
  set (ps := load_all _ _ _).
  assert (Hps : dict_get ps name = None)
    by (unfold ps; by rewrite load_all_get_absent).
  destruct (dict_get ps DEFAULT_PROFILE); [done|]. by rewrite dict_get_set_ne.
Qed.

Lemma remove_profile_stale_marker_witness :
  exists m' f' w2,
    SwayMonitorManager_remove_profile "office" manager_loaded (fs office_marker)
    = (Ok true, (m', f'))
    /\ dict_get (profile_files f') "office" = None
    /\ active_file f' = Some "office"
    /\ load_profiles {| daemon := MonitorDaemon_init; fs := f'; calls := [] |} = (Ok tt, w2)
    /\ (forall monitor, find_best_config (daemon w2) monitor = Raise (KeyError "office")).
Proof.
  assert (Hcur : "office" <> CURRENT_PROFILE) by (by vm_compute).
  assert (Hdef : "office" <> DEFAULT_PROFILE) by (by vm_compute).
  assert (Hwf : dict_wf (profile_files (fs office_marker))).
  { unfold dict_wf. simpl. compute_done. }
  exact (remove_profile_stale_marker "office" manager_loaded office_marker _ _
           Hcur Hdef Hwf office_marker_all_parse office_marker_flat
           eq_refl eq_refl eq_refl eq_refl eq_refl).
Defined.

(** X24. [remove_profile] deletes the file before it deletes the entry
    of [self.profiles].  For a profile whose file exists but which the
    front-end has not loaded it raises [KeyError], and the file is gone
    all the same; for ["(Current)"] and for a name without a file it
    returns [False] and changes nothing. *)
Theorem remove_profile_not_loaded (name : string) (m : Manager) (f : FS) :
  (name <> CURRENT_PROFILE ->
   dict_wf (profile_files f) ->
   is_Some (dict_get (profile_files f) name) ->
   dict_get (mgr_profiles m) name = None ->
   exists f',
     SwayMonitorManager_remove_profile name m f = (Raise (KeyError name), (m, f'))
     /\ dict_get (profile_files f') name = None
     /\ (forall k, k <> name -> dict_get (profile_files f') k = dict_get (profile_files f) k))
  /\ SwayMonitorManager_remove_profile CURRENT_PROFILE m f = (Ok false, (m, f))
  /\ (dict_get (profile_files f) name = None ->
      SwayMonitorManager_remove_profile name m f = (Ok false, (m, f))).
Proof.
  split; [|split].
  - intros Hcur Hwf [c Hfile] Hmem. exists (unlink name f). split; [|split].
    + unfold SwayMonitorManager_remove_profile.
      rewrite decide_False by done. by rewrite Hfile, Hmem.
    + by apply dict_get_del_eq.
    + intros k Hk. by apply dict_get_del_ne.
  - done.
  - intros Hfile. unfold SwayMonitorManager_remove_profile.
    destruct (decide (name = CURRENT_PROFILE)); [done|]. by rewrite Hfile.
Qed.

Lemma remove_profile_not_loaded_witness :
  exists f',
    SwayMonitorManager_remove_profile "home" manager_early (fs office_marker)
    = (Raise (KeyError "home"), (manager_early, f'))
    /\ dict_get (profile_files f') "home" = None.
Proof.
  assert (Hcur : "home" <> CURRENT_PROFILE) by (by vm_compute).
  assert (Hwf : dict_wf (profile_files (fs office_marker))).
  { unfold dict_wf. simpl. compute_done. }
  assert (Hfile : is_Some (dict_get (profile_files (fs office_marker)) "home"))
    by (by eexists).
  destruct (proj1 (remove_profile_not_loaded "home" manager_early (fs office_marker))
              Hcur Hwf Hfile eq_refl) as (f' & Hrm & Hgone & _).
  exists f'. split; [exact Hrm|exact Hgone].
Defined.

(** The loop of the front-end over files that all parse. *)
Lemma manager_load_files_parsed f ks m :
  all_parse f -> ks ⊆ dict_keys (profile_files f) ->
  exists m',
    SwayMonitorManager_load_files f ks m = (Ok tt, m')
    /\ forall k configs,
         k ∈ ks -> dict_get (profile_files f) k = Some (FDoc configs) ->
         dict_get (mgr_profiles m') k = Some configs.
Proof.
  intros Hall. revert m.
  assert (Hkeep : forall ks m m' k configs,
             dict_get (profile_files f) k = Some (FDoc configs) ->
             dict_get (mgr_profiles m) k = Some configs ->
             SwayMonitorManager_load_files f ks m = (Ok tt, m') ->
             dict_get (mgr_profiles m') k = Some configs).
  { clear ks. induction ks as [|k0 ks IH]; intros m m' k configs Hk Hm Hload.
    - simpl in Hload. by injection Hload as <-.
    - simpl in Hload.
      destruct (dict_get (profile_files f) k0) as [c0|] eqn:Hk0; [|done].
      destruct (json_load c0) as [configs0|] eqn:Hc0; [|done].
      apply (IH _ _ k configs Hk) in Hload; [done|]. cbn [mgr_profiles].
      destruct (decide (k0 = k)) as [->|Hne].
      + rewrite dict_get_set_eq. rewrite Hk in Hk0. injection Hk0 as <-.
        by injection Hc0 as ->.
      + by rewrite dict_get_set_ne. }
  induction ks as [|k0 ks IH]; intros m Hks.
  - exists m. split; [done|]. by intros k configs ?%elem_of_nil.
  - assert (Hk0 : k0 ∈ dict_keys (profile_files f)) by (apply Hks; left).
    apply list_elem_of_fmap in Hk0 as ([k' c] & -> & Hin). simpl.
    destruct (dict_get (profile_files f) k') as [c'|] eqn:Hget;
      [|by apply dict_get_of_elem in Hin].
    destruct (Hall k' c' Hget) as [configs' ->]. cbn [json_load].
    destruct (IH {| mgr_profiles := dict_set (mgr_profiles m) k' configs' |})
      as (m' & Hload & Hm'); [intros x Hx; apply Hks; by right|].
    exists m'. split; [done|].
    intros k configs [->|Hk]%elem_of_cons Hfile; [|by apply Hm'].
    apply (Hkeep ks {| mgr_profiles := dict_set (mgr_profiles m) k' configs' |}
             m' k' configs Hfile); [|done].
    cbn [mgr_profiles]. rewrite dict_get_set_eq. congruence.
Qed.

Lemma manager_load_files_rejected f ks m k c :
  k ∈ ks -> dict_get (profile_files f) k = Some c ->
  json_load c = Raise JSONDecodeError ->
  (forall k', k' ∈ ks -> dict_get (profile_files f) k' <> None) ->
  exists m', SwayMonitorManager_load_files f ks m = (Raise JSONDecodeError, m').
Proof.
  intros Hin Hk Hc. revert m. induction ks as [|k0 ks IH]; intros m Hfiles.
  - by apply elem_of_nil in Hin.
  - simpl. destruct (dict_get (profile_files f) k0) as [c0|] eqn:Hk0.
    2:{ exfalso. apply (Hfiles k0); [left|done]. }
    destruct c0 as [configs| |]; cbn [json_load]; [|by eexists|by eexists].
    apply elem_of_cons in Hin as [->|Hin].
    + rewrite Hk in Hk0. injection Hk0 as ->. done.
    + apply IH; [done|]. intros k' Hk'. apply Hfiles. by right.
Qed.

(** X25. On a directory whose files are kept under their stems, the
    front-end and the daemon read the directory alike.  When every file
    parses, both load it, and for every file the mapping in the front-end
    is the mapping of the daemon's profile; a file that does not parse
    makes both raise the decoder's error. *)
Theorem load_profiles_agree (m : Manager) (w : World) :
  flat_dir (fs w) ->
  (all_parse (fs w) ->
   exists m' w',
     SwayMonitorManager_load_profiles (fs w) m = (Ok tt, m')
     /\ load_profiles w = (Ok tt, w')
     /\ forall k configs,
          dict_get (profile_files (fs w)) k = Some (FDoc configs) ->
          dict_get (mgr_profiles m') k = Some configs
          /\ exists p, dict_get (profiles (daemon w')) k = Some p
                       /\ prof_configs p = configs)
  /\ (forall k c,
        dict_get (profile_files (fs w)) k = Some c ->
        json_load c = Raise JSONDecodeError ->
        (exists m', SwayMonitorManager_load_profiles (fs w) m = (Raise JSONDecodeError, m'))
        /\ exists w', load_profiles w = (Raise JSONDecodeError, w')).
Proof.
  intros _. split.
  - intros Hall.
    destruct (manager_load_files_parsed (fs w) (dict_keys (profile_files (fs w))) m Hall)
      as (m' & Hload & Hm'); [done|].
    exists m'. eexists. split; [exact Hload|].
    split; [by apply load_profiles_parsed|].
    intros k configs Hk. split; [apply Hm'; [by apply (dict_get_keys _ _ _ Hk)|done]|].
    exists (MonitorProfile_init k (Some configs)).
    split; [|apply MonitorProfile_init_configs].
    cbn [daemon profiles]. set (ps := load_all _ _ _).
    assert (Hps : dict_get ps k = Some (MonitorProfile_init k (Some configs)))
      by (by apply load_all_get_parsed).
    destruct (dict_get ps DEFAULT_PROFILE) eqn:Hdef; [done|].
    rewrite dict_get_set_ne; [done|]. intros <-. congruence.
  - intros k c Hk Hc. split.
    + apply (manager_load_files_rejected _ _ _ k c); [by apply (dict_get_keys _ _ _ Hk)|done|done|].
      intros k' ([k'' c'] & -> & Hin)%list_elem_of_fmap. by apply (dict_get_of_elem _ _ c').
    + by apply (load_profiles_rejected w k c).
Qed.

Lemma broken_dir_flat : flat_dir (fs broken_dir).
Proof.
  intros k Hk. cbn in Hk.
  repeat (apply elem_of_cons in Hk as [->|Hk]); try done. by apply elem_of_nil in Hk.
Qed.

Lemma load_profiles_agree_witness :
  (exists m' w',
     SwayMonitorManager_load_profiles (fs office_marker) {| mgr_profiles := [] |} = (Ok tt, m')
     /\ load_profiles office_marker = (Ok tt, w')
     /\ dict_get (mgr_profiles m') "home" = Some {["DELL" := cfg_1080p]}
     /\ exists p, dict_get (profiles (daemon w')) "home" = Some p
                  /\ prof_configs p = {["DELL" := cfg_1080p]})
  /\ (exists m', SwayMonitorManager_load_profiles (fs broken_dir) {| mgr_profiles := [] |}
                 = (Raise JSONDecodeError, m')).
Proof.
  split.
  - destruct (proj1 (load_profiles_agree {| mgr_profiles := [] |} office_marker
                       office_marker_flat)
                office_marker_all_parse) as (m' & w' & Hm & Hd & Hsame).
    exists m', w'. split; [exact Hm|]. split; [exact Hd|].
    exact (Hsame "home" {["DELL" := cfg_1080p]} eq_refl).
  - exact (proj1 (proj2 (load_profiles_agree {| mgr_profiles := [] |} broken_dir
                           broken_dir_flat)
                    "work" FCorrupt eq_refl eq_refl)).
Defined.

(** X26. [update_profile] never adds a profile.  The names of the
    front-end's profiles stay as they were, in their order; every other
    profile, every other file and the marker are untouched; it returns
    [True] exactly for a name that was loaded, and then the profile is the
    new mapping and, for every name but ["(Current)"], so is its file;
    when it returns [False] nothing has changed. *)
Theorem update_profile_keeps_names (name : string) (config : gmap string Config)
    (m : Manager) (f : FS) :
  let r := SwayMonitorManager_update_profile name config m f in
  dict_keys (mgr_profiles (fst (snd r))) = dict_keys (mgr_profiles m)
  /\ (forall k, k <> name ->
        dict_get (mgr_profiles (fst (snd r))) k = dict_get (mgr_profiles m) k
        /\ dict_get (profile_files (snd (snd r))) k = dict_get (profile_files f) k)
  /\ active_file (snd (snd r)) = active_file f
  /\ (fst r = true <-> name ∈ dict_keys (mgr_profiles m))
  /\ (fst r = true ->
        dict_get (mgr_profiles (fst (snd r))) name = Some config
        /\ (name <> CURRENT_PROFILE ->
            dict_get (profile_files (snd (snd r))) name = Some (FDoc config))
        /\ (name = CURRENT_PROFILE -> snd (snd r) = f))
  /\ (fst r = false -> snd r = (m, f)).
Proof.
  unfold SwayMonitorManager_update_profile, SwayMonitorManager_save_profile.
  destruct (dict_get (mgr_profiles m) name) as [old|] eqn:Hname; cbn [fst snd mgr_profiles].
  - pose proof (dict_get_keys _ _ _ Hname) as Hin.
    split; [by rewrite dict_keys_set, decide_True|].
    split.
    { intros k Hk. split; [by apply dict_get_set_ne|].
      destruct (decide (name <> CURRENT_PROFILE)); [|done].
      cbn [json_dump open_w profile_files].
      by rewrite !dict_get_set_ne. }
    split; [by destruct (decide (name <> CURRENT_PROFILE))|].
    split; [done|].
    split; [|done]. intros _.
    split; [apply dict_get_set_eq|].
    split; intros Hcur.
    + rewrite decide_True by done. cbn [json_dump profile_files]. apply dict_get_set_eq.
    + by rewrite decide_False by (by intros []).
  - split; [done|]. split; [done|]. split; [done|].
    split; [|done]. split; [done|].
    intros Hin. apply list_elem_of_fmap in Hin as ([k v] & -> & Hin).
    by apply dict_get_of_elem in Hin.
Qed.

Lemma update_profile_keeps_names_witness :
  let r := SwayMonitorManager_update_profile "home" {["DELL" := cfg_1440p]}
             manager_loaded (fs office_marker) in
  "office" <> "home"
  /\ dict_keys (mgr_profiles (fst (snd r))) = ["office"; "home"]
  /\ dict_get (mgr_profiles (fst (snd r))) "office" = Some {["LG_XYZ" := cfg_lg]}
  /\ dict_get (profile_files (snd (snd r))) "home" = Some (FDoc {["DELL" := cfg_1440p]}).
Proof.
  intros r.
  destruct (update_profile_keeps_names "home" {["DELL" := cfg_1440p]}
              manager_loaded (fs office_marker))
    as (Hkeys & Hother & _ & Hret & Hnew & _).
  assert (Hne : "office" <> "home") by done.
  split; [exact Hne|].
  split; [exact Hkeys|].
  split; [exact (proj1 (Hother "office" Hne))|].
  refine (proj1 (proj2 (Hnew _)) _); [apply Hret; compute_done|done].
Defined.
